(** * Guest-to-host MPI translation layer (src/wavm/mpi.cpp)

    A shallow embedding of the WAVM intrinsics that Faasm exposes to a
    sandboxed MPI guest.  Every intrinsic is a computation over an explicit
    host state (guest linear memory, the thread-local [ctx], the invoking
    call record, the coordination engine's state) that either returns a
    value, throws, or runs into undefined behaviour.

    What the file [mpi.cpp] uses without defining it (faabric's [mpi.h]
    constants and descriptor layouts, the coordination engine behind
    [MpiWorld]) is taken as a parameter: the classes [GuestAbi] and [Engine]
    below.  The theorems hold for every instance of them; a small sample
    instance is there to run the model on. *)

From Stdlib Require Import ZArith List String Bool Lia.
Import ListNotations.
Local Open Scope Z_scope.

(** ** Machine integers

    Guest arguments are [I32] values; the host converts them implicitly to
    [U8], [U32] or [Uptr] (an unsigned 64-bit offset).  All of them are
    carried as [Z] with the conversion written out. *)

Definition INT_MIN : Z := - 2 ^ 31.
Definition INT_MAX : Z := 2 ^ 31 - 1.

Definition in_I32 (z : Z) : Prop := INT_MIN <= z <= INT_MAX.
Definition in_I32b (z : Z) : bool := (INT_MIN <=? z) && (z <=? INT_MAX).

Definition to_U8 (z : Z) : Z := z mod 2 ^ 8.
Definition to_U32 (z : Z) : Z := z mod 2 ^ 32.
Definition to_Uptr (z : Z) : Z := z mod 2 ^ 64.
Definition to_I32 (z : Z) : Z := (z + 2 ^ 31) mod 2 ^ 32 - 2 ^ 31.

(** C++ [int] arithmetic: signed overflow and division by zero are undefined
    behaviour, reported here as [None]. *)
Definition int_mul (a b : Z) : option Z :=
  if in_I32b (a * b) then Some (a * b) else None.

Definition int_rem (a b : Z) : option Z :=
  if b =? 0 then None
  else if (a =? INT_MIN) && (b =? -1) then None
  else Some (Z.rem a b).

Definition int_div (a b : Z) : option Z :=
  if b =? 0 then None
  else if (a =? INT_MIN) && (b =? -1) then None
  else Some (Z.quot a b).

(** ** Guest linear memory

    A byte-addressed memory of [mem_size] mapped bytes that may grow up to
    [mem_max] bytes.  [int] fields are
    four bytes, little endian, as on the wasm32 guest and the x86 host. *)

Record Memory := mkMemory { mem_size : Z; mem_max : Z; mem_byte : Z -> Z }.

Definition store_byte (m : Memory) (a v : Z) : Memory :=
  mkMemory (mem_size m) (mem_max m)
    (fun x => if x =? a then v mod 256 else mem_byte m x).

Definition load_i32 (m : Memory) (a : Z) : Z :=
  to_I32 (mem_byte m a + 2 ^ 8 * mem_byte m (a + 1)
          + 2 ^ 16 * mem_byte m (a + 2) + 2 ^ 24 * mem_byte m (a + 3)).

Definition store_i32 (m : Memory) (a v : Z) : Memory :=
  store_byte (store_byte (store_byte (store_byte m a v)
    (a + 1) (v / 2 ^ 8)) (a + 2) (v / 2 ^ 16)) (a + 3) (v / 2 ^ 24).

Fixpoint store_bytes (m : Memory) (a : Z) (bs : list Z) : Memory :=
  match bs with
  | [] => m
  | b :: bs' => store_bytes (store_byte m a b) (a + 1) bs'
  end.

Definition load_bytes (m : Memory) (a : Z) (n : nat) : list Z :=
  map (fun i => mem_byte m (a + Z.of_nat i)) (seq 0 n).

(** [getValidatedMemoryOffsetRange]: the range [address, address+numBytes)
    lies inside the mapped memory.  Both arguments are [Uptr] values. *)
Definition validRange (m : Memory) (address numBytes : Z) : bool :=
  address + numBytes <=? mem_size m.

(** A guest range given by an [I32] pointer is mapped. *)
Definition mapped (m : Memory) (wasmPtr numBytes : Z) : Prop :=
  validRange m (to_Uptr wasmPtr) numBytes = true.

(** A host pointer into guest memory, with the extent that was validated
    when it was resolved ([Runtime::memoryArrayPtr]). *)
Record View := mkView { view_base : Z; view_stride : Z; view_count : Z }.

Definition view_bytes (v : View) : Z := to_Uptr (view_count v * view_stride v).

(** The view of [numElements] elements of [sizeofT] bytes at the guest
    offset [offset]; both arrive as [Uptr]. *)
Definition arrayView (sizeofT offset numElements : Z) : View :=
  mkView (to_Uptr offset) sizeofT (to_Uptr numElements).

Definition viewMapped (m : Memory) (v : View) : Prop :=
  validRange m (view_base v) (view_bytes v) = true.

(** ** Constants and layouts of faabric's [mpi.h]

    [mpi.cpp] compares against [FAABRIC_IN_PLACE], [FAABRIC_COMM_WORLD] and
    [FAABRIC_INFO_NULL] and overlays the descriptor structs on guest memory;
    their values and layouts are declared in faabric's header and are
    parameters here.  Every descriptor field read by this file is an [int]. *)

Class GuestAbi := {
  FAABRIC_IN_PLACE : Z;
  FAABRIC_COMM_WORLD : Z;
  FAABRIC_INFO_NULL : Z;
  sizeof_communicator : Z;
  offsetof_communicator_id : Z;
  sizeof_datatype : Z;
  offsetof_datatype_size : Z;
  sizeof_info : Z;
  offsetof_info_id : Z;
  sizeof_op : Z;
  sizeof_status : Z;
  offsetof_status_bytesSize : Z
}.

(** [MPI_SUCCESS]; [MPI_Init], [MPI_Send] and [MPI_Recv] report success with
    the literal [0]. *)
Definition MPI_SUCCESS : Z := 0.

(** Modelled from the spec: [MPI_CART_MAX_DIMENSIONS], declared in faabric's
    header; the spec fixes the synthetic topology to two dimensions. *)
Definition MPI_CART_MAX_DIMENSIONS : Z := 2.

(** The page size of the sandbox's linear memory (64 KiB wasm pages). *)
Definition WASM_BYTES_PER_PAGE : Z := 65536.

(** Modelled from the spec: [roundUpToWasmPageAligned], defined outside
    [mpi.cpp]; the least page-aligned amount that is at least [nBytes]. *)
Definition roundUpToWasmPageAligned (nBytes : Z) : Z :=
  (nBytes + WASM_BYTES_PER_PAGE - 1) / WASM_BYTES_PER_PAGE * WASM_BYTES_PER_PAGE.

(** The invoking call record ([faabric::Message]); only the two fields read
    or written by [MPI_Init].  A field that was never set reads as [0]. *)
Record Message := mkMessage {
  mpirank_field : option Z;
  mpiworldid_field : option Z
}.

Definition mpirank (msg : Message) : Z :=
  match mpirank_field msg with Some r => r | None => 0 end.

Definition mpiworldid (msg : Message) : Z :=
  match mpiworldid_field msg with Some w => w | None => 0 end.

Definition set_mpiworldid (msg : Message) (worldId : Z) : Message :=
  mkMessage (mpirank_field msg) (Some worldId).

(** ** The coordination engine

    Calls on [MpiWorld], by the method's name and with the arguments in the
    order [mpi.cpp] passes them.  Host pointers to buffers are [View]s, host
    pointers to descriptors and status records are their guest addresses.
    The message type [broadcast] is given is always [BROADCAST] and is left
    out; results written through host pointers to locals ([getRankFromCoords],
    [shiftCartesianCoords]) are part of the reply. *)

Module MpiWorld.

Inductive Call :=
| getSize
| send (sendRank recvRank : Z) (buffer : View) (dataType count : Z)
| isend (sendRank recvRank : Z) (buffer : View) (dataType count : Z)
| recv (sendRank recvRank : Z) (buffer : View) (dataType count status : Z)
| irecv (sendRank recvRank : Z) (buffer : View) (dataType count : Z)
| sendRecv (sendBuffer : View) (sendCount sendDataType sendRank : Z)
           (recvBuffer : View) (recvCount recvDataType recvRank myRank status : Z)
| awaitAsyncRequest (requestId : Z)
| destroy
| probe (sendRank recvRank status : Z)
| broadcast (sendRank recvRank : Z) (buffer : View) (dataType count : Z)
| barrier (thisRank : Z)
| scatter (sendRank recvRank : Z) (sendBuffer : View) (sendType sendCount : Z)
          (recvBuffer : View) (recvType recvCount : Z)
| gather (sendRank recvRank : Z) (sendBuffer : View) (sendType sendCount : Z)
         (recvBuffer : View) (recvType recvCount : Z)
| allGather (thisRank : Z) (sendBuffer : View) (sendType sendCount : Z)
            (recvBuffer : View) (recvType recvCount : Z)
| reduce (sendRank recvRank : Z) (sendBuffer recvBuffer : View)
         (datatype count operation : Z)
| allReduce (thisRank : Z) (sendBuffer recvBuffer : View)
            (datatype count operation : Z)
| scan (thisRank : Z) (sendBuffer recvBuffer : View)
       (datatype count operation : Z)
| allToAll (thisRank : Z) (sendBuffer : View) (sendType sendCount : Z)
           (recvBuffer : View) (recvType recvCount : Z)
| getRankFromCoords (coords : View)
| getCartesianRank (thisRank maxDims : Z) (dims periods coords : View)
| shiftCartesianCoords (thisRank direction disp : Z).

End MpiWorld.

(** Calls on the thread-local [executingContext] and on the world registry,
    and calls on the world with identifier [worldId]. *)
Inductive EngineCall :=
| createWorld (msg : Message)
| joinWorld (msg : Message)
| getWorld (worldId : Z)
| onWorld (worldId : Z) (c : MpiWorld.Call).

(** What a call hands back to [mpi.cpp]: nothing, an [int] (the return value
    or the one [int] written through a host pointer), or the two ranks
    [shiftCartesianCoords] writes. *)
Inductive ReplyKind := NoReply | IntReply | PairReply.

Definition Reply (k : ReplyKind) : Type :=
  match k with
  | NoReply => unit
  | IntReply => Z
  | PairReply => (Z * Z)%type
  end.

Definition world_reply_kind (c : MpiWorld.Call) : ReplyKind :=
  match c with
  | MpiWorld.getSize => IntReply
  | MpiWorld.isend _ _ _ _ _ => IntReply
  | MpiWorld.irecv _ _ _ _ _ => IntReply
  | MpiWorld.getRankFromCoords _ => IntReply
  | MpiWorld.shiftCartesianCoords _ _ _ => PairReply
  | _ => NoReply
  end.

Definition reply_kind (c : EngineCall) : ReplyKind :=
  match c with
  | createWorld _ => IntReply
  | joinWorld _ => NoReply
  | getWorld _ => NoReply
  | onWorld _ c' => world_reply_kind c'
  end.

Inductive EngineOutcome (W R : Type) :=
| EngineOk (r : R) (m : Memory) (w : W)
| EngineFail (msg : string).
Arguments EngineOk {W R} r m w.
Arguments EngineFail {W R} msg.

(** The engine is external: it answers a call from its own state and may
    write guest memory through the host pointers it was given, or fail.
    [getRank] and [getWorldId] are the getters of [executingContext]. *)
Class Engine := {
  EngineState : Type;
  getRank : EngineState -> Z;
  getWorldId : EngineState -> Z;
  engine : forall c : EngineCall,
      Memory -> EngineState -> EngineOutcome EngineState (Reply (reply_kind c))
}.

(** ** Host state and outcomes *)

(** [module->defaultMemory] of the executing module: the one guest memory. *)
Inductive MemoryHandle := DefaultMemory.
Inductive ModuleHandle := ExecutingModule.

(** [ContextWrapper]: the world is held by reference, here by its id. *)
Record ContextWrapper := mkContextWrapper {
  module : ModuleHandle;
  memory : MemoryHandle;
  world : Z;
  rank : Z
}.

(** What the layer was seen to do: the buffer views it resolved and the
    calls it made on the engine, oldest first. *)
Inductive Event :=
| EvView (v : View)
| EvEngine (c : EngineCall).

Record HostState `{Engine} := mkHostState {
  st_memory : Memory;
  st_ctx : option ContextWrapper;
  st_call : Message;
  st_engine : EngineState;
  st_endpointHost : list Z;
  st_trace : list Event
}.
Arguments mkHostState {_} _ _ _ _ _ _.

(** A call returns, throws (fatal for the instance; the state is the one at
    the throw), or has undefined behaviour (a null [ctx], [int] overflow,
    division by zero, a copy past the mapped memory). *)
Inductive Outcome `{Engine} (A : Type) :=
| Returned (a : A) (st : HostState)
| Thrown (msg : string) (st : HostState)
| Undefined.
Arguments Returned {_ A} a st.
Arguments Thrown {_ A} msg st.
Arguments Undefined {_ A}.

Definition M `{Engine} (A : Type) : Type := HostState -> Outcome A.

Definition ret `{Engine} {A} (a : A) : M A := fun st => Returned a st.

Definition bind `{Engine} {A B} (m : M A) (k : A -> M B) : M B :=
  fun st =>
    match m st with
    | Returned a st' => k a st'
    | Thrown msg st' => Thrown msg st'
    | Undefined => Undefined
    end.

Notation "x <- m ;; k" := (bind m (fun x => k))
  (at level 61, m at next level, right associativity).
Notation "m ;; k" := (bind m (fun _ => k))
  (at level 61, right associativity).

Definition throw `{Engine} {A} (msg : string) : M A := fun st => Thrown msg st.

Definition undefined `{Engine} {A} : M A := fun _ => Undefined.

(** The result of an [int] operation, undefined behaviour when it has none. *)
Definition int_op `{Engine} (r : option Z) : M Z :=
  match r with Some z => ret z | None => undefined end.

Definition fatal `{Engine} {A} (o : Outcome A) : Prop :=
  match o with Returned _ _ => False | _ => True end.

Definition outcome_state `{Engine} {A} (o : Outcome A) : option HostState :=
  match o with
  | Returned _ st => Some st
  | Thrown _ st => Some st
  | Undefined => None
  end.

Definition with_memory `{Engine} (st : HostState) (m : Memory) : HostState :=
  mkHostState m (st_ctx st) (st_call st) (st_engine st)
              (st_endpointHost st) (st_trace st).

Definition with_ctx `{Engine} (st : HostState) (c : option ContextWrapper)
  : HostState :=
  mkHostState (st_memory st) c (st_call st) (st_engine st)
              (st_endpointHost st) (st_trace st).

Definition with_call `{Engine} (st : HostState) (msg : Message) : HostState :=
  mkHostState (st_memory st) (st_ctx st) msg (st_engine st)
              (st_endpointHost st) (st_trace st).

Definition with_event `{Engine} (st : HostState) (e : Event) : HostState :=
  mkHostState (st_memory st) (st_ctx st) (st_call st) (st_engine st)
              (st_endpointHost st) (st_trace st ++ [e]).

Definition with_engine `{Engine} (st : HostState) (m : Memory)
  (w : EngineState) : HostState :=
  mkHostState m (st_ctx st) (st_call st) w (st_endpointHost st) (st_trace st).
Arguments throw {_ A} msg%_string.
Arguments Thrown {_ A} msg%_string st.

(** ** Host primitives *)

Section Intrinsics.
Context `{abi : GuestAbi} `{eng : Engine}.

Definition log (e : Event) : M unit :=
  fun st => Returned tt (with_event st e).

(** [ctx->]: dereferencing the thread-local [unique_ptr]; undefined
    behaviour while it is null. *)
Definition deref_ctx : M ContextWrapper :=
  fun st =>
    match st_ctx st with
    | Some self => Returned self st
    | None => Undefined
    end.

Definition ctx_module : M ModuleHandle := self <- deref_ctx ;; ret (module self).
Definition ctx_memory : M MemoryHandle := self <- deref_ctx ;; ret (memory self).
Definition ctx_world : M Z := self <- deref_ctx ;; ret (world self).
Definition ctx_rank : M Z := self <- deref_ctx ;; ret (rank self).

Definition getExecutingWAVMModule : M ModuleHandle := ret ExecutingModule.

Definition defaultMemory (m : ModuleHandle) : MemoryHandle := DefaultMemory.

(** [Runtime::getValidatedMemoryOffsetRange] of the WAVM runtime library,
    on which [memoryRef] and [memoryArrayPtr] rest: it throws unless the
    requested range lies inside the memory (the spec's [resolve] "fails
    fatally if the requested range is outside the guest's currently mapped
    memory"). *)
Definition getValidatedMemoryOffsetRange (mem : MemoryHandle)
  (address numBytes : Z) : M Z :=
  fun st =>
    if validRange (st_memory st) address numBytes
    then Returned address st
    else Thrown "outOfBoundsMemoryAccess" st.

(** [Runtime::memoryRef<T>(memory, offset)]: the host address of one [T]. *)
Definition memoryRef (sizeofT : Z) (mem : MemoryHandle) (offset : Z) : M Z :=
  getValidatedMemoryOffsetRange mem (to_Uptr offset) sizeofT.

(** [Runtime::memoryArrayPtr<T>(memory, offset, numElements)]. *)
Definition memoryArrayPtr (sizeofT : Z) (mem : MemoryHandle)
  (offset numElements : Z) : M View :=
  let v := arrayView sizeofT offset numElements in
  getValidatedMemoryOffsetRange mem (view_base v) (view_bytes v) ;;
  log (EvView v) ;;
  ret v.

Definition read_int (addr : Z) : M Z :=
  fun st => Returned (load_i32 (st_memory st) addr) st.

Definition write_int (addr v : Z) : M unit :=
  fun st => Returned tt (with_memory st (store_i32 (st_memory st) addr v)).

(** A call on the engine: recorded, answered by the engine, and a failure of
    the engine propagated as it is. *)
Definition delegate (c : EngineCall) : M (Reply (reply_kind c)) :=
  fun st =>
    let st1 := with_event st (EvEngine c) in
    match engine c (st_memory st) (st_engine st) with
    | EngineOk r m w => Returned r (with_engine st1 m w)
    | EngineFail msg => Thrown msg st1
    end.

Definition executingContext_getWorldId : M Z :=
  fun st => Returned (getWorldId (st_engine st)) st.

Definition executingContext_getRank : M Z :=
  fun st => Returned (getRank (st_engine st)) st.

Definition get_call : M Message := fun st => Returned (st_call st) st.

Definition set_call (msg : Message) : M unit :=
  fun st => Returned tt (with_call st msg).

Definition set_ctx (c : option ContextWrapper) : M unit :=
  fun st => Returned tt (with_ctx st c).

(** Modelled from the spec: the sandbox's growth primitive
    ([WAVMWasmModule::growMemory]); the linear memory is extended by
    [nBytes] and the guest-space address of the new region is the result;
    growth past the memory's maximum is fatal. *)
Definition growMemory (m : ModuleHandle) (nBytes : Z) : M Z :=
  fun st =>
    let mem := st_memory st in
    if mem_size mem + nBytes <=? mem_max mem
    then Returned (to_U32 (mem_size mem))
           (with_memory st
              (mkMemory (mem_size mem + nBytes) (mem_max mem) (mem_byte mem)))
    else Thrown "Memory growth exceeding max" st.

(** [strcpy(dest, src.c_str())]: the bytes up to the first zero and the
    terminator; undefined behaviour when they do not fit the mapped memory. *)
Fixpoint c_str (s : list Z) : list Z :=
  match s with
  | [] => [0]
  | b :: s' => if b mod 256 =? 0 then [0] else b :: c_str s'
  end.

Definition strcpy (dest : Z) (src : list Z) : M unit :=
  fun st =>
    let bs := c_str src in
    if validRange (st_memory st) dest (Z.of_nat (List.length bs))
    then Returned tt (with_memory st (store_bytes (st_memory st) dest bs))
    else Undefined.

(** [*dst = *src] for a struct of [n] bytes. *)
Definition copy_struct (dst src n : Z) : M unit :=
  fun st =>
    let m := st_memory st in
    Returned tt (with_memory st
                   (store_bytes m dst (load_bytes m src (Z.to_nat n)))).

(** ** [isInPlace] and the [ContextWrapper] methods

    [isInPlace] takes a [U8]: the [I32] pointer its callers pass is converted
    on the way in.  The methods of [ContextWrapper] are only ever called
    through [ctx], so each of them starts by dereferencing it. *)
Definition isInPlace (wasmPtr : Z) : bool :=
  to_U8 wasmPtr =? FAABRIC_IN_PLACE.

Definition getExecutingWorld : M Z :=
  worldId <- executingContext_getWorldId ;;
  delegate (getWorld worldId) ;;
  ret worldId.

(** The constructor of [ContextWrapper], its members in declaration order. *)
Definition new_ContextWrapper : M ContextWrapper :=
  module_ <- getExecutingWAVMModule ;;
  let memory_ := defaultMemory module_ in
  world_ <- getExecutingWorld ;;
  rank_ <- executingContext_getRank ;;
  ret (mkContextWrapper module_ memory_ world_ rank_).

Definition checkMpiComm (wasmPtr : Z) : M unit :=
  mem <- ctx_memory ;;
  hostComm <- memoryRef sizeof_communicator mem wasmPtr ;;
  id <- read_int (hostComm + offsetof_communicator_id) ;;
  if negb (id =? FAABRIC_COMM_WORLD)
  then throw "Unexpected comm type"
  else ret tt.

Definition getFaasmDataType (wasmPtr : Z) : M Z :=
  mem <- ctx_memory ;;
  memoryRef sizeof_datatype mem wasmPtr.

Definition datatype_size (hostDtype : Z) : M Z :=
  read_int (hostDtype + offsetof_datatype_size).

Definition status_bytesSize (status : Z) : M Z :=
  read_int (status + offsetof_status_bytesSize).

(** [writeMpiResult<int>]. *)
Definition writeMpiResult (resPtr result : Z) : M unit :=
  mem <- ctx_memory ;;
  hostResPtr <- memoryRef 4 mem resPtr ;;
  write_int hostResPtr result.

Definition writeFaasmRequestId (requestPtrPtr requestId : Z) : M unit :=
  writeMpiResult requestPtrPtr requestId.

Definition getFaasmRequestId (requestPtrPtr : Z) : M Z :=
  deref_ctx ;;
  module_ <- getExecutingWAVMModule ;;
  p <- memoryRef 4 (defaultMemory module_) requestPtrPtr ;;
  read_int p.

Definition getFaasmInfoType (wasmPtr : Z) : M Z :=
  mem <- ctx_memory ;;
  memoryRef sizeof_info mem wasmPtr.

Definition getFaasmOp (wasmOp : Z) : M Z :=
  mem <- ctx_memory ;;
  memoryRef sizeof_op mem wasmOp.

(** [ctx->world.f(...)]. *)
Definition ctx_world_call (c : MpiWorld.Call)
  : M (Reply (world_reply_kind c)) :=
  fun st =>
    match st_ctx st with
    | Some self => delegate (onWorld (world self) c) st
    | None => Undefined
    end.

(** ** The intrinsics, in the order of [mpi.cpp]

    Arguments are the guest's [I32] values.  The trace macros [MPI_FUNC] and
    [MPI_FUNC_ARGS] only log and are left out.  [MPI_Wtime], whose result is
    an [F64], is not part of the model. *)

Definition get_endpointHost : M (list Z) :=
  fun st => Returned (st_endpointHost st) st.

Definition MPI_Init (a b : Z) : M Z :=
  call <- get_call ;;
  (if mpirank call <=? 0
   then
     worldId <- delegate (createWorld call) ;;
     set_call (set_mpiworldid call worldId)
   else
     delegate (joinWorld call)) ;;
  self <- new_ContextWrapper ;;
  set_ctx (Some self) ;;
  ret 0.

Definition MPI_Get_version (version subversion : Z) : M Z :=
  throw "MPI_Get_version not implemented!".

Definition MPI_Comm_size (comm resPtr : Z) : M Z :=
  checkMpiComm comm ;;
  size <- ctx_world_call MpiWorld.getSize ;;
  writeMpiResult resPtr size ;;
  ret MPI_SUCCESS.

Definition MPI_Comm_rank (comm resPtr : Z) : M Z :=
  checkMpiComm comm ;;
  r <- ctx_rank ;;
  writeMpiResult resPtr r ;;
  ret MPI_SUCCESS.

Definition MPI_Comm_dup (comm newComm : Z) : M Z :=
  throw "MPI_Comm_dup not implemented!".

Definition MPI_Comm_free (comm : Z) : M Z :=
  ret MPI_SUCCESS.

Definition MPI_Comm_split (comm color key newComm : Z) : M Z :=
  throw "MPI_Comm_split not implemented!".

Definition MPI_Comm_c2f (comm : Z) : M Z :=
  throw "S - MPI_Comm_c2f not implemented!".

Definition MPI_Comm_f2c (fComm : Z) : M Z :=
  throw "S - MPI_Comm_f2c not implemented!".

Definition MPI_Send (buffer count datatype destRank tag comm : Z) : M Z :=
  checkMpiComm comm ;;
  hostDtype <- getFaasmDataType datatype ;;
  mem <- ctx_memory ;;
  inputs <- memoryArrayPtr 1 mem buffer count ;;
  r <- ctx_rank ;;
  ctx_world_call (MpiWorld.send r destRank inputs hostDtype count) ;;
  ret 0.

Definition MPI_Rsend (buffer count datatype destRank tag comm : Z) : M Z :=
  throw "MPI_Rsend is not implemented".

Definition terminateMpi : M Z :=
  ctx_world_call MpiWorld.destroy ;;
  set_ctx None ;;
  ret MPI_SUCCESS.

Definition MPI_Isend (buffer count datatype destRank tag comm requestPtrPtr : Z)
  : M Z :=
  checkMpiComm comm ;;
  hostDtype <- getFaasmDataType datatype ;;
  mem <- ctx_memory ;;
  inputs <- memoryArrayPtr 1 mem buffer count ;;
  r <- ctx_rank ;;
  requestId <- ctx_world_call (MpiWorld.isend r destRank inputs hostDtype count) ;;
  writeFaasmRequestId requestPtrPtr requestId ;;
  ret MPI_SUCCESS.

Definition MPI_Get_count (statusPtr datatype countPtr : Z) : M Z :=
  mem <- ctx_memory ;;
  status <- memoryRef sizeof_status mem statusPtr ;;
  hostDtype <- getFaasmDataType datatype ;;
  bytesSize <- status_bytesSize status ;;
  size <- datatype_size hostDtype ;;
  remainder <- int_op (int_rem bytesSize size) ;;
  if negb (remainder =? 0)
  then ret 1
  else
    nVals <- int_op (int_div bytesSize size) ;;
    writeMpiResult countPtr nVals ;;
    ret MPI_SUCCESS.

Definition MPI_Recv (buffer count datatype sourceRank tag comm statusPtr : Z)
  : M Z :=
  checkMpiComm comm ;;
  mem <- ctx_memory ;;
  status <- memoryRef sizeof_status mem statusPtr ;;
  hostDtype <- getFaasmDataType datatype ;;
  mem <- ctx_memory ;;
  outputs <- memoryArrayPtr 1 mem buffer count ;;
  r <- ctx_rank ;;
  ctx_world_call (MpiWorld.recv sourceRank r outputs hostDtype count status) ;;
  ret 0.

Definition MPI_Sendrecv (sendBuf sendCount sendType destination sendTag
  recvBuf recvCount recvType source recvTag comm statusPtr : Z) : M Z :=
  checkMpiComm comm ;;
  hostSendDtype <- getFaasmDataType sendType ;;
  hostRecvDtype <- getFaasmDataType recvType ;;
  mem <- ctx_memory ;;
  status <- memoryRef sizeof_status mem statusPtr ;;
  mem <- ctx_memory ;;
  sendSize <- datatype_size hostSendDtype ;;
  sendBytes <- int_op (int_mul sendCount sendSize) ;;
  hostSendBuffer <- memoryArrayPtr 1 mem sendBuf sendBytes ;;
  mem <- ctx_memory ;;
  recvSize <- datatype_size hostRecvDtype ;;
  recvBytes <- int_op (int_mul recvCount recvSize) ;;
  hostRecvBuffer <- memoryArrayPtr 1 mem recvBuf recvBytes ;;
  r <- ctx_rank ;;
  ctx_world_call
    (MpiWorld.sendRecv hostSendBuffer sendCount hostSendDtype destination
       hostRecvBuffer recvCount hostRecvDtype source r status) ;;
  ret MPI_SUCCESS.

Definition MPI_Irecv (buffer count datatype sourceRank tag comm requestPtrPtr : Z)
  : M Z :=
  checkMpiComm comm ;;
  hostDtype <- getFaasmDataType datatype ;;
  mem <- ctx_memory ;;
  outputs <- memoryArrayPtr 1 mem buffer count ;;
  r <- ctx_rank ;;
  requestId <- ctx_world_call (MpiWorld.irecv sourceRank r outputs hostDtype count) ;;
  writeFaasmRequestId requestPtrPtr requestId ;;
  ret MPI_SUCCESS.

Definition MPI_Wait (requestPtrPtr status : Z) : M Z :=
  requestId <- getFaasmRequestId requestPtrPtr ;;
  ctx_world_call (MpiWorld.awaitAsyncRequest requestId) ;;
  ret MPI_SUCCESS.

Definition MPI_Waitall (count requestArray statusArray : Z) : M Z :=
  throw "MPI_Waitall is not implemented!".

Definition MPI_Waitany (count requestArray idx status : Z) : M Z :=
  throw "MPI_Waitany is not implemented!".

Definition MPI_Abort (a b : Z) : M Z := terminateMpi.

Definition MPI_Finalize : M Z := terminateMpi.

Definition MPI_Probe (source tag comm statusPtr : Z) : M Z :=
  checkMpiComm comm ;;
  mem <- ctx_memory ;;
  status <- memoryRef sizeof_status mem statusPtr ;;
  r <- ctx_rank ;;
  ctx_world_call (MpiWorld.probe source r status) ;;
  ret MPI_SUCCESS.

Definition MPI_Bcast (buffer count datatype root comm : Z) : M Z :=
  checkMpiComm comm ;;
  hostDtype <- getFaasmDataType datatype ;;
  mem <- ctx_memory ;;
  size <- datatype_size hostDtype ;;
  nBytes <- int_op (int_mul count size) ;;
  inputs <- memoryArrayPtr 1 mem buffer nBytes ;;
  r <- ctx_rank ;;
  ctx_world_call (MpiWorld.broadcast root r inputs hostDtype count) ;;
  ret MPI_SUCCESS.

Definition MPI_Barrier (comm : Z) : M Z :=
  checkMpiComm comm ;;
  r <- ctx_rank ;;
  ctx_world_call (MpiWorld.barrier r) ;;
  ret MPI_SUCCESS.

Definition MPI_Scatter (sendBuf sendCount sendType recvBuf recvCount recvType
  root comm : Z) : M Z :=
  checkMpiComm comm ;;
  hostSendDtype <- getFaasmDataType sendType ;;
  hostRecvDtype <- getFaasmDataType recvType ;;
  mem <- ctx_memory ;;
  sendSize <- datatype_size hostSendDtype ;;
  sendBytes <- int_op (int_mul sendCount sendSize) ;;
  hostSendBuffer <- memoryArrayPtr 1 mem sendBuf sendBytes ;;
  mem <- ctx_memory ;;
  recvSize <- datatype_size hostRecvDtype ;;
  recvBytes <- int_op (int_mul recvCount recvSize) ;;
  hostRecvBuffer <- memoryArrayPtr 1 mem recvBuf recvBytes ;;
  r <- ctx_rank ;;
  ctx_world_call
    (MpiWorld.scatter root r hostSendBuffer hostSendDtype sendCount
       hostRecvBuffer hostRecvDtype recvCount) ;;
  ret MPI_SUCCESS.

Definition MPI_Gather (sendBuf sendCount sendType recvBuf recvCount recvType
  root comm : Z) : M Z :=
  checkMpiComm comm ;;
  hostSendDtype <- getFaasmDataType sendType ;;
  hostRecvDtype <- getFaasmDataType recvType ;;
  mem <- ctx_memory ;;
  recvSize <- datatype_size hostRecvDtype ;;
  recvBytes <- int_op (int_mul recvCount recvSize) ;;
  hostRecvBuffer <- memoryArrayPtr 1 mem recvBuf recvBytes ;;
  hostSendBuffer <-
    (if isInPlace sendBuf
     then ret hostRecvBuffer
     else
       mem <- ctx_memory ;;
       sendSize <- datatype_size hostSendDtype ;;
       sendBytes <- int_op (int_mul sendCount sendSize) ;;
       memoryArrayPtr 1 mem sendBuf sendBytes) ;;
  r <- ctx_rank ;;
  ctx_world_call
    (MpiWorld.gather r root hostSendBuffer hostSendDtype sendCount
       hostRecvBuffer hostRecvDtype recvCount) ;;
  ret MPI_SUCCESS.

Definition MPI_Allgather (sendBuf sendCount sendType recvBuf recvCount recvType
  comm : Z) : M Z :=
  checkMpiComm comm ;;
  hostSendDtype <- getFaasmDataType sendType ;;
  hostRecvDtype <- getFaasmDataType recvType ;;
  mem <- ctx_memory ;;
  recvSize <- datatype_size hostRecvDtype ;;
  recvBytes <- int_op (int_mul recvCount recvSize) ;;
  hostRecvBuffer <- memoryArrayPtr 1 mem recvBuf recvBytes ;;
  hostSendBuffer <-
    (if isInPlace sendBuf
     then ret hostRecvBuffer
     else
       mem <- ctx_memory ;;
       sendSize <- datatype_size hostSendDtype ;;
       sendBytes <- int_op (int_mul sendCount sendSize) ;;
       memoryArrayPtr 1 mem sendBuf sendBytes) ;;
  r <- ctx_rank ;;
  ctx_world_call
    (MpiWorld.allGather r hostSendBuffer hostSendDtype sendCount
       hostRecvBuffer hostRecvDtype recvCount) ;;
  ret MPI_SUCCESS.

Definition MPI_Allgatherv (sendBuf sendCount sendType recvBuf recvCount dspls
  recvType comm : Z) : M Z :=
  throw "MPI_Allgatherv not implemented!".

Definition MPI_Reduce (sendBuf recvBuf count datatype op root comm : Z) : M Z :=
  checkMpiComm comm ;;
  hostDtype <- getFaasmDataType datatype ;;
  mem <- ctx_memory ;;
  size <- datatype_size hostDtype ;;
  nBytes <- int_op (int_mul count size) ;;
  hostRecvBuffer <- memoryArrayPtr 1 mem recvBuf nBytes ;;
  hostSendBuffer <-
    (if isInPlace sendBuf
     then ret hostRecvBuffer
     else
       mem <- ctx_memory ;;
       size <- datatype_size hostDtype ;;
       nBytes <- int_op (int_mul count size) ;;
       memoryArrayPtr 1 mem sendBuf nBytes) ;;
  hostOp <- getFaasmOp op ;;
  r <- ctx_rank ;;
  ctx_world_call
    (MpiWorld.reduce r root hostSendBuffer hostRecvBuffer hostDtype count hostOp) ;;
  ret MPI_SUCCESS.

Definition MPI_Reduce_scatter (sendBuf recvBuf recvCount datatype op comm : Z)
  : M Z :=
  throw "MPI_Reduce_scatter is not implemented!".

Definition MPI_Allreduce (sendBuf recvBuf count datatype op comm : Z) : M Z :=
  checkMpiComm comm ;;
  hostDtype <- getFaasmDataType datatype ;;
  hostOp <- getFaasmOp op ;;
  mem <- ctx_memory ;;
  hostRecvBuffer <- memoryArrayPtr 1 mem recvBuf count ;;
  hostSendBuffer <-
    (if isInPlace sendBuf
     then ret hostRecvBuffer
     else
       mem <- ctx_memory ;;
       memoryArrayPtr 1 mem sendBuf count) ;;
  r <- ctx_rank ;;
  ctx_world_call
    (MpiWorld.allReduce r hostSendBuffer hostRecvBuffer hostDtype count hostOp) ;;
  ret MPI_SUCCESS.

Definition MPI_Scan (sendBuf recvBuf count datatype op comm : Z) : M Z :=
  checkMpiComm comm ;;
  hostDtype <- getFaasmDataType datatype ;;
  mem <- ctx_memory ;;
  size <- datatype_size hostDtype ;;
  nBytes <- int_op (int_mul count size) ;;
  hostRecvBuffer <- memoryArrayPtr 1 mem recvBuf nBytes ;;
  hostSendBuffer <-
    (if isInPlace sendBuf
     then ret hostRecvBuffer
     else
       mem <- ctx_memory ;;
       size <- datatype_size hostDtype ;;
       nBytes <- int_op (int_mul count size) ;;
       memoryArrayPtr 1 mem sendBuf nBytes) ;;
  hostOp <- getFaasmOp op ;;
  r <- ctx_rank ;;
  ctx_world_call
    (MpiWorld.scan r hostSendBuffer hostRecvBuffer hostDtype count hostOp) ;;
  ret MPI_SUCCESS.

Definition MPI_Alltoall (sendBuf sendCount sendType recvBuf recvCount recvType
  comm : Z) : M Z :=
  checkMpiComm comm ;;
  hostSendDtype <- getFaasmDataType sendType ;;
  hostRecvDtype <- getFaasmDataType recvType ;;
  mem <- ctx_memory ;;
  sendSize <- datatype_size hostSendDtype ;;
  sendBytes <- int_op (int_mul sendCount sendSize) ;;
  hostSendBuffer <- memoryArrayPtr 1 mem sendBuf sendBytes ;;
  mem <- ctx_memory ;;
  recvSize <- datatype_size hostRecvDtype ;;
  recvBytes <- int_op (int_mul recvCount recvSize) ;;
  hostRecvBuffer <- memoryArrayPtr 1 mem recvBuf recvBytes ;;
  r <- ctx_rank ;;
  ctx_world_call
    (MpiWorld.allToAll r hostSendBuffer hostSendDtype sendCount
       hostRecvBuffer hostRecvDtype recvCount) ;;
  ret MPI_SUCCESS.

Definition MPI_Alltoallv (sendBuf sendCount sdispls sendType recvBuf recvCount
  rdispls recvType comm : Z) : M Z :=
  throw "MPI_Alltoallv not implemented!".

Definition MPI_Get_processor_name (buf bufLen : Z) : M Z :=
  host <- get_endpointHost ;;
  module_ <- getExecutingWAVMModule ;;
  key <- memoryRef 1 (defaultMemory module_) buf ;;
  strcpy key host ;;
  ret MPI_SUCCESS.

Definition MPI_Type_size (typePtr res : Z) : M Z :=
  hostType <- getFaasmDataType typePtr ;;
  size <- datatype_size hostType ;;
  writeMpiResult res size ;;
  ret MPI_SUCCESS.

Definition MPI_Alloc_mem (memSize info resPtrPtr : Z) : M Z :=
  hostInfo <- getFaasmInfoType info ;;
  id <- read_int (hostInfo + offsetof_info_id) ;;
  if negb (id =? FAABRIC_INFO_NULL)
  then throw "Non-null info not supported"
  else
    module_ <- getExecutingWAVMModule ;;
    let pageAlignedSize := to_U32 (roundUpToWasmPageAligned memSize) in
    mappedWasmPtr <- growMemory module_ pageAlignedSize ;;
    hostResPtr <- memoryRef 4 (defaultMemory module_) resPtrPtr ;;
    write_int hostResPtr mappedWasmPtr ;;
    ret MPI_SUCCESS.

Definition MPI_Cart_create (commOld ndims dims periods reorder newCommPtrPtr : Z)
  : M Z :=
  let memSize := sizeof_communicator in
  let pageAlignedSize := to_U32 (roundUpToWasmPageAligned memSize) in
  module_ <- ctx_module ;;
  mappedWasmPtr <- growMemory module_ pageAlignedSize ;;
  mem <- ctx_memory ;;
  hostCommPtr <- memoryRef 4 mem newCommPtrPtr ;;
  write_int hostCommPtr mappedWasmPtr ;;
  mem <- ctx_memory ;;
  origComm <- memoryRef sizeof_communicator mem commOld ;;
  mem <- ctx_memory ;;
  newCommWasmPtr <- read_int hostCommPtr ;;
  newComm <- memoryRef sizeof_communicator mem newCommWasmPtr ;;
  copy_struct newComm origComm sizeof_communicator ;;
  ret MPI_SUCCESS.

Definition MPI_Cart_rank (comm coords rankPtr : Z) : M Z :=
  mem <- ctx_memory ;;
  coordsArray <- memoryArrayPtr 4 mem coords MPI_CART_MAX_DIMENSIONS ;;
  rank_ <- ctx_world_call (MpiWorld.getRankFromCoords coordsArray) ;;
  writeMpiResult rankPtr rank_ ;;
  ret MPI_SUCCESS.

Definition MPI_Cart_get (comm maxdims dims periods coords : Z) : M Z :=
  if maxdims <? MPI_CART_MAX_DIMENSIONS
  then throw "Bad dimensions in MPI_Cart_get"
  else
    mem <- ctx_memory ;;
    dimsArray <- memoryArrayPtr 4 mem dims maxdims ;;
    mem <- ctx_memory ;;
    periodsArray <- memoryArrayPtr 4 mem periods maxdims ;;
    mem <- ctx_memory ;;
    coordsArray <- memoryArrayPtr 4 mem coords maxdims ;;
    r <- ctx_rank ;;
    ctx_world_call
      (MpiWorld.getCartesianRank r maxdims dimsArray periodsArray coordsArray) ;;
    ret MPI_SUCCESS.

Definition MPI_Cart_shift (comm direction disp sourceRank destRank : Z) : M Z :=
  r <- ctx_rank ;;
  shifted <- ctx_world_call (MpiWorld.shiftCartesianCoords r direction disp) ;;
  let hostSourceRank := fst shifted in
  let hostDestRank := snd shifted in
  writeMpiResult sourceRank hostSourceRank ;;
  writeMpiResult destRank hostDestRank ;;
  ret MPI_SUCCESS.

Definition MPI_Op_create (userFn commute op : Z) : M Z :=
  throw "MPI_Op_create not implemented!".

Definition MPI_Op_free (op : Z) : M Z :=
  throw "MPI_Op_free not implemented!".

Definition MPI_Win_create (basePtr size dispUnit info comm winPtrPtr : Z) : M Z :=
  throw "MPI_Win_create is not implemented!".

Definition MPI_Win_fence (assert winPtr : Z) : M Z :=
  throw "MPI_Win_fence is not implemented!".

Definition MPI_Get (recvBuf recvCount recvType sendRank sendOffset sendCount
  sendType winPtr : Z) : M Z :=
  throw "MPI_Get is not implemented!".

Definition MPI_Put (sendBuf sendCount sendType recvRank recvOffset recvCount
  recvType winPtr : Z) : M Z :=
  throw "MPI_Put is not implemented!".

Definition MPI_Win_free (winPtr : Z) : M Z :=
  throw "MPI_Win_free is not implemented!".

Definition MPI_Win_get_attr (winPtr attrKey attrResPtrPtr flagResPtr : Z) : M Z :=
  throw "MPI_Win_get_attr is not implemented!".

Definition MPI_Free_mem (basePtr : Z) : M Z :=
  ret MPI_SUCCESS.

Definition MPI_Request_free (requestPtr : Z) : M Z :=
  throw "MPI_Request_free is not implemented!".

Definition MPI_Type_contiguous (count oldDatatypePtr newDatatypePtrPtr : Z) : M Z :=
  ret MPI_SUCCESS.

Definition MPI_Type_free (datatype : Z) : M Z :=
  throw "MPI_Type_free is not implemented!".

Definition MPI_Type_commit (datatypePtrPtr : Z) : M Z :=
  ret MPI_SUCCESS.

End Intrinsics.

(** ** The guest's calls

    One constructor per intrinsic, with the intrinsic's arguments. *)

Inductive GuestCall :=
| Call_MPI_Init (a b : Z)
| Call_MPI_Get_version (version subversion : Z)
| Call_MPI_Comm_size (comm resPtr : Z)
| Call_MPI_Comm_rank (comm resPtr : Z)
| Call_MPI_Comm_dup (comm newComm : Z)
| Call_MPI_Comm_free (comm : Z)
| Call_MPI_Comm_split (comm color key newComm : Z)
| Call_MPI_Comm_c2f (comm : Z)
| Call_MPI_Comm_f2c (fComm : Z)
| Call_MPI_Send (buffer count datatype destRank tag comm : Z)
| Call_MPI_Rsend (buffer count datatype destRank tag comm : Z)
| Call_MPI_Isend (buffer count datatype destRank tag comm requestPtrPtr : Z)
| Call_MPI_Get_count (statusPtr datatype countPtr : Z)
| Call_MPI_Recv (buffer count datatype sourceRank tag comm statusPtr : Z)
| Call_MPI_Sendrecv (sendBuf sendCount sendType destination sendTag recvBuf
    recvCount recvType source recvTag comm statusPtr : Z)
| Call_MPI_Irecv (buffer count datatype sourceRank tag comm requestPtrPtr : Z)
| Call_MPI_Wait (requestPtrPtr status : Z)
| Call_MPI_Waitall (count requestArray statusArray : Z)
| Call_MPI_Waitany (count requestArray idx status : Z)
| Call_MPI_Abort (a b : Z)
| Call_MPI_Finalize
| Call_MPI_Probe (source tag comm statusPtr : Z)
| Call_MPI_Bcast (buffer count datatype root comm : Z)
| Call_MPI_Barrier (comm : Z)
| Call_MPI_Scatter (sendBuf sendCount sendType recvBuf recvCount recvType root
    comm : Z)
| Call_MPI_Gather (sendBuf sendCount sendType recvBuf recvCount recvType root
    comm : Z)
| Call_MPI_Allgather (sendBuf sendCount sendType recvBuf recvCount recvType
    comm : Z)
| Call_MPI_Allgatherv (sendBuf sendCount sendType recvBuf recvCount dspls
    recvType comm : Z)
| Call_MPI_Reduce (sendBuf recvBuf count datatype op root comm : Z)
| Call_MPI_Reduce_scatter (sendBuf recvBuf recvCount datatype op comm : Z)
| Call_MPI_Allreduce (sendBuf recvBuf count datatype op comm : Z)
| Call_MPI_Scan (sendBuf recvBuf count datatype op comm : Z)
| Call_MPI_Alltoall (sendBuf sendCount sendType recvBuf recvCount recvType
    comm : Z)
| Call_MPI_Alltoallv (sendBuf sendCount sdispls sendType recvBuf recvCount
    rdispls recvType comm : Z)
| Call_MPI_Get_processor_name (buf bufLen : Z)
| Call_MPI_Type_size (typePtr res : Z)
| Call_MPI_Alloc_mem (memSize info resPtrPtr : Z)
| Call_MPI_Cart_create (commOld ndims dims periods reorder newCommPtrPtr : Z)
| Call_MPI_Cart_rank (comm coords rankPtr : Z)
| Call_MPI_Cart_get (comm maxdims dims periods coords : Z)
| Call_MPI_Cart_shift (comm direction disp sourceRank destRank : Z)
| Call_MPI_Op_create (userFn commute op : Z)
| Call_MPI_Op_free (op : Z)
| Call_MPI_Win_create (basePtr size dispUnit info comm winPtrPtr : Z)
| Call_MPI_Win_fence (assert winPtr : Z)
| Call_MPI_Get (recvBuf recvCount recvType sendRank sendOffset sendCount
    sendType winPtr : Z)
| Call_MPI_Put (sendBuf sendCount sendType recvRank recvOffset recvCount
    recvType winPtr : Z)
| Call_MPI_Win_free (winPtr : Z)
| Call_MPI_Win_get_attr (winPtr attrKey attrResPtrPtr flagResPtr : Z)
| Call_MPI_Free_mem (basePtr : Z)
| Call_MPI_Request_free (requestPtr : Z)
| Call_MPI_Type_contiguous (count oldDatatypePtr newDatatypePtrPtr : Z)
| Call_MPI_Type_free (datatype : Z)
| Call_MPI_Type_commit (datatypePtrPtr : Z).

Definition invoke `{GuestAbi} `{Engine} (c : GuestCall) : M Z :=
  match c with
| Call_MPI_Init a b =>
MPI_Init a b
| Call_MPI_Get_version version subversion =>
MPI_Get_version version subversion
| Call_MPI_Comm_size comm resPtr =>
MPI_Comm_size comm resPtr
| Call_MPI_Comm_rank comm resPtr =>
MPI_Comm_rank comm resPtr
| Call_MPI_Comm_dup comm newComm =>
MPI_Comm_dup comm newComm
| Call_MPI_Comm_free comm =>
MPI_Comm_free comm
| Call_MPI_Comm_split comm color key newComm =>
MPI_Comm_split comm color key newComm
| Call_MPI_Comm_c2f comm =>
MPI_Comm_c2f comm
| Call_MPI_Comm_f2c fComm =>
MPI_Comm_f2c fComm
| Call_MPI_Send buffer count datatype destRank tag comm =>
MPI_Send buffer count datatype destRank tag comm
| Call_MPI_Rsend buffer count datatype destRank tag comm =>
MPI_Rsend buffer count datatype destRank tag comm
| Call_MPI_Isend buffer count datatype destRank tag comm requestPtrPtr =>
MPI_Isend buffer count datatype destRank tag comm requestPtrPtr
| Call_MPI_Get_count statusPtr datatype countPtr =>
MPI_Get_count statusPtr datatype countPtr
| Call_MPI_Recv buffer count datatype sourceRank tag comm statusPtr =>
MPI_Recv buffer count datatype sourceRank tag comm statusPtr
| Call_MPI_Sendrecv sendBuf sendCount sendType destination sendTag recvBuf
      recvCount recvType source recvTag comm statusPtr =>
MPI_Sendrecv sendBuf sendCount sendType destination sendTag recvBuf recvCount
        recvType source recvTag comm statusPtr
| Call_MPI_Irecv buffer count datatype sourceRank tag comm requestPtrPtr =>
MPI_Irecv buffer count datatype sourceRank tag comm requestPtrPtr
| Call_MPI_Wait requestPtrPtr status =>
MPI_Wait requestPtrPtr status
| Call_MPI_Waitall count requestArray statusArray =>
MPI_Waitall count requestArray statusArray
| Call_MPI_Waitany count requestArray idx status =>
MPI_Waitany count requestArray idx status
| Call_MPI_Abort a b =>
MPI_Abort a b
  | Call_MPI_Finalize => MPI_Finalize
| Call_MPI_Probe source tag comm statusPtr =>
MPI_Probe source tag comm statusPtr
| Call_MPI_Bcast buffer count datatype root comm =>
MPI_Bcast buffer count datatype root comm
| Call_MPI_Barrier comm =>
MPI_Barrier comm
| Call_MPI_Scatter sendBuf sendCount sendType recvBuf recvCount recvType root
      comm =>
MPI_Scatter sendBuf sendCount sendType recvBuf recvCount recvType root comm
| Call_MPI_Gather sendBuf sendCount sendType recvBuf recvCount recvType root
      comm =>
MPI_Gather sendBuf sendCount sendType recvBuf recvCount recvType root comm
| Call_MPI_Allgather sendBuf sendCount sendType recvBuf recvCount recvType
      comm =>
MPI_Allgather sendBuf sendCount sendType recvBuf recvCount recvType comm
| Call_MPI_Allgatherv sendBuf sendCount sendType recvBuf recvCount dspls
      recvType comm =>
MPI_Allgatherv sendBuf sendCount sendType recvBuf recvCount dspls recvType
        comm
| Call_MPI_Reduce sendBuf recvBuf count datatype op root comm =>
MPI_Reduce sendBuf recvBuf count datatype op root comm
| Call_MPI_Reduce_scatter sendBuf recvBuf recvCount datatype op comm =>
MPI_Reduce_scatter sendBuf recvBuf recvCount datatype op comm
| Call_MPI_Allreduce sendBuf recvBuf count datatype op comm =>
MPI_Allreduce sendBuf recvBuf count datatype op comm
| Call_MPI_Scan sendBuf recvBuf count datatype op comm =>
MPI_Scan sendBuf recvBuf count datatype op comm
| Call_MPI_Alltoall sendBuf sendCount sendType recvBuf recvCount recvType comm
      =>
MPI_Alltoall sendBuf sendCount sendType recvBuf recvCount recvType comm
| Call_MPI_Alltoallv sendBuf sendCount sdispls sendType recvBuf recvCount
      rdispls recvType comm =>
MPI_Alltoallv sendBuf sendCount sdispls sendType recvBuf recvCount rdispls
        recvType comm
| Call_MPI_Get_processor_name buf bufLen =>
MPI_Get_processor_name buf bufLen
| Call_MPI_Type_size typePtr res =>
MPI_Type_size typePtr res
| Call_MPI_Alloc_mem memSize info resPtrPtr =>
MPI_Alloc_mem memSize info resPtrPtr
| Call_MPI_Cart_create commOld ndims dims periods reorder newCommPtrPtr =>
MPI_Cart_create commOld ndims dims periods reorder newCommPtrPtr
| Call_MPI_Cart_rank comm coords rankPtr =>
MPI_Cart_rank comm coords rankPtr
| Call_MPI_Cart_get comm maxdims dims periods coords =>
MPI_Cart_get comm maxdims dims periods coords
| Call_MPI_Cart_shift comm direction disp sourceRank destRank =>
MPI_Cart_shift comm direction disp sourceRank destRank
| Call_MPI_Op_create userFn commute op =>
MPI_Op_create userFn commute op
| Call_MPI_Op_free op =>
MPI_Op_free op
| Call_MPI_Win_create basePtr size dispUnit info comm winPtrPtr =>
MPI_Win_create basePtr size dispUnit info comm winPtrPtr
| Call_MPI_Win_fence assert winPtr =>
MPI_Win_fence assert winPtr
| Call_MPI_Get recvBuf recvCount recvType sendRank sendOffset sendCount
      sendType winPtr =>
MPI_Get recvBuf recvCount recvType sendRank sendOffset sendCount sendType
        winPtr
| Call_MPI_Put sendBuf sendCount sendType recvRank recvOffset recvCount
      recvType winPtr =>
MPI_Put sendBuf sendCount sendType recvRank recvOffset recvCount recvType
        winPtr
| Call_MPI_Win_free winPtr =>
MPI_Win_free winPtr
| Call_MPI_Win_get_attr winPtr attrKey attrResPtrPtr flagResPtr =>
MPI_Win_get_attr winPtr attrKey attrResPtrPtr flagResPtr
| Call_MPI_Free_mem basePtr =>
MPI_Free_mem basePtr
| Call_MPI_Request_free requestPtr =>
MPI_Request_free requestPtr
| Call_MPI_Type_contiguous count oldDatatypePtr newDatatypePtrPtr =>
MPI_Type_contiguous count oldDatatypePtr newDatatypePtrPtr
| Call_MPI_Type_free datatype =>
MPI_Type_free datatype
| Call_MPI_Type_commit datatypePtrPtr =>
MPI_Type_commit datatypePtrPtr
  end.

(** The calls [mpi.cpp] leaves unimplemented: ready-send, wait-all and
    wait-any, the vector collectives, user-defined operators, one-sided
    windows, communicator duplication and splitting, Fortran handle
    conversion, request and datatype freeing, the version query. *)
Definition unsupported (c : GuestCall) : bool :=
  match c with
  | Call_MPI_Rsend _ _ _ _ _ _
  | Call_MPI_Waitall _ _ _
  | Call_MPI_Waitany _ _ _ _
  | Call_MPI_Allgatherv _ _ _ _ _ _ _ _
  | Call_MPI_Alltoallv _ _ _ _ _ _ _ _ _
  | Call_MPI_Reduce_scatter _ _ _ _ _ _
  | Call_MPI_Op_create _ _ _
  | Call_MPI_Op_free _
  | Call_MPI_Win_create _ _ _ _ _ _
  | Call_MPI_Win_fence _ _
  | Call_MPI_Get _ _ _ _ _ _ _ _
  | Call_MPI_Put _ _ _ _ _ _ _ _
  | Call_MPI_Win_free _
  | Call_MPI_Win_get_attr _ _ _ _
  | Call_MPI_Comm_dup _ _
  | Call_MPI_Comm_split _ _ _ _
  | Call_MPI_Comm_c2f _
  | Call_MPI_Comm_f2c _
  | Call_MPI_Request_free _
  | Call_MPI_Type_free _
  | Call_MPI_Get_version _ _ => true
  | _ => false
  end.

(** The calls whose body never goes through [ctx]: initialisation, the
    no-op calls and the processor-name query. *)
Definition contextFree (c : GuestCall) : bool :=
  match c with
  | Call_MPI_Init _ _
  | Call_MPI_Comm_free _
  | Call_MPI_Free_mem _
  | Call_MPI_Type_contiguous _ _ _
  | Call_MPI_Type_commit _
  | Call_MPI_Get_processor_name _ _ => true
  | _ => false
  end.

(** The views resolved along a trace, and the trace an outcome ends with. *)
Definition views_of (t : list Event) : list View :=
  flat_map (fun e => match e with EvView v => [v] | EvEngine _ => [] end) t.

Definition outcome_trace `{Engine} {A} (o : Outcome A) : option (list Event) :=
  option_map st_trace (outcome_state o).

(** The descriptor fields [mpi.cpp] reads, as they stand in a memory. *)
Definition commIdAt `{GuestAbi} (m : Memory) (comm : Z) : Z :=
  load_i32 m (to_Uptr comm + offsetof_communicator_id).

Definition datatypeSizeAt `{GuestAbi} (m : Memory) (datatype : Z) : Z :=
  load_i32 m (to_Uptr datatype + offsetof_datatype_size).

Definition bytesSizeAt `{GuestAbi} (m : Memory) (statusPtr : Z) : Z :=
  load_i32 m (to_Uptr statusPtr + offsetof_status_bytesSize).

Definition infoIdAt `{GuestAbi} (m : Memory) (info : Z) : Z :=
  load_i32 m (to_Uptr info + offsetof_info_id).

(** The communicator descriptor at [comm] is mapped and is the world
    communicator. *)
Definition recognizedComm `{GuestAbi} (m : Memory) (comm : Z) : Prop :=
  mapped m comm sizeof_communicator /\ commIdAt m comm = FAABRIC_COMM_WORLD.

(** The outcome [o] of a call started in [st] is that of resolving the one
    view [v] and then handing the world call [c] to the engine: the trace
    grows by exactly that view and that call. *)
Definition oneViewThenCall `{Engine} (st : HostState) (self : ContextWrapper)
  (o : Outcome Z) (v : View) (c : MpiWorld.Call) : Prop :=
  o = (ctx_world_call c ;; ret MPI_SUCCESS) (with_event st (EvView v)) /\
  outcome_trace o
  = Some (st_trace st ++ [EvView v; EvEngine (onWorld (world self) c)]).

(** Modelled from the spec: what the engine's cartesian query writes; the
    first two slots of the dimension, period and coordinate arrays, and
    nothing else.  The values come from the engine's grid law. *)
Definition fillCartesian (m : Memory) (dims periods coords : View)
  (d p c : Z * Z) : Memory :=
  let m := store_i32 m (view_base dims) (fst d) in
  let m := store_i32 m (view_base dims + 4) (snd d) in
  let m := store_i32 m (view_base periods) (fst p) in
  let m := store_i32 m (view_base periods + 4) (snd p) in
  let m := store_i32 m (view_base coords) (fst c) in
  store_i32 m (view_base coords + 4) (snd c).

(** An address lies in the first two [int] slots of the array at [v]. *)
Definition in_first_two_slots (v : View) (a : Z) : Prop :=
  view_base v <= a < view_base v + 2 * 4.

(** The first two [int] slots of the arrays at [v1] and [v2] do not
    overlap. *)
Definition slots_apart (v1 v2 : View) : Prop :=
  view_base v1 + 2 * 4 <= view_base v2 \/ view_base v2 + 2 * 4 <= view_base v1.

(** Modelled from the spec: the coordination engine's cartesian query
    ([MpiWorld::getCartesianRank], which [MPI_Cart_get] calls and which is
    not in the sources), a query that "synthesizes topology purely from
    world size as a fixed two-dimensional grid" and "fills exactly 2
    dimension/period/coordinate slots".  [grid w r] is the grid law: the
    dimension, period and coordinate pairs of rank [r] in engine state [w].
    The query writes them with [fillCartesian], returns nothing and leaves
    the engine state alone; every other call is answered by [base]. *)
Definition cartesian_engine (base : Engine)
  (grid : @EngineState base -> Z -> (Z * Z) * (Z * Z) * (Z * Z))
  (c : EngineCall) (m : Memory) (w : @EngineState base)
  : EngineOutcome (@EngineState base) (Reply (reply_kind c)) :=
  match c as c0
        return EngineOutcome (@EngineState base) (Reply (reply_kind c0)) with
  | onWorld worldId c' =>
      match c' as c1
            return EngineOutcome (@EngineState base)
                     (Reply (world_reply_kind c1)) with
      | MpiWorld.getCartesianRank r _ dims periods coords =>
          let g := grid w r in
          EngineOk tt
            (fillCartesian m dims periods coords
               (fst (fst g)) (snd (fst g)) (snd g)) w
      | c1 => @engine base (onWorld worldId c1) m w
      end
  | c0 => @engine base c0 m w
  end.

Definition cartesianEngine (base : Engine)
  (grid : @EngineState base -> Z -> (Z * Z) * (Z * Z) * (Z * Z)) : Engine := {|
  EngineState := @EngineState base;
  getRank := @getRank base;
  getWorldId := @getWorldId base;
  engine := cartesian_engine base grid
|}.

(** ** A small configuration to run the model on

    Descriptor layouts with [int] fields, a four-rank world whose engine
    answers every call at once, and a one-page guest memory holding a
    communicator, a datatype of size 4, a null info, an operator and a
    status record of 12 transferred bytes. *)

Definition sampleAbi : GuestAbi := {|
  FAABRIC_IN_PLACE := 1;
  FAABRIC_COMM_WORLD := 10;
  FAABRIC_INFO_NULL := 20;
  sizeof_communicator := 4;
  offsetof_communicator_id := 0;
  sizeof_datatype := 8;
  offsetof_datatype_size := 4;
  sizeof_info := 4;
  offsetof_info_id := 0;
  sizeof_op := 4;
  sizeof_status := 16;
  offsetof_status_bytesSize := 12
|}.

Definition default_reply (k : ReplyKind) : Reply k :=
  match k with
  | NoReply => tt
  | IntReply => 0
  | PairReply => (0, 0)
  end.

(** Engine state of the sample: the bound world id and rank. *)
Definition sample_engine (c : EngineCall) (m : Memory) (w : Z * Z)
  : EngineOutcome (Z * Z) (Reply (reply_kind c)) :=
  match c as c0 return EngineOutcome (Z * Z) (Reply (reply_kind c0)) with
  | createWorld msg => EngineOk 7 m (7, 0)
  | joinWorld msg => EngineOk tt m (mpiworldid msg, mpirank msg)
  | getWorld worldId =>
      if worldId =? fst w then EngineOk tt m w
      else EngineFail "World not found"
  | onWorld _ c' =>
      match c' as c1
            return EngineOutcome (Z * Z) (Reply (world_reply_kind c1)) with
      | MpiWorld.getSize => EngineOk 4 m w
      | MpiWorld.getCartesianRank r _ d p co =>
          EngineOk tt (fillCartesian m d p co (2, 2) (1, 1) (r / 2, r mod 2)) w
      | c1 => EngineOk (default_reply (world_reply_kind c1)) m w
      end
  end.

Definition sampleEngine : Engine := {|
  EngineState := (Z * Z)%type;
  getRank := snd;
  getWorldId := fst;
  engine := sample_engine
|}.

Definition sample_bytes (a : Z) : Z :=
  if a =? 16 then 10
  else if a =? 36 then 4
  else if a =? 48 then 20
  else if a =? 76 then 12
  else 0.

Definition sample_memory : Memory :=
  mkMemory WASM_BYTES_PER_PAGE (4 * WASM_BYTES_PER_PAGE) sample_bytes.

Definition sample_comm : Z := 16.
Definition sample_datatype : Z := 32.
Definition sample_info : Z := 48.
Definition sample_op : Z := 56.
Definition sample_status : Z := 64.

Definition sample_ctx : ContextWrapper :=
  mkContextWrapper ExecutingModule DefaultMemory 7 0.

(** The sample after a successful [MPI_Init] by the creating rank. *)
Definition sample_state : @HostState sampleEngine :=
  @mkHostState sampleEngine sample_memory (Some sample_ctx)
    (mkMessage None (Some 7)) (7, 0) [102; 97; 97; 115; 109] [].

(** The grid law of the sample: a two by two grid, periodic both ways. *)
Definition sample_grid (w : Z * Z) (r : Z) : (Z * Z) * (Z * Z) * (Z * Z) :=
  ((2, 2), (1, 1), (r / 2, r mod 2)).

(** The sample state, on the sample engine with the cartesian query of
    [cartesianEngine]. *)
Definition cartesian_state
  : @HostState (cartesianEngine sampleEngine sample_grid) :=
  @mkHostState (cartesianEngine sampleEngine sample_grid) sample_memory
    (Some sample_ctx) (mkMessage None (Some 7)) (7, 0)
    [102; 97; 97; 115; 109] [].

(** The sample before [MPI_Init]: no context, rank unset. *)
Definition sample_fresh : @HostState sampleEngine :=
  @mkHostState sampleEngine sample_memory None
    (mkMessage None None) (0, 0) [102; 97; 97; 115; 109] [].

(** The sample with 6 transferred bytes in its status record. *)
Definition sample_state_6_bytes : @HostState sampleEngine :=
  @with_memory sampleEngine sample_state
    (store_i32 sample_memory (sample_status + 12) 6).

(** Eight mapped bytes of the sample that are all zero: read as a datatype
    descriptor, its size is 0. *)
Definition zero_size_datatype : Z := 128.

(** A joining instance: rank 2 of world 7, before [MPI_Init]. *)
Definition sample_joiner : @HostState sampleEngine :=
  @mkHostState sampleEngine sample_memory None (mkMessage (Some 2) (Some 7))
    (0, 0) [102; 97; 97; 115; 109] [].

(** The sample after [MPI_Finalize]. *)
Definition sample_finalized : @HostState sampleEngine :=
  @mkHostState sampleEngine sample_memory None (mkMessage None (Some 7)) (7, 0)
    [102; 97; 97; 115; 109] [EvEngine (onWorld 7 MpiWorld.destroy)].

(** ** Further notions for the properties of the whole layer *)

(** The name each intrinsic is registered under
    ([WAVM_DEFINE_INTRINSIC_FUNCTION(env, "MPI_...", ...)]). *)
Definition intrinsicName (c : GuestCall) : string :=
  match c with
  | Call_MPI_Init _ _ => "MPI_Init"
  | Call_MPI_Get_version _ _ => "MPI_Get_version"
  | Call_MPI_Comm_size _ _ => "MPI_Comm_size"
  | Call_MPI_Comm_rank _ _ => "MPI_Comm_rank"
  | Call_MPI_Comm_dup _ _ => "MPI_Comm_dup"
  | Call_MPI_Comm_free _ => "MPI_Comm_free"
  | Call_MPI_Comm_split _ _ _ _ => "MPI_Comm_split"
  | Call_MPI_Comm_c2f _ => "MPI_Comm_c2f"
  | Call_MPI_Comm_f2c _ => "MPI_Comm_f2c"
  | Call_MPI_Send _ _ _ _ _ _ => "MPI_Send"
  | Call_MPI_Rsend _ _ _ _ _ _ => "MPI_Rsend"
  | Call_MPI_Isend _ _ _ _ _ _ _ => "MPI_Isend"
  | Call_MPI_Get_count _ _ _ => "MPI_Get_count"
  | Call_MPI_Recv _ _ _ _ _ _ _ => "MPI_Recv"
  | Call_MPI_Sendrecv _ _ _ _ _ _ _ _ _ _ _ _ => "MPI_Sendrecv"
  | Call_MPI_Irecv _ _ _ _ _ _ _ => "MPI_Irecv"
  | Call_MPI_Wait _ _ => "MPI_Wait"
  | Call_MPI_Waitall _ _ _ => "MPI_Waitall"
  | Call_MPI_Waitany _ _ _ _ => "MPI_Waitany"
  | Call_MPI_Abort _ _ => "MPI_Abort"
  | Call_MPI_Finalize => "MPI_Finalize"
  | Call_MPI_Probe _ _ _ _ => "MPI_Probe"
  | Call_MPI_Bcast _ _ _ _ _ => "MPI_Bcast"
  | Call_MPI_Barrier _ => "MPI_Barrier"
  | Call_MPI_Scatter _ _ _ _ _ _ _ _ => "MPI_Scatter"
  | Call_MPI_Gather _ _ _ _ _ _ _ _ => "MPI_Gather"
  | Call_MPI_Allgather _ _ _ _ _ _ _ => "MPI_Allgather"
  | Call_MPI_Allgatherv _ _ _ _ _ _ _ _ => "MPI_Allgatherv"
  | Call_MPI_Reduce _ _ _ _ _ _ _ => "MPI_Reduce"
  | Call_MPI_Reduce_scatter _ _ _ _ _ _ => "MPI_Reduce_scatter"
  | Call_MPI_Allreduce _ _ _ _ _ _ => "MPI_Allreduce"
  | Call_MPI_Scan _ _ _ _ _ _ => "MPI_Scan"
  | Call_MPI_Alltoall _ _ _ _ _ _ _ => "MPI_Alltoall"
  | Call_MPI_Alltoallv _ _ _ _ _ _ _ _ _ => "MPI_Alltoallv"
  | Call_MPI_Get_processor_name _ _ => "MPI_Get_processor_name"
  | Call_MPI_Type_size _ _ => "MPI_Type_size"
  | Call_MPI_Alloc_mem _ _ _ => "MPI_Alloc_mem"
  | Call_MPI_Cart_create _ _ _ _ _ _ => "MPI_Cart_create"
  | Call_MPI_Cart_rank _ _ _ => "MPI_Cart_rank"
  | Call_MPI_Cart_get _ _ _ _ _ => "MPI_Cart_get"
  | Call_MPI_Cart_shift _ _ _ _ _ => "MPI_Cart_shift"
  | Call_MPI_Op_create _ _ _ => "MPI_Op_create"
  | Call_MPI_Op_free _ => "MPI_Op_free"
  | Call_MPI_Win_create _ _ _ _ _ _ => "MPI_Win_create"
  | Call_MPI_Win_fence _ _ => "MPI_Win_fence"
  | Call_MPI_Get _ _ _ _ _ _ _ _ => "MPI_Get"
  | Call_MPI_Put _ _ _ _ _ _ _ _ => "MPI_Put"
  | Call_MPI_Win_free _ => "MPI_Win_free"
  | Call_MPI_Win_get_attr _ _ _ _ => "MPI_Win_get_attr"
  | Call_MPI_Free_mem _ => "MPI_Free_mem"
  | Call_MPI_Request_free _ => "MPI_Request_free"
  | Call_MPI_Type_contiguous _ _ _ => "MPI_Type_contiguous"
  | Call_MPI_Type_free _ => "MPI_Type_free"
  | Call_MPI_Type_commit _ => "MPI_Type_commit"
  end.

(** [sub] occurs in [s]. *)
Definition occursIn (sub s : string) : bool :=
  match String.index 0 sub s with Some _ => true | None => false end.

(** The communicator argument of the calls that pass it to [checkMpiComm]. *)
Definition checkedCommunicator (c : GuestCall) : option Z :=
  match c with
  | Call_MPI_Comm_size comm _ => Some comm
  | Call_MPI_Comm_rank comm _ => Some comm
  | Call_MPI_Send _ _ _ _ _ comm => Some comm
  | Call_MPI_Isend _ _ _ _ _ comm _ => Some comm
  | Call_MPI_Recv _ _ _ _ _ comm _ => Some comm
  | Call_MPI_Sendrecv _ _ _ _ _ _ _ _ _ _ comm _ => Some comm
  | Call_MPI_Irecv _ _ _ _ _ comm _ => Some comm
  | Call_MPI_Probe _ _ comm _ => Some comm
  | Call_MPI_Bcast _ _ _ _ comm => Some comm
  | Call_MPI_Barrier comm => Some comm
  | Call_MPI_Scatter _ _ _ _ _ _ _ comm => Some comm
  | Call_MPI_Gather _ _ _ _ _ _ _ comm => Some comm
  | Call_MPI_Allgather _ _ _ _ _ _ comm => Some comm
  | Call_MPI_Reduce _ _ _ _ _ _ comm => Some comm
  | Call_MPI_Allreduce _ _ _ _ _ comm => Some comm
  | Call_MPI_Scan _ _ _ _ _ comm => Some comm
  | Call_MPI_Alltoall _ _ _ _ _ _ comm => Some comm
  | _ => None
  end.

(** The calls that assign [ctx]. *)
Definition assignsContext (c : GuestCall) : bool :=
  match c with
  | Call_MPI_Init _ _ | Call_MPI_Abort _ _ | Call_MPI_Finalize => true
  | _ => false
  end.

(** The messages [mpi.cpp] and the memory accessors it calls throw on their
    own account. *)
Definition layerMessages : list string :=
  [ "outOfBoundsMemoryAccess"; "Memory growth exceeding max";
    "Unexpected comm type"; "Bad dimensions in MPI_Cart_get";
    "Non-null info not supported";
    "MPI_Get_version not implemented!"; "MPI_Comm_dup not implemented!";
    "MPI_Comm_split not implemented!"; "S - MPI_Comm_c2f not implemented!";
    "S - MPI_Comm_f2c not implemented!"; "MPI_Rsend is not implemented";
    "MPI_Waitall is not implemented!"; "MPI_Waitany is not implemented!";
    "MPI_Allgatherv not implemented!"; "MPI_Reduce_scatter is not implemented!";
    "MPI_Alltoallv not implemented!"; "MPI_Op_create not implemented!";
    "MPI_Op_free not implemented!"; "MPI_Win_create is not implemented!";
    "MPI_Win_fence is not implemented!"; "MPI_Get is not implemented!";
    "MPI_Put is not implemented!"; "MPI_Win_free is not implemented!";
    "MPI_Win_get_attr is not implemented!";
    "MPI_Request_free is not implemented!";
    "MPI_Type_free is not implemented!" ]%string.



(** Every state a run of [m] ends in (by a return or a throw) is related
    to the state it started in by [R], and every throw satisfies [P] of the
    state before, the message and the state after. *)
Definition respects `{Engine} {A} (R : HostState -> HostState -> Prop)
  (P : HostState -> string -> HostState -> Prop) (m : M A) : Prop :=
  forall st,
    match m st with
    | Returned _ st' => R st st'
    | Thrown msg st' => R st st' /\ P st msg st'
    | Undefined => True
    end.

(** The number of engine calls among the events of a trace. *)
Definition engineCalls (t : list Event) : nat :=
  List.length
    (filter (fun e => match e with EvEngine _ => true | EvView _ => false end) t).

(** A run of [m] that returns has appended exactly [n] engine calls to the
    trace, one that throws at most [n]; the trace it started with is kept. *)
Definition callBudget `{Engine} {A} (n : nat) (m : M A) : Prop :=
  forall st,
    match m st with
    | Returned _ st' =>
        exists evs, st_trace st' = st_trace st ++ evs /\ engineCalls evs = n
    | Thrown _ st' =>
        exists evs,
          st_trace st' = st_trace st ++ evs /\ (engineCalls evs <= n)%nat
    | Undefined => True
    end.

(** The calls on the engine one guest call makes when it returns. *)
Definition engineBudget (c : GuestCall) : nat :=
  if unsupported c then 0%nat
  else
    match c with
    | Call_MPI_Init _ _ => 2%nat
    | Call_MPI_Comm_rank _ _
    | Call_MPI_Get_count _ _ _
    | Call_MPI_Type_size _ _
    | Call_MPI_Alloc_mem _ _ _
    | Call_MPI_Cart_create _ _ _ _ _ _
    | Call_MPI_Get_processor_name _ _
    | Call_MPI_Comm_free _
    | Call_MPI_Free_mem _
    | Call_MPI_Type_contiguous _ _ _
    | Call_MPI_Type_commit _ => 0%nat
    | _ => 1%nat
    end.

(** The outcome [o] of a call started in [st] is that of resolving the
    receive view [rv], then the send view [sv], and then handing the world
    call [c] to the engine. *)
Definition recvThenSendView `{Engine} (st : HostState) (o : Outcome Z)
  (rv sv : View) (c : MpiWorld.Call) : Prop :=
  o = (ctx_world_call c ;; ret MPI_SUCCESS)
        (with_event (with_event st (EvView rv)) (EvView sv)).

(** Every byte of the memory is a byte. *)
Definition bytesInRange (m : Memory) : Prop :=
  forall a, 0 <= mem_byte m a < 256.

(** ** Two more engines to run the model on

    One that hands out request ids from a counter, and one that can create
    a world but fails every other call. *)

Definition ticket_engine (c : EngineCall) (m : Memory) (w : Z)
  : EngineOutcome Z (Reply (reply_kind c)) :=
  match c as c0 return EngineOutcome Z (Reply (reply_kind c0)) with
  | createWorld msg => EngineOk 7 m w
  | joinWorld msg => EngineOk tt m w
  | getWorld worldId => EngineOk tt m w
  | onWorld _ c' =>
      match c' as c1 return EngineOutcome Z (Reply (world_reply_kind c1)) with
      | MpiWorld.isend _ _ _ _ _ => EngineOk w m (w + 1)
      | MpiWorld.irecv _ _ _ _ _ => EngineOk w m (w + 1)
      | MpiWorld.shiftCartesianCoords r _ disp => EngineOk (r - disp, r + disp) m w
      | c1 => EngineOk (default_reply (world_reply_kind c1)) m w
      end
  end.

Definition ticketEngine : Engine := {|
  EngineState := Z;
  getRank := fun _ => 0;
  getWorldId := fun _ => 7;
  engine := ticket_engine
|}.

Definition ticket_state : @HostState ticketEngine :=
  @mkHostState ticketEngine sample_memory (Some sample_ctx)
    (mkMessage None (Some 7)) 41 [102; 97; 97; 115; 109] [].

Definition down_engine (c : EngineCall) (m : Memory) (w : unit)
  : EngineOutcome unit (Reply (reply_kind c)) :=
  match c as c0 return EngineOutcome unit (Reply (reply_kind c0)) with
  | createWorld msg => EngineOk 7 m w
  | joinWorld _ => EngineFail "Engine unreachable"
  | getWorld _ => EngineFail "Engine unreachable"
  | onWorld _ _ => EngineFail "Engine unreachable"
  end.

Definition downEngine : Engine := {|
  EngineState := unit;
  getRank := fun _ => 0;
  getWorldId := fun _ => 7;
  engine := down_engine
|}.

Definition down_state : @HostState downEngine :=
  @mkHostState downEngine sample_memory (Some sample_ctx)
    (mkMessage None (Some 7)) tt [102; 97; 97; 115; 109] [].

Definition down_fresh : @HostState downEngine :=
  @mkHostState downEngine sample_memory None
    (mkMessage None None) tt [102; 97; 97; 115; 109] [].
(** ** Facts about the memory model *)

Lemma mem_size_store_byte m a v : mem_size (store_byte m a v) = mem_size m.
Proof. reflexivity. Qed.

Lemma mem_size_store_i32 m a v : mem_size (store_i32 m a v) = mem_size m.
Proof. reflexivity. Qed.

Lemma mem_byte_store_byte_other m a v x :
  x <> a -> mem_byte (store_byte m a v) x = mem_byte m x.
Proof.
  intros Hx. unfold store_byte; simpl.
  destruct (Z.eqb_spec x a); [contradiction | reflexivity].
Qed.

Lemma mem_byte_store_i32_other m a v x :
  ~ (a <= x < a + 4) -> mem_byte (store_i32 m a v) x = mem_byte m x.
Proof.
  intros Hx. unfold store_i32.
  rewrite !mem_byte_store_byte_other by lia. reflexivity.
Qed.

Lemma to_I32_id v : in_I32 v -> to_I32 v = v.
Proof.
  unfold in_I32, INT_MIN, INT_MAX, to_I32. intros Hv.
  rewrite Z.mod_small by lia. lia.
Qed.

Lemma to_I32_range z : in_I32 (to_I32 z).
Proof.
  unfold in_I32, INT_MIN, INT_MAX, to_I32.
  pose proof (Z.mod_pos_bound (z + 2 ^ 31) (2 ^ 32) ltac:(lia)). lia.
Qed.

Lemma load_store_i32 m a v : load_i32 (store_i32 m a v) a = to_I32 v.
Proof.
  unfold load_i32, store_i32, store_byte; simpl mem_byte.
  repeat match goal with
         | |- context [?x =? ?y] =>
             destruct (Z.eqb_spec x y); try lia
         end.
  unfold to_I32. f_equal.
  change (2 ^ 8) with 256; change (2 ^ 16) with 65536;
    change (2 ^ 24) with 16777216; change (2 ^ 31) with 2147483648;
    change (2 ^ 32) with 4294967296.
  Z.div_mod_to_equations. lia.
Qed.

Lemma load_store_i32_same m a v : in_I32 v -> load_i32 (store_i32 m a v) a = v.
Proof. intros Hv. rewrite load_store_i32. now apply to_I32_id. Qed.

Lemma load_i32_store_i32_other m a v b :
  b + 4 <= a \/ a + 4 <= b ->
  load_i32 (store_i32 m a v) b = load_i32 m b.
Proof.
  intros Hd. unfold load_i32.
  rewrite !mem_byte_store_i32_other by lia. reflexivity.
Qed.


(** ** Running the host monad *)

Section Proofs.
Context `{abi : GuestAbi} `{eng : Engine}.

Lemma bind_Returned {A B} (m : M A) (k : A -> M B) st a st' :
  m st = Returned a st' -> bind m k st = k a st'.
Proof. intros Hm. unfold bind. now rewrite Hm. Qed.

Lemma bind_Thrown {A B} (m : M A) (k : A -> M B) st msg st' :
  m st = Thrown msg st' -> bind m k st = Thrown msg st'.
Proof. intros Hm. unfold bind. now rewrite Hm. Qed.

Lemma bind_Undefined {A B} (m : M A) (k : A -> M B) st :
  m st = Undefined -> bind m k st = Undefined.
Proof. intros Hm. unfold bind. now rewrite Hm. Qed.

Lemma bind_fatal {A B} (m : M A) (k : A -> M B) st :
  fatal (m st) -> fatal (bind m k st).
Proof. unfold bind. destruct (m st); simpl; tauto. Qed.

Lemma deref_ctx_live st self :
  st_ctx st = Some self -> deref_ctx st = Returned self st.
Proof. intros Hc. unfold deref_ctx. now rewrite Hc. Qed.

Lemma deref_ctx_null st : st_ctx st = None -> deref_ctx st = Undefined.
Proof. intros Hc. unfold deref_ctx. now rewrite Hc. Qed.

Lemma ctx_memory_live st self :
  st_ctx st = Some self -> ctx_memory st = Returned (memory self) st.
Proof.
  intros Hc. unfold ctx_memory.
  now rewrite (bind_Returned _ _ _ _ _ (deref_ctx_live _ _ Hc)).
Qed.

Lemma ctx_module_live st self :
  st_ctx st = Some self -> ctx_module st = Returned (module self) st.
Proof.
  intros Hc. unfold ctx_module.
  now rewrite (bind_Returned _ _ _ _ _ (deref_ctx_live _ _ Hc)).
Qed.

Lemma ctx_rank_live st self :
  st_ctx st = Some self -> ctx_rank st = Returned (rank self) st.
Proof.
  intros Hc. unfold ctx_rank.
  now rewrite (bind_Returned _ _ _ _ _ (deref_ctx_live _ _ Hc)).
Qed.

Lemma ctx_world_call_live st self c :
  st_ctx st = Some self ->
  ctx_world_call c st = delegate (onWorld (world self) c) st.
Proof. intros Hc. unfold ctx_world_call. now rewrite Hc. Qed.

Lemma memoryRef_mapped sizeofT mem p st :
  mapped (st_memory st) p sizeofT ->
  memoryRef sizeofT mem p st = Returned (to_Uptr p) st.
Proof.
  unfold mapped, memoryRef, getValidatedMemoryOffsetRange. intros Hm.
  now rewrite Hm.
Qed.

Lemma memoryRef_unmapped sizeofT mem p st :
  ~ mapped (st_memory st) p sizeofT ->
  memoryRef sizeofT mem p st = Thrown "outOfBoundsMemoryAccess" st.
Proof.
  unfold mapped, memoryRef, getValidatedMemoryOffsetRange. intros Hm.
  destruct (validRange _ _ _); [now destruct Hm | reflexivity].
Qed.

Lemma memoryArrayPtr_mapped sizeofT mem p n st :
  viewMapped (st_memory st) (arrayView sizeofT p n) ->
  memoryArrayPtr sizeofT mem p n st =
  Returned (arrayView sizeofT p n)
           (with_event st (EvView (arrayView sizeofT p n))).
Proof.
  unfold viewMapped, memoryArrayPtr, getValidatedMemoryOffsetRange, bind, log.
  intros Hm. now rewrite Hm.
Qed.

Lemma checkMpiComm_recognized st self comm :
  st_ctx st = Some self ->
  recognizedComm (st_memory st) comm ->
  checkMpiComm comm st = Returned tt st.
Proof.
  intros Hc [Hm Hid]. unfold checkMpiComm.
  rewrite (bind_Returned _ _ _ _ _ (ctx_memory_live _ _ Hc)).
  rewrite (bind_Returned _ _ _ _ _ (memoryRef_mapped _ _ _ _ Hm)).
  unfold bind, read_int. fold (commIdAt (st_memory st) comm).
  rewrite Hid, Z.eqb_refl. reflexivity.
Qed.

Lemma getFaasmDataType_mapped st self datatype :
  st_ctx st = Some self ->
  mapped (st_memory st) datatype sizeof_datatype ->
  getFaasmDataType datatype st = Returned (to_Uptr datatype) st.
Proof.
  intros Hc Hm. unfold getFaasmDataType.
  rewrite (bind_Returned _ _ _ _ _ (ctx_memory_live _ _ Hc)).
  now apply memoryRef_mapped.
Qed.

Lemma getFaasmOp_mapped st self op :
  st_ctx st = Some self ->
  mapped (st_memory st) op sizeof_op ->
  getFaasmOp op st = Returned (to_Uptr op) st.
Proof.
  intros Hc Hm. unfold getFaasmOp.
  rewrite (bind_Returned _ _ _ _ _ (ctx_memory_live _ _ Hc)).
  now apply memoryRef_mapped.
Qed.

Lemma getFaasmInfoType_mapped st self info :
  st_ctx st = Some self ->
  mapped (st_memory st) info sizeof_info ->
  getFaasmInfoType info st = Returned (to_Uptr info) st.
Proof.
  intros Hc Hm. unfold getFaasmInfoType.
  rewrite (bind_Returned _ _ _ _ _ (ctx_memory_live _ _ Hc)).
  now apply memoryRef_mapped.
Qed.

Lemma writeMpiResult_mapped st self resPtr v :
  st_ctx st = Some self ->
  mapped (st_memory st) resPtr 4 ->
  writeMpiResult resPtr v st =
  Returned tt (with_memory st (store_i32 (st_memory st) (to_Uptr resPtr) v)).
Proof.
  intros Hc Hm. unfold writeMpiResult.
  rewrite (bind_Returned _ _ _ _ _ (ctx_memory_live _ _ Hc)).
  rewrite (bind_Returned _ _ _ _ _ (memoryRef_mapped _ _ _ _ Hm)).
  reflexivity.
Qed.

(** ** Unsupported calls *)

(** C1.  Every call of the unsupported set throws, whatever its arguments
    and whatever the state: the outcome is a [Thrown] that leaves the state
    as it was, and it is never a return (of success or of anything else). *)
Theorem unsupported_calls_always_throw (c : GuestCall) (st : HostState) :
  unsupported c = true ->
  (exists msg, invoke c st = Thrown msg st) /\
  fatal (invoke c st) /\
  (forall v st', invoke c st <> Returned v st').
Proof.
  intros Hu.
  assert (Ht : exists msg, invoke c st = Thrown msg st).
  { destruct c; simpl in Hu; try discriminate Hu;
      (eexists; unfold invoke; reflexivity). }
  destruct Ht as [msg Ht]. split; [now exists msg |].
  rewrite Ht. split; [exact I | intros v st' Hr; discriminate Hr].
Qed.

(** ** The count query *)

Lemma int_rem_defined a b :
  b <> 0 -> ~ (a = INT_MIN /\ b = -1) -> int_rem a b = Some (Z.rem a b).
Proof.
  intros Hb Hov. unfold int_rem.
  destruct (Z.eqb_spec b 0); [contradiction |].
  destruct (Z.eqb_spec a INT_MIN), (Z.eqb_spec b (-1)); simpl;
    try reflexivity.
  destruct Hov. now split.
Qed.

Lemma int_div_defined a b :
  b <> 0 -> ~ (a = INT_MIN /\ b = -1) -> int_div a b = Some (Z.quot a b).
Proof.
  intros Hb Hov. unfold int_div.
  destruct (Z.eqb_spec b 0); [contradiction |].
  destruct (Z.eqb_spec a INT_MIN), (Z.eqb_spec b (-1)); simpl;
    try reflexivity.
  destruct Hov. now split.
Qed.

Lemma exact_quotient a b :
  b <> 0 -> (b | a) -> Z.rem a b = 0 /\ Z.quot a b = a / b /\ a / b * b = a.
Proof.
  intros Hb [k ->]. rewrite Z.rem_mul, Z.quot_mul, Z.div_mul by assumption.
  auto.
Qed.

Lemma exact_quotient_in_I32 a b :
  in_I32 a -> b <> 0 -> ~ (a = INT_MIN /\ b = -1) -> (b | a) -> in_I32 (a / b).
Proof.
  intros Ha Hb Hov [k ->]. rewrite Z.div_mul by assumption.
  unfold in_I32, INT_MIN, INT_MAX in *. nia.
Qed.

(** The count query where the division is defined.  With a live context
    and mapped status and datatype descriptors (datatype size not zero, and
    not the overflowing [INT_MIN / -1]):
    when the transferred byte count is an exact multiple of the datatype
    size, the quotient is written through [countPtr] and the call returns
    [MPI_SUCCESS]; when it is not, the state is left as it was and the call
    returns [1], which is not [MPI_SUCCESS]. *)
Theorem MPI_Get_count_exact_or_incomplete
  (st : HostState) (self : ContextWrapper)
  (statusPtr datatype countPtr bytes size : Z) :
  st_ctx st = Some self ->
  mapped (st_memory st) statusPtr sizeof_status ->
  mapped (st_memory st) datatype sizeof_datatype ->
  bytesSizeAt (st_memory st) statusPtr = bytes ->
  datatypeSizeAt (st_memory st) datatype = size ->
  size <> 0 ->
  ~ (bytes = INT_MIN /\ size = -1) ->
  ((size | bytes) ->
   mapped (st_memory st) countPtr 4 ->
   let written := store_i32 (st_memory st) (to_Uptr countPtr) (bytes / size) in
   MPI_Get_count statusPtr datatype countPtr st
     = Returned MPI_SUCCESS (with_memory st written) /\
   load_i32 written (to_Uptr countPtr) = bytes / size /\
   bytes / size * size = bytes) /\
  (~ (size | bytes) ->
   MPI_Get_count statusPtr datatype countPtr st = Returned 1 st /\
   1 <> MPI_SUCCESS).
Proof.
  intros Hc Hst Hdt Hbytes Hsize Hnz Hov.
  assert (Hrun : MPI_Get_count statusPtr datatype countPtr st =
                 (if negb (Z.rem bytes size =? 0) then ret 1
                  else nVals <- int_op (int_div bytes size) ;;
                       writeMpiResult countPtr nVals ;; ret MPI_SUCCESS) st).
  { unfold MPI_Get_count.
    rewrite (bind_Returned _ _ _ _ _ (ctx_memory_live _ _ Hc)).
    rewrite (bind_Returned _ _ _ _ _ (memoryRef_mapped _ _ _ _ Hst)).
    rewrite (bind_Returned _ _ _ _ _ (getFaasmDataType_mapped _ _ _ Hc Hdt)).
    unfold status_bytesSize, datatype_size.
    rewrite (bind_Returned _ _ _ bytes st) by (unfold read_int; now rewrite <- Hbytes).
    rewrite (bind_Returned _ _ _ size st) by (unfold read_int; now rewrite <- Hsize).
    rewrite (int_rem_defined _ _ Hnz Hov). reflexivity. }
  split.
  - intros Hdiv Hcp written.
    destruct (exact_quotient _ _ Hnz Hdiv) as (Hrem & Hquot & Hmul).
    rewrite Hrun, Hrem. cbn [Z.eqb negb].
    rewrite (int_div_defined _ _ Hnz Hov), Hquot. cbn [int_op].
    rewrite (bind_Returned _ _ _ (bytes / size) st) by reflexivity.
    rewrite (bind_Returned _ _ _ _ _ (writeMpiResult_mapped _ _ _ _ Hc Hcp)).
    split; [reflexivity | split; [| exact Hmul]].
    apply load_store_i32_same, exact_quotient_in_I32; try assumption.
    rewrite <- Hbytes. apply to_I32_range.
  - intros Hndiv. rewrite Hrun.
    destruct (Z.eqb_spec (Z.rem bytes size) 0) as [Hrem | Hrem].
    + destruct Hndiv. apply Z.rem_divide; assumption.
    + split; [reflexivity | discriminate].
Qed.

(** C2.  The divisor of the count query is the size held by the guest's
    datatype descriptor, and it is used unchecked.  With a live context and
    mapped status and datatype descriptors, a size of zero makes the
    remainder a division by zero, undefined behaviour in C++, whatever the
    transferred byte count and the output pointer are: the call neither
    returns the non-success result nor writes a count.  A size of [-1] with
    a byte count of [INT_MIN] is the overflowing remainder, undefined
    too. *)
Theorem MPI_Get_count_divides_by_an_unchecked_size
  (st : HostState) (self : ContextWrapper)
  (statusPtr datatype countPtr : Z) :
  st_ctx st = Some self ->
  mapped (st_memory st) statusPtr sizeof_status ->
  mapped (st_memory st) datatype sizeof_datatype ->
  datatypeSizeAt (st_memory st) datatype = 0 \/
  (bytesSizeAt (st_memory st) statusPtr = INT_MIN /\
   datatypeSizeAt (st_memory st) datatype = -1) ->
  MPI_Get_count statusPtr datatype countPtr st = Undefined /\
  (forall v st', MPI_Get_count statusPtr datatype countPtr st <> Returned v st').
Proof.
  intros Hc Hst Hdt Hbad.
  assert (Hrun : MPI_Get_count statusPtr datatype countPtr st = Undefined).
  { unfold MPI_Get_count.
    rewrite (bind_Returned _ _ _ _ _ (ctx_memory_live _ _ Hc)).
    rewrite (bind_Returned _ _ _ _ _ (memoryRef_mapped _ _ _ _ Hst)).
    rewrite (bind_Returned _ _ _ _ _ (getFaasmDataType_mapped _ _ _ Hc Hdt)).
    unfold status_bytesSize, datatype_size.
    rewrite (bind_Returned _ _ _ (bytesSizeAt (st_memory st) statusPtr) st)
      by reflexivity.
    rewrite (bind_Returned _ _ _ (datatypeSizeAt (st_memory st) datatype) st)
      by reflexivity.
    apply bind_Undefined.
    destruct Hbad as [Hzero | [Hmin Hneg]].
    - rewrite Hzero. reflexivity.
    - rewrite Hmin, Hneg. reflexivity. }
  split; [exact Hrun |].
  intros v st' Hr. rewrite Hrun in Hr. discriminate Hr.
Qed.

(** ** In-place collectives *)

Lemma bind_ret {A B} (a : A) (k : A -> M B) st : bind (ret a) k st = k a st.
Proof. reflexivity. Qed.

Lemma datatype_size_at st datatype size :
  datatypeSizeAt (st_memory st) datatype = size ->
  datatype_size (to_Uptr datatype) st = Returned size st.
Proof. intros <-. reflexivity. Qed.

Lemma int_op_Some z st : int_op (Some z) st = Returned z st.
Proof. reflexivity. Qed.

Tactic Notation "run_by" tactic3(tac) := erewrite bind_Returned by tac.
Ltac simpl_state :=
  unfold ret, set_ctx, set_call, with_ctx, with_engine, with_event, with_call,
    with_memory;
  cbn [st_memory st_ctx st_call st_engine st_endpointHost st_trace].
Ltac live Hc :=
  first [ eapply ctx_memory_live; exact Hc
        | eapply ctx_rank_live; exact Hc
        | eapply ctx_module_live; exact Hc ].

Lemma isInPlace_sentinel :
  0 <= FAABRIC_IN_PLACE < 2 ^ 8 -> isInPlace FAABRIC_IN_PLACE = true.
Proof.
  intros Hs. unfold isInPlace, to_U8.
  rewrite Z.mod_small by exact Hs. apply Z.eqb_refl.
Qed.

Lemma delegated_trace st self c (k : Z) :
  st_ctx st = Some self ->
  outcome_trace ((ctx_world_call c ;; ret k) st)
  = Some (st_trace st ++ [EvEngine (onWorld (world self) c)]).
Proof.
  intros Hc. unfold bind. rewrite (ctx_world_call_live _ _ _ Hc).
  unfold delegate. destruct (engine _ _ _); reflexivity.
Qed.

Lemma MPI_Allgather_in_place st self sendBuf sendCount sendType recvBuf
  recvCount recvType comm n :
  st_ctx st = Some self ->
  recognizedComm (st_memory st) comm ->
  mapped (st_memory st) sendType sizeof_datatype ->
  mapped (st_memory st) recvType sizeof_datatype ->
  int_mul recvCount (datatypeSizeAt (st_memory st) recvType) = Some n ->
  viewMapped (st_memory st) (arrayView 1 recvBuf n) ->
  isInPlace sendBuf = true ->
  MPI_Allgather sendBuf sendCount sendType recvBuf recvCount recvType comm st
  = (ctx_world_call
       (MpiWorld.allGather (rank self)
          (arrayView 1 recvBuf n) (to_Uptr sendType) sendCount
          (arrayView 1 recvBuf n) (to_Uptr recvType) recvCount) ;;
     ret MPI_SUCCESS) (with_event st (EvView (arrayView 1 recvBuf n))).
Proof.
  intros Hc Hcomm HsT HrT Hmul Hv Hin. unfold MPI_Allgather.
  run_by (eapply checkMpiComm_recognized; eassumption).
  run_by (eapply getFaasmDataType_mapped; eassumption).
  run_by (eapply getFaasmDataType_mapped; eassumption).
  run_by (live Hc).
  run_by (eapply datatype_size_at; reflexivity).
  rewrite Hmul. run_by (apply int_op_Some).
  run_by (eapply memoryArrayPtr_mapped; exact Hv).
  rewrite Hin, bind_ret.
  run_by (live Hc). reflexivity.
Qed.

Lemma MPI_Gather_in_place st self sendBuf sendCount sendType recvBuf
  recvCount recvType root comm n :
  st_ctx st = Some self ->
  recognizedComm (st_memory st) comm ->
  mapped (st_memory st) sendType sizeof_datatype ->
  mapped (st_memory st) recvType sizeof_datatype ->
  int_mul recvCount (datatypeSizeAt (st_memory st) recvType) = Some n ->
  viewMapped (st_memory st) (arrayView 1 recvBuf n) ->
  isInPlace sendBuf = true ->
  MPI_Gather sendBuf sendCount sendType recvBuf recvCount recvType root comm st
  = (ctx_world_call
       (MpiWorld.gather (rank self) root
          (arrayView 1 recvBuf n) (to_Uptr sendType) sendCount
          (arrayView 1 recvBuf n) (to_Uptr recvType) recvCount) ;;
     ret MPI_SUCCESS) (with_event st (EvView (arrayView 1 recvBuf n))).
Proof.
  intros Hc Hcomm HsT HrT Hmul Hv Hin. unfold MPI_Gather.
  run_by (eapply checkMpiComm_recognized; eassumption).
  run_by (eapply getFaasmDataType_mapped; eassumption).
  run_by (eapply getFaasmDataType_mapped; eassumption).
  run_by (live Hc).
  run_by (eapply datatype_size_at; reflexivity).
  rewrite Hmul. run_by (apply int_op_Some).
  run_by (eapply memoryArrayPtr_mapped; exact Hv).
  rewrite Hin, bind_ret.
  run_by (live Hc). reflexivity.
Qed.

Lemma MPI_Reduce_in_place st self sendBuf recvBuf count datatype op root comm n :
  st_ctx st = Some self ->
  recognizedComm (st_memory st) comm ->
  mapped (st_memory st) datatype sizeof_datatype ->
  mapped (st_memory st) op sizeof_op ->
  int_mul count (datatypeSizeAt (st_memory st) datatype) = Some n ->
  viewMapped (st_memory st) (arrayView 1 recvBuf n) ->
  isInPlace sendBuf = true ->
  MPI_Reduce sendBuf recvBuf count datatype op root comm st
  = (ctx_world_call
       (MpiWorld.reduce (rank self) root
          (arrayView 1 recvBuf n) (arrayView 1 recvBuf n)
          (to_Uptr datatype) count (to_Uptr op)) ;;
     ret MPI_SUCCESS) (with_event st (EvView (arrayView 1 recvBuf n))).
Proof.
  intros Hc Hcomm HdT Hop Hmul Hv Hin. unfold MPI_Reduce.
  run_by (eapply checkMpiComm_recognized; eassumption).
  run_by (eapply getFaasmDataType_mapped; eassumption).
  run_by (live Hc).
  run_by (eapply datatype_size_at; reflexivity).
  rewrite Hmul. run_by (apply int_op_Some).
  run_by (eapply memoryArrayPtr_mapped; exact Hv).
  rewrite Hin, bind_ret.
  run_by (eapply getFaasmOp_mapped; [exact Hc | exact Hop]).
  run_by (live Hc). reflexivity.
Qed.

Lemma MPI_Scan_in_place st self sendBuf recvBuf count datatype op comm n :
  st_ctx st = Some self ->
  recognizedComm (st_memory st) comm ->
  mapped (st_memory st) datatype sizeof_datatype ->
  mapped (st_memory st) op sizeof_op ->
  int_mul count (datatypeSizeAt (st_memory st) datatype) = Some n ->
  viewMapped (st_memory st) (arrayView 1 recvBuf n) ->
  isInPlace sendBuf = true ->
  MPI_Scan sendBuf recvBuf count datatype op comm st
  = (ctx_world_call
       (MpiWorld.scan (rank self)
          (arrayView 1 recvBuf n) (arrayView 1 recvBuf n)
          (to_Uptr datatype) count (to_Uptr op)) ;;
     ret MPI_SUCCESS) (with_event st (EvView (arrayView 1 recvBuf n))).
Proof.
  intros Hc Hcomm HdT Hop Hmul Hv Hin. unfold MPI_Scan.
  run_by (eapply checkMpiComm_recognized; eassumption).
  run_by (eapply getFaasmDataType_mapped; eassumption).
  run_by (live Hc).
  run_by (eapply datatype_size_at; reflexivity).
  rewrite Hmul. run_by (apply int_op_Some).
  run_by (eapply memoryArrayPtr_mapped; exact Hv).
  rewrite Hin, bind_ret.
  run_by (eapply getFaasmOp_mapped; [exact Hc | exact Hop]).
  run_by (live Hc). reflexivity.
Qed.

Lemma MPI_Allreduce_in_place st self sendBuf recvBuf count datatype op comm :
  st_ctx st = Some self ->
  recognizedComm (st_memory st) comm ->
  mapped (st_memory st) datatype sizeof_datatype ->
  mapped (st_memory st) op sizeof_op ->
  viewMapped (st_memory st) (arrayView 1 recvBuf count) ->
  isInPlace sendBuf = true ->
  MPI_Allreduce sendBuf recvBuf count datatype op comm st
  = (ctx_world_call
       (MpiWorld.allReduce (rank self)
          (arrayView 1 recvBuf count) (arrayView 1 recvBuf count)
          (to_Uptr datatype) count (to_Uptr op)) ;;
     ret MPI_SUCCESS) (with_event st (EvView (arrayView 1 recvBuf count))).
Proof.
  intros Hc Hcomm HdT Hop Hv Hin. unfold MPI_Allreduce.
  run_by (eapply checkMpiComm_recognized; eassumption).
  run_by (eapply getFaasmDataType_mapped; eassumption).
  run_by (eapply getFaasmOp_mapped; eassumption).
  run_by (live Hc).
  run_by (eapply memoryArrayPtr_mapped; exact Hv).
  rewrite Hin, bind_ret.
  run_by (live Hc). reflexivity.
Qed.

Lemma oneViewThenCall_intro st self (o : Outcome Z) v c :
  st_ctx st = Some self ->
  o = (ctx_world_call c ;; ret MPI_SUCCESS) (with_event st (EvView v)) ->
  oneViewThenCall st self o v c.
Proof.
  intros Hc Ho. split; [exact Ho |]. rewrite Ho.
  rewrite (delegated_trace (with_event st (EvView v)) self c MPI_SUCCESS Hc).
  cbn [st_trace with_event]. now rewrite <- app_assoc.
Qed.

(** C3.  With a live context and the recognized communicator, when the
    send pointer is the in-place sentinel (a value [isInPlace]'s [U8]
    argument can hold), gather, all-gather, reduce, scan and all-reduce
    each resolve one view, the one at the receive pointer, and hand it to
    the engine as both the send and the receive buffer.  Nothing is asked
    of the send range: it is never resolved. *)
Theorem in_place_collectives_build_one_view
  (st : HostState) (self : ContextWrapper) (sendBuf recvBuf comm : Z) :
  st_ctx st = Some self ->
  recognizedComm (st_memory st) comm ->
  0 <= FAABRIC_IN_PLACE < 2 ^ 8 ->
  sendBuf = FAABRIC_IN_PLACE ->
  (forall sendCount sendType recvCount recvType root n,
      mapped (st_memory st) sendType sizeof_datatype ->
      mapped (st_memory st) recvType sizeof_datatype ->
      int_mul recvCount (datatypeSizeAt (st_memory st) recvType) = Some n ->
      viewMapped (st_memory st) (arrayView 1 recvBuf n) ->
      let v := arrayView 1 recvBuf n in
      oneViewThenCall st self
        (MPI_Gather sendBuf sendCount sendType recvBuf recvCount recvType
           root comm st) v
        (MpiWorld.gather (rank self) root v (to_Uptr sendType) sendCount
           v (to_Uptr recvType) recvCount) /\
      oneViewThenCall st self
        (MPI_Allgather sendBuf sendCount sendType recvBuf recvCount recvType
           comm st) v
        (MpiWorld.allGather (rank self) v (to_Uptr sendType) sendCount
           v (to_Uptr recvType) recvCount)) /\
  (forall count datatype op root n,
      mapped (st_memory st) datatype sizeof_datatype ->
      mapped (st_memory st) op sizeof_op ->
      int_mul count (datatypeSizeAt (st_memory st) datatype) = Some n ->
      viewMapped (st_memory st) (arrayView 1 recvBuf n) ->
      let v := arrayView 1 recvBuf n in
      oneViewThenCall st self
        (MPI_Reduce sendBuf recvBuf count datatype op root comm st) v
        (MpiWorld.reduce (rank self) root v v
           (to_Uptr datatype) count (to_Uptr op)) /\
      oneViewThenCall st self
        (MPI_Scan sendBuf recvBuf count datatype op comm st) v
        (MpiWorld.scan (rank self) v v
           (to_Uptr datatype) count (to_Uptr op))) /\
  (forall count datatype op,
      mapped (st_memory st) datatype sizeof_datatype ->
      mapped (st_memory st) op sizeof_op ->
      viewMapped (st_memory st) (arrayView 1 recvBuf count) ->
      let v := arrayView 1 recvBuf count in
      oneViewThenCall st self
        (MPI_Allreduce sendBuf recvBuf count datatype op comm st) v
        (MpiWorld.allReduce (rank self) v v
           (to_Uptr datatype) count (to_Uptr op))).
Proof.
  intros Hc Hcomm Hrange ->.
  pose proof (isInPlace_sentinel Hrange) as Hin.
  split; [| split]; intros.
  - split; apply oneViewThenCall_intro; try exact Hc.
    + now apply MPI_Gather_in_place.
    + now apply MPI_Allgather_in_place.
  - split; apply oneViewThenCall_intro; try exact Hc.
    + now apply MPI_Reduce_in_place.
    + now apply MPI_Scan_in_place.
  - apply oneViewThenCall_intro; try exact Hc.
    now apply MPI_Allreduce_in_place.
Qed.

(** ** The in-place check *)

Lemma to_U8_periodic (p : Z) : to_U8 (p + 2 ^ 8) = to_U8 p.
Proof.
  unfold to_U8. replace (p + 2 ^ 8) with (p + 1 * 2 ^ 8) by ring.
  apply Z_mod_plus_full.
Qed.

(** C4 (the code departs from it).  [isInPlace] sees only the low eight
    bits of the pointer: two pointers 256 apart are never told apart, so
    the check is not a comparison of the full pointer value. *)
Theorem isInPlace_ignores_high_bits (p : Z) :
  isInPlace (p + 2 ^ 8) = isInPlace p.
Proof.
  unfold isInPlace. f_equal. apply to_U8_periodic.
Qed.

Lemma isInPlace_second_pointer :
  0 <= FAABRIC_IN_PLACE < 2 ^ 8 ->
  isInPlace (FAABRIC_IN_PLACE + 2 ^ 8) = true /\
  FAABRIC_IN_PLACE + 2 ^ 8 <> FAABRIC_IN_PLACE /\
  in_I32 (FAABRIC_IN_PLACE + 2 ^ 8).
Proof.
  intros Hs. unfold isInPlace at 1. rewrite to_U8_periodic.
  fold (isInPlace FAABRIC_IN_PLACE). rewrite (isInPlace_sentinel Hs).
  unfold in_I32, INT_MIN, INT_MAX. repeat split; lia.
Qed.

Lemma isInPlace_sentinel_missed :
  ~ (0 <= FAABRIC_IN_PLACE < 2 ^ 8) -> isInPlace FAABRIC_IN_PLACE = false.
Proof.
  intros Hs. unfold isInPlace, to_U8.
  destruct (Z.eqb_spec (FAABRIC_IN_PLACE mod 2 ^ 8) FAABRIC_IN_PLACE) as [E|E];
    [| reflexivity].
  destruct Hs. rewrite <- E. apply Z.mod_pos_bound. lia.
Qed.

(** ** Point-to-point calls *)

Lemma checkMpiComm_unrecognized st self comm :
  st_ctx st = Some self ->
  mapped (st_memory st) comm sizeof_communicator ->
  commIdAt (st_memory st) comm <> FAABRIC_COMM_WORLD ->
  checkMpiComm comm st = Thrown "Unexpected comm type" st.
Proof.
  intros Hc Hm Hid. unfold checkMpiComm.
  run_by (live Hc).
  run_by (apply memoryRef_mapped; exact Hm).
  unfold bind, read_int. fold (commIdAt (st_memory st) comm).
  apply Z.eqb_neq in Hid. now rewrite Hid.
Qed.

(** Every point-to-point call starts with [checkMpiComm]: any other
    communicator makes it throw before anything is resolved. *)
Lemma point_to_point_requires_world_comm st self comm :
  st_ctx st = Some self ->
  mapped (st_memory st) comm sizeof_communicator ->
  commIdAt (st_memory st) comm <> FAABRIC_COMM_WORLD ->
  (forall buffer count datatype destRank tag,
      MPI_Send buffer count datatype destRank tag comm st
      = Thrown "Unexpected comm type" st) /\
  (forall buffer count datatype sourceRank tag statusPtr,
      MPI_Recv buffer count datatype sourceRank tag comm statusPtr st
      = Thrown "Unexpected comm type" st) /\
  (forall buffer count datatype destRank tag requestPtrPtr,
      MPI_Isend buffer count datatype destRank tag comm requestPtrPtr st
      = Thrown "Unexpected comm type" st) /\
  (forall buffer count datatype sourceRank tag requestPtrPtr,
      MPI_Irecv buffer count datatype sourceRank tag comm requestPtrPtr st
      = Thrown "Unexpected comm type" st) /\
  (forall sendBuf sendCount sendType destination sendTag recvBuf recvCount
          recvType source recvTag statusPtr,
      MPI_Sendrecv sendBuf sendCount sendType destination sendTag recvBuf
        recvCount recvType source recvTag comm statusPtr st
      = Thrown "Unexpected comm type" st).
Proof.
  intros Hc Hm Hid.
  pose proof (checkMpiComm_unrecognized st self comm Hc Hm Hid) as Hthrow.
  repeat split; intros;
    (eapply bind_Thrown; exact Hthrow).
Qed.

(** The blocking send resolves [count] bytes at [buffer], whatever the size
    of the datatype, and hands that view to the engine. *)
Lemma MPI_Send_marshals_count st self buffer count datatype destRank tag comm :
  st_ctx st = Some self ->
  recognizedComm (st_memory st) comm ->
  mapped (st_memory st) datatype sizeof_datatype ->
  viewMapped (st_memory st) (arrayView 1 buffer count) ->
  MPI_Send buffer count datatype destRank tag comm st
  = (ctx_world_call
       (MpiWorld.send (rank self) destRank (arrayView 1 buffer count)
          (to_Uptr datatype) count) ;;
     ret 0) (with_event st (EvView (arrayView 1 buffer count))).
Proof.
  intros Hc Hcomm Hdt Hv. unfold MPI_Send.
  run_by (eapply checkMpiComm_recognized; eassumption).
  run_by (eapply getFaasmDataType_mapped; eassumption).
  run_by (live Hc).
  run_by (eapply memoryArrayPtr_mapped; exact Hv).
  run_by (live Hc). reflexivity.
Qed.

Lemma MPI_Recv_marshals_count st self buffer count datatype sourceRank tag comm
  statusPtr :
  st_ctx st = Some self ->
  recognizedComm (st_memory st) comm ->
  mapped (st_memory st) statusPtr sizeof_status ->
  mapped (st_memory st) datatype sizeof_datatype ->
  viewMapped (st_memory st) (arrayView 1 buffer count) ->
  MPI_Recv buffer count datatype sourceRank tag comm statusPtr st
  = (ctx_world_call
       (MpiWorld.recv sourceRank (rank self) (arrayView 1 buffer count)
          (to_Uptr datatype) count (to_Uptr statusPtr)) ;;
     ret 0) (with_event st (EvView (arrayView 1 buffer count))).
Proof.
  intros Hc Hcomm Hst Hdt Hv. unfold MPI_Recv.
  run_by (eapply checkMpiComm_recognized; eassumption).
  run_by (live Hc).
  run_by (apply memoryRef_mapped; exact Hst).
  run_by (eapply getFaasmDataType_mapped; eassumption).
  run_by (live Hc).
  run_by (eapply memoryArrayPtr_mapped; exact Hv).
  run_by (live Hc). reflexivity.
Qed.

(** The send-receive resolves [count] times the datatype size on both
    sides. *)
Lemma MPI_Sendrecv_marshals_count_times_size st self sendBuf sendCount sendType
  destination sendTag recvBuf recvCount recvType source recvTag comm statusPtr
  sendBytes recvBytes :
  st_ctx st = Some self ->
  recognizedComm (st_memory st) comm ->
  mapped (st_memory st) sendType sizeof_datatype ->
  mapped (st_memory st) recvType sizeof_datatype ->
  mapped (st_memory st) statusPtr sizeof_status ->
  int_mul sendCount (datatypeSizeAt (st_memory st) sendType) = Some sendBytes ->
  int_mul recvCount (datatypeSizeAt (st_memory st) recvType) = Some recvBytes ->
  viewMapped (st_memory st) (arrayView 1 sendBuf sendBytes) ->
  viewMapped (st_memory st) (arrayView 1 recvBuf recvBytes) ->
  MPI_Sendrecv sendBuf sendCount sendType destination sendTag recvBuf recvCount
    recvType source recvTag comm statusPtr st
  = (ctx_world_call
       (MpiWorld.sendRecv (arrayView 1 sendBuf sendBytes) sendCount
          (to_Uptr sendType) destination
          (arrayView 1 recvBuf recvBytes) recvCount (to_Uptr recvType) source
          (rank self) (to_Uptr statusPtr)) ;;
     ret MPI_SUCCESS)
      (with_event (with_event st (EvView (arrayView 1 sendBuf sendBytes)))
         (EvView (arrayView 1 recvBuf recvBytes))).
Proof.
  intros Hc Hcomm HsT HrT Hst Hsmul Hrmul Hsv Hrv. unfold MPI_Sendrecv.
  run_by (eapply checkMpiComm_recognized; eassumption).
  run_by (eapply getFaasmDataType_mapped; [exact Hc | exact HsT]).
  run_by (eapply getFaasmDataType_mapped; [exact Hc | exact HrT]).
  run_by (live Hc).
  run_by (apply memoryRef_mapped; exact Hst).
  run_by (live Hc).
  run_by (eapply datatype_size_at; reflexivity).
  rewrite Hsmul. run_by (apply int_op_Some).
  run_by (eapply memoryArrayPtr_mapped; exact Hsv).
  run_by (live Hc).
  run_by (eapply datatype_size_at; reflexivity).
  cbn [st_memory with_event]. rewrite Hrmul. run_by (apply int_op_Some).
  run_by (eapply memoryArrayPtr_mapped; exact Hrv).
  run_by (live Hc). reflexivity.
Qed.

(** ** Initialisation *)

Lemma mpirank_unset msg : mpirank_field msg = None -> mpirank msg <= 0.
Proof. intros Hf. unfold mpirank. rewrite Hf. lia. Qed.

Lemma delegate_ok c st r m w :
  engine c (st_memory st) (st_engine st) = EngineOk r m w ->
  delegate c st = Returned r (with_engine (with_event st (EvEngine c)) m w).
Proof. intros He. unfold delegate. now rewrite He. Qed.

Lemma delegate_fail c st msg :
  engine c (st_memory st) (st_engine st) = EngineFail msg ->
  delegate c st = Thrown msg (with_event st (EvEngine c)).
Proof. intros He. unfold delegate. now rewrite He. Qed.

Lemma new_ContextWrapper_ok st m w :
  engine (getWorld (getWorldId (st_engine st))) (st_memory st) (st_engine st)
  = EngineOk tt m w ->
  new_ContextWrapper st
  = Returned
      (mkContextWrapper ExecutingModule DefaultMemory
         (getWorldId (st_engine st)) (getRank w))
      (with_engine
         (with_event st (EvEngine (getWorld (getWorldId (st_engine st))))) m w).
Proof.
  intros He.
  unfold new_ContextWrapper, getExecutingWorld, getExecutingWAVMModule,
    executingContext_getWorldId, executingContext_getRank, bind, ret, delegate.
  rewrite He. reflexivity.
Qed.

(** C6.  [MPI_Init] with a declared rank that is unset or at most zero
    asks the engine for a new world and records the identifier it gets on
    the call record; with a positive rank it joins and leaves the record as
    it is.  Either way (the engine answering) the context is set from the
    engine's bound world and rank and the call returns success. *)
Theorem MPI_Init_creates_or_joins (st : HostState) (a b : Z) :
  (mpirank_field (st_call st) = None \/ mpirank (st_call st) <= 0 ->
   forall worldId m1 w1 m2 w2,
     engine (createWorld (st_call st)) (st_memory st) (st_engine st)
     = EngineOk worldId m1 w1 ->
     engine (getWorld (getWorldId w1)) m1 w1 = EngineOk tt m2 w2 ->
     MPI_Init a b st
     = Returned MPI_SUCCESS
         (mkHostState m2
            (Some (mkContextWrapper ExecutingModule DefaultMemory
                     (getWorldId w1) (getRank w2)))
            (set_mpiworldid (st_call st) worldId) w2 (st_endpointHost st)
            (st_trace st ++ [EvEngine (createWorld (st_call st));
                             EvEngine (getWorld (getWorldId w1))]))) /\
  (0 < mpirank (st_call st) ->
   forall m1 w1 m2 w2,
     engine (joinWorld (st_call st)) (st_memory st) (st_engine st)
     = EngineOk tt m1 w1 ->
     engine (getWorld (getWorldId w1)) m1 w1 = EngineOk tt m2 w2 ->
     MPI_Init a b st
     = Returned MPI_SUCCESS
         (mkHostState m2
            (Some (mkContextWrapper ExecutingModule DefaultMemory
                     (getWorldId w1) (getRank w2)))
            (st_call st) w2 (st_endpointHost st)
            (st_trace st ++ [EvEngine (joinWorld (st_call st));
                             EvEngine (getWorld (getWorldId w1))]))).
Proof.
  split.
  - intros Hrank worldId m1 w1 m2 w2 Hcreate Hget.
    assert (Hle : mpirank (st_call st) <= 0)
      by (destruct Hrank; [now apply mpirank_unset | assumption]).
    unfold MPI_Init. run_by reflexivity.
    apply Z.leb_le in Hle. rewrite Hle.
    run_by (run_by (apply delegate_ok; exact Hcreate); reflexivity).
    run_by (apply new_ContextWrapper_ok; exact Hget).
    simpl_state. now rewrite <- app_assoc.
  - intros Hrank m1 w1 m2 w2 Hjoin Hget.
    unfold MPI_Init. run_by reflexivity.
    apply Z.leb_gt in Hrank. rewrite Hrank.
    run_by (exact (delegate_ok (joinWorld (st_call st)) st tt m1 w1 Hjoin)).
    run_by (apply new_ContextWrapper_ok; exact Hget).
    simpl_state. now rewrite <- app_assoc.
Qed.

(** ** Finalize, abort, and calls without a context *)

Lemma deref_ctx_fatal st : st_ctx st = None -> fatal (deref_ctx st).
Proof. intros Hc. now rewrite (deref_ctx_null _ Hc). Qed.

Lemma ctx_memory_fatal st : st_ctx st = None -> fatal (ctx_memory st).
Proof. intros Hc. apply bind_fatal. now apply deref_ctx_fatal. Qed.

Lemma ctx_module_fatal st : st_ctx st = None -> fatal (ctx_module st).
Proof. intros Hc. apply bind_fatal. now apply deref_ctx_fatal. Qed.

Lemma ctx_rank_fatal st : st_ctx st = None -> fatal (ctx_rank st).
Proof. intros Hc. apply bind_fatal. now apply deref_ctx_fatal. Qed.

Lemma ctx_world_call_fatal st c :
  st_ctx st = None -> fatal (ctx_world_call c st).
Proof. intros Hc. unfold ctx_world_call. now rewrite Hc. Qed.

Lemma checkMpiComm_fatal st comm :
  st_ctx st = None -> fatal (checkMpiComm comm st).
Proof. intros Hc. apply bind_fatal. now apply ctx_memory_fatal. Qed.

Lemma getFaasmDataType_fatal st p :
  st_ctx st = None -> fatal (getFaasmDataType p st).
Proof. intros Hc. apply bind_fatal. now apply ctx_memory_fatal. Qed.

Lemma getFaasmInfoType_fatal st p :
  st_ctx st = None -> fatal (getFaasmInfoType p st).
Proof. intros Hc. apply bind_fatal. now apply ctx_memory_fatal. Qed.

Lemma getFaasmRequestId_fatal st p :
  st_ctx st = None -> fatal (getFaasmRequestId p st).
Proof. intros Hc. apply bind_fatal. now apply deref_ctx_fatal. Qed.

Lemma throw_fatal {A} msg st : fatal (@throw _ A msg st).
Proof. exact I. Qed.

(** Without a context every call fails fatally, except the calls that never
    go through [ctx]. *)
Lemma calls_need_context (c : GuestCall) (st : HostState) :
  st_ctx st = None -> contextFree c = false -> fatal (invoke c st).
Proof.
  intros Hc Hfree.
  destruct c; simpl in Hfree; try discriminate Hfree; cbn [invoke];
    try apply throw_fatal;
    try (apply bind_fatal;
         first [ now apply checkMpiComm_fatal
               | now apply ctx_memory_fatal
               | now apply ctx_module_fatal
               | now apply ctx_rank_fatal
               | now apply ctx_world_call_fatal
               | now apply getFaasmDataType_fatal
               | now apply getFaasmInfoType_fatal
               | now apply getFaasmRequestId_fatal ]).
  unfold MPI_Cart_get. destruct (maxdims <? MPI_CART_MAX_DIMENSIONS).
  - apply throw_fatal.
  - apply bind_fatal. now apply ctx_memory_fatal.
Qed.

Lemma terminateMpi_ok st self m w :
  st_ctx st = Some self ->
  engine (onWorld (world self) MpiWorld.destroy) (st_memory st) (st_engine st)
  = EngineOk tt m w ->
  terminateMpi st
  = Returned MPI_SUCCESS
      (mkHostState m None (st_call st) w (st_endpointHost st)
         (st_trace st ++ [EvEngine (onWorld (world self) MpiWorld.destroy)])).
Proof.
  intros Hc He. unfold terminateMpi.
  run_by (rewrite (ctx_world_call_live _ _ _ Hc);
          exact (delegate_ok (onWorld (world self) MpiWorld.destroy)
                   st tt m w He)).
  reflexivity.
Qed.

(** C7, as amended.  [MPI_Finalize] and [MPI_Abort] are the same
    computation: the destruction of the bound world is requested from the
    engine, then [ctx] is cleared and success is returned.  In the state
    they leave, every call that goes through [ctx] fails fatally (a second
    finalize among them), while the calls that never consult it do not:
    the no-op calls still return success. *)
Theorem finalize_and_abort_clear_the_context
  (st : HostState) (self : ContextWrapper) (a b : Z) (m : Memory)
  (w : EngineState) :
  st_ctx st = Some self ->
  engine (onWorld (world self) MpiWorld.destroy) (st_memory st) (st_engine st)
  = EngineOk tt m w ->
  let st' :=
    mkHostState m None (st_call st) w (st_endpointHost st)
      (st_trace st ++ [EvEngine (onWorld (world self) MpiWorld.destroy)]) in
  MPI_Abort a b st = MPI_Finalize st /\
  MPI_Finalize st = Returned MPI_SUCCESS st' /\
  st_ctx st' = None /\
  (forall c, contextFree c = false -> fatal (invoke c st')) /\
  fatal (MPI_Finalize st') /\
  (forall comm, MPI_Comm_free comm st' = Returned MPI_SUCCESS st') /\
  (forall basePtr, MPI_Free_mem basePtr st' = Returned MPI_SUCCESS st') /\
  (forall x y z, MPI_Type_contiguous x y z st' = Returned MPI_SUCCESS st') /\
  (forall p, MPI_Type_commit p st' = Returned MPI_SUCCESS st').
Proof.
  intros Hc He st'.
  split; [reflexivity |].
  split; [exact (terminateMpi_ok st self m w Hc He) |].
  split; [reflexivity |].
  split; [intros c Hfree; now apply calls_need_context |].
  split; [exact (calls_need_context Call_MPI_Finalize st' eq_refl eq_refl) |].
  repeat split.
Qed.

(** ** The cartesian query *)

Lemma fillCartesian_frame m dv pv cv d p c a :
  ~ in_first_two_slots dv a ->
  ~ in_first_two_slots pv a ->
  ~ in_first_two_slots cv a ->
  mem_byte (fillCartesian m dv pv cv d p c) a = mem_byte m a.
Proof.
  unfold in_first_two_slots, fillCartesian. intros Hd Hp Hc.
  cbv zeta. rewrite !mem_byte_store_i32_other by lia. reflexivity.
Qed.

Lemma fillCartesian_coords m dv pv cv d p c :
  load_i32 (fillCartesian m dv pv cv d p c) (view_base cv + 4) = to_I32 (snd c).
Proof. unfold fillCartesian. cbv zeta. apply load_store_i32. Qed.

Lemma two_slots_resolved sizeofT offset maxdims :
  sizeofT = 4 -> 2 <= maxdims < 2 ^ 31 ->
  2 * 4 <= view_bytes (arrayView sizeofT offset maxdims).
Proof.
  intros -> Hm. unfold view_bytes, arrayView, to_Uptr; cbn [view_count view_stride].
  rewrite (Z.mod_small maxdims) by lia. rewrite Z.mod_small by lia. lia.
Qed.

(** ** Memory allocation *)

Lemma roundUp_multiple n :
  roundUpToWasmPageAligned n mod WASM_BYTES_PER_PAGE = 0.
Proof. unfold roundUpToWasmPageAligned. apply Z.mod_mul. discriminate. Qed.

Lemma roundUp_bounds n :
  n <= roundUpToWasmPageAligned n < n + WASM_BYTES_PER_PAGE.
Proof.
  unfold roundUpToWasmPageAligned, WASM_BYTES_PER_PAGE.
  pose proof (Z.div_mod (n + 65536 - 1) 65536 ltac:(lia)).
  pose proof (Z.mod_pos_bound (n + 65536 - 1) 65536 ltac:(lia)). lia.
Qed.

Lemma to_U32_page_multiple x :
  x mod WASM_BYTES_PER_PAGE = 0 -> to_U32 x mod WASM_BYTES_PER_PAGE = 0.
Proof.
  intros Hx. unfold to_U32, WASM_BYTES_PER_PAGE in *.
  rewrite Z.mod_mod_divide; [exact Hx |].
  exists 65536. reflexivity.
Qed.

Lemma pageAligned_amount memSize :
  in_I32 memSize ->
  let amount := to_U32 (roundUpToWasmPageAligned memSize) in
  memSize <= amount /\ amount mod WASM_BYTES_PER_PAGE = 0.
Proof.
  intros Hm amount. split.
  - pose proof (roundUp_bounds memSize) as Hb.
    unfold amount, to_U32, in_I32, INT_MIN, INT_MAX, WASM_BYTES_PER_PAGE in *.
    destruct (Z_le_gt_dec 0 (roundUpToWasmPageAligned memSize)).
    + rewrite Z.mod_small by lia. lia.
    + pose proof (Z.mod_pos_bound (roundUpToWasmPageAligned memSize)
                    (2 ^ 32) ltac:(lia)). lia.
  - apply to_U32_page_multiple, roundUp_multiple.
Qed.

(** The amount does not depend on how the helper reads its [I32] argument:
    as it is, or converted to an unsigned 32-bit value. *)
Lemma pageAligned_amount_unsigned memSize :
  to_U32 (roundUpToWasmPageAligned (to_U32 memSize))
  = to_U32 (roundUpToWasmPageAligned memSize).
Proof.
  unfold to_U32, roundUpToWasmPageAligned, WASM_BYTES_PER_PAGE.
  change (2 ^ 32) with 4294967296.
  Z.div_mod_to_equations. lia.
Qed.

Lemma to_U32_to_I32 v : to_U32 (to_I32 v) = to_U32 v.
Proof.
  unfold to_U32, to_I32.
  change (2 ^ 31) with 2147483648; change (2 ^ 32) with 4294967296.
  Z.div_mod_to_equations. lia.
Qed.

Lemma infoId_read st info :
  read_int (to_Uptr info + offsetof_info_id) st
  = Returned (infoIdAt (st_memory st) info) st.
Proof. reflexivity. Qed.

(** C9.  With a live context, a mapped null info, a request that the memory
    can still grow by, and a result slot mapped in the grown memory:
    [MPI_Alloc_mem] grows the linear memory by an amount that is at least
    the [I32] request and a multiple of the page size, writes the address
    of the new region (the old size) through [resPtrPtr], and returns
    [MPI_SUCCESS], a value that does not depend on the address. *)
Theorem MPI_Alloc_mem_grows_page_aligned
  (st : HostState) (self : ContextWrapper) (memSize info resPtrPtr : Z) :
  st_ctx st = Some self ->
  in_I32 memSize ->
  mapped (st_memory st) info sizeof_info ->
  infoIdAt (st_memory st) info = FAABRIC_INFO_NULL ->
  let mem := st_memory st in
  let amount := to_U32 (roundUpToWasmPageAligned memSize) in
  let grown := mkMemory (mem_size mem + amount) (mem_max mem) (mem_byte mem) in
  let address := to_U32 (mem_size mem) in
  mem_size mem + amount <= mem_max mem ->
  mapped grown resPtrPtr 4 ->
  memSize <= amount /\
  amount mod WASM_BYTES_PER_PAGE = 0 /\
  exists st',
    MPI_Alloc_mem memSize info resPtrPtr st = Returned MPI_SUCCESS st' /\
    st_memory st' = store_i32 grown (to_Uptr resPtrPtr) address /\
    mem_size (st_memory st') = mem_size mem + amount /\
    to_U32 (load_i32 (st_memory st') (to_Uptr resPtrPtr)) = address.
Proof.
  intros Hc Hm Hinfo Hnull mem amount grown address Hmax Hres.
  destruct (pageAligned_amount memSize Hm) as [Hge Hmul].
  split; [exact Hge | split; [exact Hmul |]].
  eexists. split; [| split; [| split]].
  - unfold MPI_Alloc_mem.
    run_by (eapply getFaasmInfoType_mapped; eassumption).
    run_by (apply infoId_read).
    rewrite Hnull, Z.eqb_refl. cbn [negb].
    run_by reflexivity. cbv zeta.
    assert (Hgrow : growMemory ExecutingModule amount st
                    = Returned address (with_memory st grown)).
    { unfold growMemory. fold mem. apply Z.leb_le in Hmax. now rewrite Hmax. }
    run_by (exact Hgrow).
    run_by (apply memoryRef_mapped; exact Hres).
    reflexivity.
  - reflexivity.
  - reflexivity.
  - cbn [st_memory with_memory]. rewrite load_store_i32.
    rewrite to_U32_to_I32. unfold address, to_U32. apply Z.mod_mod. lia.
Qed.

(** C10.  With a live context and a mapped info descriptor whose id is not
    [FAABRIC_INFO_NULL], [MPI_Alloc_mem] throws from the unchanged state:
    nothing was grown and nothing written.  And whenever [MPI_Alloc_mem]
    returns at all, the info it was given was the null info. *)
Theorem MPI_Alloc_mem_accepts_null_info_only
  (st : HostState) (memSize info resPtrPtr : Z) :
  (forall self,
      st_ctx st = Some self ->
      mapped (st_memory st) info sizeof_info ->
      infoIdAt (st_memory st) info <> FAABRIC_INFO_NULL ->
      MPI_Alloc_mem memSize info resPtrPtr st
      = Thrown "Non-null info not supported" st) /\
  (forall v st',
      MPI_Alloc_mem memSize info resPtrPtr st = Returned v st' ->
      infoIdAt (st_memory st) info = FAABRIC_INFO_NULL).
Proof.
  split.
  - intros self Hc Hinfo Hid. unfold MPI_Alloc_mem.
    run_by (eapply getFaasmInfoType_mapped; eassumption).
    run_by (apply infoId_read).
    apply Z.eqb_neq in Hid. now rewrite Hid.
  - intros v st'. unfold MPI_Alloc_mem, getFaasmInfoType, ctx_memory.
    unfold bind at 1. unfold bind at 1. unfold bind at 1.
    unfold deref_ctx. destruct (st_ctx st) as [self |]; [| discriminate].
    cbn [ret]. unfold memoryRef, getValidatedMemoryOffsetRange.
    destruct (validRange _ _ _); [| discriminate].
    unfold bind at 1. rewrite infoId_read.
    destruct (Z.eqb_spec (infoIdAt (st_memory st) info) FAABRIC_INFO_NULL)
      as [E | E]; [intros _; exact E | discriminate].
Qed.

End Proofs.

(** ** The model at work on the sample configuration *)

Section Sample.
Local Existing Instance sampleAbi.
Local Existing Instance sampleEngine.

(** A wait-all in the sample state. *)
Lemma unsupported_calls_witness :
  unsupported (Call_MPI_Waitall 2 128 64) = true /\
  ((exists msg,
       invoke (Call_MPI_Waitall 2 128 64) sample_state
       = Thrown msg sample_state) /\
   fatal (invoke (Call_MPI_Waitall 2 128 64) sample_state) /\
   (forall v st',
       invoke (Call_MPI_Waitall 2 128 64) sample_state <> Returned v st')).
Proof.
  split; [reflexivity |].
  exact (unsupported_calls_always_throw
           (Call_MPI_Waitall 2 128 64) sample_state eq_refl).
Defined.

(** 6 transferred bytes and a datatype descriptor of size 0: 6 is no
    multiple of 0, and the query is undefined instead of incomplete. *)
Lemma MPI_Get_count_zero_size_witness :
  bytesSizeAt (st_memory sample_state_6_bytes) sample_status = 6 /\
  datatypeSizeAt (st_memory sample_state_6_bytes) zero_size_datatype = 0 /\
  ~ (0 | 6) /\
  MPI_Get_count sample_status zero_size_datatype 200 sample_state_6_bytes
  = Undefined /\
  (forall v st',
      MPI_Get_count sample_status zero_size_datatype 200 sample_state_6_bytes
      <> Returned v st').
Proof.
  split; [reflexivity | split; [reflexivity | split]].
  - intros [k Hk]. lia.
  - exact (MPI_Get_count_divides_by_an_unchecked_size
             sample_state_6_bytes sample_ctx sample_status zero_size_datatype
             200 eq_refl eq_refl eq_refl (or_introl eq_refl)).
Defined.

(** 12 bytes of a 4-byte datatype count as 3; 6 bytes are incomplete. *)
Lemma MPI_Get_count_witness :
  MPI_Get_count sample_status sample_datatype 200 sample_state
  = Returned MPI_SUCCESS
      (with_memory sample_state (store_i32 sample_memory 200 3)) /\
  MPI_Get_count sample_status sample_datatype 200 sample_state_6_bytes
  = Returned 1 sample_state_6_bytes.
Proof.
  split.
  - refine (proj1 (proj1 (MPI_Get_count_exact_or_incomplete
                     sample_state sample_ctx sample_status sample_datatype 200
                     12 4 eq_refl eq_refl eq_refl eq_refl eq_refl _ _) _ eq_refl)).
    + discriminate.
    + intros [H _]. discriminate H.
    + exists 3. reflexivity.
  - refine (proj1 (proj2 (MPI_Get_count_exact_or_incomplete
                     sample_state_6_bytes sample_ctx sample_status
                     sample_datatype 200
                     6 4 eq_refl eq_refl eq_refl eq_refl eq_refl _ _) _)).
    + discriminate.
    + intros [H _]. discriminate H.
    + intros [k Hk]. lia.
Defined.

Lemma sample_comm_recognized : recognizedComm sample_memory sample_comm.
Proof. split; reflexivity. Qed.

Lemma sample_sentinel_is_U8 : 0 <= FAABRIC_IN_PLACE < 2 ^ 8.
Proof. cbn. lia. Qed.

(** In-place all-gather, reduce and all-reduce on the buffer at 128. *)
Lemma in_place_collectives_witness :
  oneViewThenCall sample_state sample_ctx
    (MPI_Allgather 1 3 sample_datatype 128 3 sample_datatype sample_comm
       sample_state)
    (mkView 128 1 12)
    (MpiWorld.allGather 0 (mkView 128 1 12) 32 3 (mkView 128 1 12) 32 3) /\
  oneViewThenCall sample_state sample_ctx
    (MPI_Reduce 1 128 3 sample_datatype sample_op 0 sample_comm sample_state)
    (mkView 128 1 12)
    (MpiWorld.reduce 0 0 (mkView 128 1 12) (mkView 128 1 12) 32 3 56) /\
  oneViewThenCall sample_state sample_ctx
    (MPI_Allreduce 1 128 3 sample_datatype sample_op sample_comm sample_state)
    (mkView 128 1 3)
    (MpiWorld.allReduce 0 (mkView 128 1 3) (mkView 128 1 3) 32 3 56).
Proof.
  destruct (in_place_collectives_build_one_view
              sample_state sample_ctx 1 128 sample_comm
              eq_refl sample_comm_recognized
              sample_sentinel_is_U8 eq_refl)
    as (Hgather & Hreduce & Hallreduce).
  split; [| split].
  - exact (proj2 (Hgather 3 sample_datatype 3 sample_datatype 0 12
                    eq_refl eq_refl eq_refl eq_refl)).
  - exact (proj1 (Hreduce 3 sample_datatype sample_op 0 12
                    eq_refl eq_refl eq_refl eq_refl)).
  - exact (Hallreduce 3 sample_datatype sample_op eq_refl eq_refl eq_refl).
Defined.

(** C4 at a concrete pointer: 257 is not the sentinel 1 and yet it is taken
    for it. *)
Lemma isInPlace_takes_257_for_the_sentinel :
  isInPlace 257 = true /\ 257 <> FAABRIC_IN_PLACE /\ in_I32 257.
Proof.
  split; [reflexivity | split; [discriminate |]].
  unfold in_I32, INT_MIN, INT_MAX. lia.
Qed.

(** C5 (the code departs from it).  A send of 4 elements of a 4-byte
    datatype: the view that is resolved and handed to the engine covers
    [count] = 4 bytes, not the 16 bytes of [count] times the datatype size.
    Sent from the last four bytes of the mapped memory, the message is
    accepted although its 16 bytes are not mapped. *)
Theorem MPI_Send_resolves_count_bytes_only :
  datatypeSizeAt sample_memory sample_datatype = 4 /\
  outcome_trace
    (MPI_Send 128 4 sample_datatype 1 0 sample_comm sample_state)
  = Some [EvView (mkView 128 1 4);
          EvEngine (onWorld 7 (MpiWorld.send 0 1 (mkView 128 1 4) 32 4))] /\
  view_bytes (mkView 128 1 4) <> 4 * 4 /\
  (exists st',
      MPI_Send 65532 4 sample_datatype 1 0 sample_comm sample_state
      = Returned MPI_SUCCESS st') /\
  ~ viewMapped sample_memory (arrayView 1 65532 (4 * 4)).
Proof.
  split; [reflexivity | split; [reflexivity | split; [| split]]].
  - vm_compute. discriminate.
  - eexists. reflexivity.
  - unfold viewMapped. vm_compute. discriminate.
Qed.

(** The same holds of the receive and of the asynchronous calls, while the
    send-receive resolves [count] times the datatype size. *)
Lemma point_to_point_views_on_the_sample :
  outcome_trace
    (MPI_Recv 128 4 sample_datatype 1 0 sample_comm sample_status sample_state)
  = Some [EvView (mkView 128 1 4);
          EvEngine (onWorld 7 (MpiWorld.recv 1 0 (mkView 128 1 4) 32 4 64))] /\
  outcome_trace
    (MPI_Isend 128 4 sample_datatype 1 0 sample_comm 200 sample_state)
  = Some [EvView (mkView 128 1 4);
          EvEngine (onWorld 7 (MpiWorld.isend 0 1 (mkView 128 1 4) 32 4))] /\
  outcome_trace
    (MPI_Irecv 128 4 sample_datatype 1 0 sample_comm 200 sample_state)
  = Some [EvView (mkView 128 1 4);
          EvEngine (onWorld 7 (MpiWorld.irecv 1 0 (mkView 128 1 4) 32 4))] /\
  outcome_trace
    (MPI_Sendrecv 128 4 sample_datatype 1 0 256 4 sample_datatype 1 0
       sample_comm sample_status sample_state)
  = Some [EvView (mkView 128 1 16); EvView (mkView 256 1 16);
          EvEngine (onWorld 7 (MpiWorld.sendRecv (mkView 128 1 16) 4 32 1
                                 (mkView 256 1 16) 4 32 1 0 64))].
Proof. repeat split. Qed.

(** Scatter and all-to-all have no in-place path: given the sentinel as the
    send pointer they resolve it like any other address, next to the
    receive view. *)
Lemma scatter_and_alltoall_resolve_two_views :
  option_map views_of
    (outcome_trace
       (MPI_Scatter 1 3 sample_datatype 128 3 sample_datatype 0 sample_comm
          sample_state))
  = Some [mkView 1 1 12; mkView 128 1 12] /\
  option_map views_of
    (outcome_trace
       (MPI_Alltoall 1 3 sample_datatype 128 3 sample_datatype sample_comm
          sample_state))
  = Some [mkView 1 1 12; mkView 128 1 12].
Proof. split; reflexivity. Qed.

(** A creating rank and a joining rank. *)
Lemma MPI_Init_witness :
  MPI_Init 0 0 sample_fresh
  = Returned MPI_SUCCESS
      (mkHostState sample_memory (Some sample_ctx) (mkMessage None (Some 7))
         (7, 0) [102; 97; 97; 115; 109]
         [EvEngine (createWorld (mkMessage None None)); EvEngine (getWorld 7)]) /\
  MPI_Init 0 0 sample_joiner
  = Returned MPI_SUCCESS
      (mkHostState sample_memory
         (Some (mkContextWrapper ExecutingModule DefaultMemory 7 2))
         (mkMessage (Some 2) (Some 7)) (7, 2) [102; 97; 97; 115; 109]
         [EvEngine (joinWorld (mkMessage (Some 2) (Some 7)));
          EvEngine (getWorld 7)]).
Proof.
  split.
  - exact (proj1 (MPI_Init_creates_or_joins sample_fresh 0 0)
             (or_introl eq_refl) 7 sample_memory (7, 0) sample_memory (7, 0)
             eq_refl eq_refl).
  - exact (proj2 (MPI_Init_creates_or_joins sample_joiner 0 0)
             ltac:(unfold sample_joiner, mpirank; cbn; lia) sample_memory (7, 2) sample_memory (7, 2)
             eq_refl eq_refl).
Defined.

(** C7 as the spec states it fails: after a finalize that returned, freeing
    a communicator does not fault, it returns success. *)
Lemma not_every_call_faults_after_finalize :
  ~ (forall (c : GuestCall) (st st' : HostState) (v : Z),
        MPI_Finalize st = Returned v st' -> fatal (invoke c st')).
Proof.
  intros Hall.
  exact (Hall (Call_MPI_Comm_free sample_comm) sample_state sample_finalized
           MPI_SUCCESS eq_refl).
Qed.

Lemma finalize_and_abort_witness :
  MPI_Abort 1 1 sample_state = MPI_Finalize sample_state /\
  MPI_Finalize sample_state = Returned MPI_SUCCESS sample_finalized /\
  st_ctx sample_finalized = None /\
  (forall c, contextFree c = false -> fatal (invoke c sample_finalized)) /\
  fatal (MPI_Finalize sample_finalized) /\
  (forall comm,
      MPI_Comm_free comm sample_finalized
      = Returned MPI_SUCCESS sample_finalized) /\
  (forall basePtr,
      MPI_Free_mem basePtr sample_finalized
      = Returned MPI_SUCCESS sample_finalized) /\
  (forall x y z,
      MPI_Type_contiguous x y z sample_finalized
      = Returned MPI_SUCCESS sample_finalized) /\
  (forall p,
      MPI_Type_commit p sample_finalized
      = Returned MPI_SUCCESS sample_finalized).
Proof.
  exact (finalize_and_abort_clear_the_context
           sample_state sample_ctx 1 1 sample_memory (7, 0) eq_refl eq_refl).
Defined.

Lemma in_I32_100 : in_I32 100.
Proof. unfold in_I32, INT_MIN, INT_MAX. lia. Qed.

(** A request for 100 bytes grows the one-page sample by one page and writes
    the old size, 65536, through the result slot at 200. *)
Lemma MPI_Alloc_mem_witness :
  100 <= 65536 /\
  65536 mod WASM_BYTES_PER_PAGE = 0 /\
  exists st',
    MPI_Alloc_mem 100 sample_info 200 sample_state = Returned MPI_SUCCESS st' /\
    st_memory st'
    = store_i32 (mkMemory (65536 + 65536) (4 * 65536) sample_bytes) 200 65536 /\
    mem_size (st_memory st') = 65536 + 65536 /\
    to_U32 (load_i32 (st_memory st') 200) = 65536.
Proof.
  exact (MPI_Alloc_mem_grows_page_aligned
           sample_state sample_ctx 100 sample_info 200
           eq_refl in_I32_100 eq_refl eq_refl
           ltac:(vm_compute; discriminate) eq_refl).
Defined.

(** The communicator descriptor passed as the info: its id is not the null
    info's. *)
Lemma MPI_Alloc_mem_null_info_witness :
  MPI_Alloc_mem 100 sample_comm 200 sample_state
  = Thrown "Non-null info not supported" sample_state /\
  (forall v st',
      MPI_Alloc_mem 100 sample_comm 200 sample_state = Returned v st' ->
      infoIdAt sample_memory sample_comm = FAABRIC_INFO_NULL).
Proof.
  destruct (MPI_Alloc_mem_accepts_null_info_only sample_state 100 sample_comm 200)
    as [Hthrow Honly].
  split; [| exact Honly].
  apply (Hthrow sample_ctx eq_refl eq_refl). discriminate.
Defined.

End Sample.

(** ** Steps shared by the proofs below *)

Ltac head_of t := lazymatch t with ?f _ => head_of f | _ => t end.

Tactic Notation "run_by" tactic3(tac) := erewrite bind_Returned by tac.

Ltac live Hc :=
  first [ eapply ctx_memory_live; exact Hc
        | eapply ctx_rank_live; exact Hc
        | eapply ctx_module_live; exact Hc ].

(** ** The cartesian query, on an engine that answers it as specified *)

Section Cartesian.
Context `{abi : GuestAbi}.
Variable base : Engine.
Variable grid : @EngineState base -> Z -> (Z * Z) * (Z * Z) * (Z * Z).

Lemma fillCartesian_slots m dv pv cv d p c :
  load_i32 (fillCartesian m dv pv cv d p c) (view_base cv) = to_I32 (fst c) /\
  load_i32 (fillCartesian m dv pv cv d p c) (view_base cv + 4)
  = to_I32 (snd c) /\
  (slots_apart pv cv ->
   load_i32 (fillCartesian m dv pv cv d p c) (view_base pv) = to_I32 (fst p) /\
   load_i32 (fillCartesian m dv pv cv d p c) (view_base pv + 4)
   = to_I32 (snd p)) /\
  (slots_apart dv pv -> slots_apart dv cv ->
   load_i32 (fillCartesian m dv pv cv d p c) (view_base dv) = to_I32 (fst d) /\
   load_i32 (fillCartesian m dv pv cv d p c) (view_base dv + 4)
   = to_I32 (snd d)).
Proof.
  unfold fillCartesian, slots_apart. cbv zeta.
  split; [| split; [| split]].
  - rewrite load_i32_store_i32_other by lia. apply load_store_i32.
  - apply load_store_i32.
  - intros Hpc. split.
    + rewrite !load_i32_store_i32_other by lia. apply load_store_i32.
    + rewrite !load_i32_store_i32_other by lia. apply load_store_i32.
  - intros Hdp Hdc. split.
    + rewrite !load_i32_store_i32_other by lia. apply load_store_i32.
    + rewrite !load_i32_store_i32_other by lia. apply load_store_i32.
Qed.

(** C8.  On every engine, [MPI_Cart_get] throws whenever the declared
    maximum is below two.  On an engine whose cartesian query is the one
    the spec describes ([cartesianEngine], for every grid law and whatever
    the engine does on other calls), with a declared maximum of at least
    two, a live context and the three result arrays mapped for [maxdims]
    entries, the call returns success; the two coordinates of the caller's
    rank are in the first two slots of the coordinate array, the two
    periods and the two dimensions in the first two slots of theirs (where
    those slots do not lie over a later array's), and every byte outside
    the first two slots of the three arrays is as it was. *)
Theorem MPI_Cart_get_needs_two_dimensions
  (comm maxdims dims periods coords : Z) :
  (forall st : @HostState base,
      maxdims < MPI_CART_MAX_DIMENSIONS ->
      MPI_Cart_get comm maxdims dims periods coords st
      = Thrown "Bad dimensions in MPI_Cart_get" st) /\
  (forall (st : @HostState (cartesianEngine base grid))
          (self : ContextWrapper),
      MPI_CART_MAX_DIMENSIONS <= maxdims ->
      st_ctx st = Some self ->
      let dv := arrayView 4 dims maxdims in
      let pv := arrayView 4 periods maxdims in
      let cv := arrayView 4 coords maxdims in
      viewMapped (st_memory st) dv ->
      viewMapped (st_memory st) pv ->
      viewMapped (st_memory st) cv ->
      let d := fst (fst (grid (st_engine st) (rank self))) in
      let p := snd (fst (grid (st_engine st) (rank self))) in
      let c := snd (grid (st_engine st) (rank self)) in
      exists st',
        MPI_Cart_get comm maxdims dims periods coords st
        = Returned MPI_SUCCESS st' /\
        st_memory st' = fillCartesian (st_memory st) dv pv cv d p c /\
        (forall a,
            ~ in_first_two_slots dv a ->
            ~ in_first_two_slots pv a ->
            ~ in_first_two_slots cv a ->
            mem_byte (st_memory st') a = mem_byte (st_memory st) a) /\
        load_i32 (st_memory st') (to_Uptr coords) = to_I32 (fst c) /\
        load_i32 (st_memory st') (to_Uptr coords + 4) = to_I32 (snd c) /\
        (slots_apart pv cv ->
         load_i32 (st_memory st') (to_Uptr periods) = to_I32 (fst p) /\
         load_i32 (st_memory st') (to_Uptr periods + 4) = to_I32 (snd p)) /\
        (slots_apart dv pv -> slots_apart dv cv ->
         load_i32 (st_memory st') (to_Uptr dims) = to_I32 (fst d) /\
         load_i32 (st_memory st') (to_Uptr dims + 4) = to_I32 (snd d))).
Proof.
  split.
  - intros st Hlt. unfold MPI_Cart_get.
    apply Z.ltb_lt in Hlt. now rewrite Hlt.
  - intros st self Hge Hc dv pv cv Hdv Hpv Hcv d p c.
    exists (with_engine
              (with_event
                 (with_event
                    (with_event (with_event st (EvView dv)) (EvView pv))
                    (EvView cv))
                 (EvEngine
                    (onWorld (world self)
                       (MpiWorld.getCartesianRank (rank self) maxdims
                          dv pv cv))))
              (fillCartesian (st_memory st) dv pv cv d p c) (st_engine st)).
    split; [| split; [| split]].
    + unfold MPI_Cart_get. apply Z.ltb_ge in Hge. rewrite Hge.
      run_by (live Hc).
      run_by (eapply memoryArrayPtr_mapped; exact Hdv).
      run_by (live Hc).
      run_by (eapply memoryArrayPtr_mapped; exact Hpv).
      run_by (live Hc).
      run_by (eapply memoryArrayPtr_mapped; exact Hcv).
      run_by (live Hc).
      run_by (erewrite ctx_world_call_live by exact Hc;
              refine (delegate_ok
                        (onWorld (world self)
                           (MpiWorld.getCartesianRank (rank self) maxdims
                              dv pv cv)) _ tt _ (st_engine st) _);
              reflexivity).
      reflexivity.
    + reflexivity.
    + intros a Ha1 Ha2 Ha3. cbn [st_memory with_engine].
      now apply fillCartesian_frame.
    + cbn [st_memory with_engine].
      exact (fillCartesian_slots (st_memory st) dv pv cv d p c).
Qed.

End Cartesian.

Section CartesianSample.
Local Existing Instance sampleAbi.

(** A query with one declared dimension, and one with three: rank 0 of the
    two by two grid finds its dimensions at 200, its periods at 300 and its
    coordinates at 400, and the third slot of each array as it was. *)
Lemma MPI_Cart_get_witness :
  MPI_Cart_get sample_comm 1 200 300 400 sample_state
  = Thrown "Bad dimensions in MPI_Cart_get" sample_state /\
  exists st',
    MPI_Cart_get sample_comm 3 200 300 400 cartesian_state
    = Returned MPI_SUCCESS st' /\
    (load_i32 (st_memory st') 200 = 2 /\
     load_i32 (st_memory st') 204 = 2) /\
    (load_i32 (st_memory st') 300 = 1 /\
     load_i32 (st_memory st') 304 = 1) /\
    (load_i32 (st_memory st') 400 = 0 /\
     load_i32 (st_memory st') 404 = 0) /\
    (forall a,
        ~ in_first_two_slots (mkView 200 4 3) a ->
        ~ in_first_two_slots (mkView 300 4 3) a ->
        ~ in_first_two_slots (mkView 400 4 3) a ->
        mem_byte (st_memory st') a = mem_byte sample_memory a).
Proof.
  split.
  - exact (proj1 (MPI_Cart_get_needs_two_dimensions
                    sampleEngine sample_grid sample_comm 1 200 300 400)
             sample_state ltac:(unfold MPI_CART_MAX_DIMENSIONS; lia)).
  - destruct (proj2 (MPI_Cart_get_needs_two_dimensions
                       sampleEngine sample_grid sample_comm 3 200 300 400)
                cartesian_state sample_ctx
                ltac:(unfold MPI_CART_MAX_DIMENSIONS; lia)
                eq_refl eq_refl eq_refl eq_refl)
      as (st' & Hrun & _ & Hframe & Hc0 & Hc1 & Hp & Hd).
    exists st'. split; [exact Hrun |].
    split; [| split; [| split]].
    + apply Hd; unfold slots_apart; cbn; lia.
    + apply Hp; unfold slots_apart; cbn; lia.
    + split; [exact Hc0 | exact Hc1].
    + exact Hframe.
Defined.

End CartesianSample.

(** * Properties of the whole layer *)

(** ** What every call respects

    A relation between the state before and after, and a predicate on the
    throws (the state before, the message, the state after), that every
    primitive of the layer respects are respected by every guest call. *)

Section Respects.
Context `{abi : GuestAbi} `{eng : Engine}.
Variable R : HostState -> HostState -> Prop.
Variable P : HostState -> string -> HostState -> Prop.
Hypothesis R_refl : forall st, R st st.
Hypothesis R_trans : forall s1 s2 s3, R s1 s2 -> R s2 s3 -> R s1 s3.
Hypothesis R_event : forall st e, R st (with_event st e).
Hypothesis R_memory : forall st m, R st (with_memory st m).
Hypothesis R_engine : forall st m w, R st (with_engine st m w).
Hypothesis P_layer : forall st msg, In msg layerMessages -> P st msg st.
Hypothesis P_engine :
  forall st c msg,
    engine c (st_memory st) (st_engine st) = EngineFail msg ->
    P st msg (with_event st (EvEngine c)).
Hypothesis P_trans :
  forall s1 s2 s3 msg, R s1 s2 -> P s2 msg s3 -> P s1 msg s3.

Lemma respects_ret {A} (a : A) : respects R P (ret a).
Proof. intros st. apply R_refl. Qed.

Lemma respects_undefined {A} : respects R P (@undefined _ A).
Proof. intros st. exact I. Qed.

Lemma respects_throw {A} msg :
  In msg layerMessages -> respects R P (@throw _ A msg).
Proof. intros Hin st. split; [apply R_refl | now apply P_layer]. Qed.

Lemma respects_bind {A B} (m : M A) (k : A -> M B) :
  respects R P m -> (forall a, respects R P (k a)) -> respects R P (bind m k).
Proof.
  intros Hm Hk st. unfold bind. specialize (Hm st).
  destruct (m st) as [a st1 | msg st1 |]; [| exact Hm | exact I].
  specialize (Hk a st1).
  destruct (k a st1) as [b st2 | msg st2 |]; [| | exact I].
  - eapply R_trans; eassumption.
  - destruct Hk as [HR HP].
    split; [eapply R_trans; eassumption | eapply P_trans; eassumption].
Qed.

Lemma respects_deref_ctx : respects R P deref_ctx.
Proof. intros st. unfold deref_ctx. destruct (st_ctx st); [apply R_refl | exact I]. Qed.

Lemma respects_int_op r : respects R P (int_op r).
Proof. destruct r; [apply respects_ret | apply respects_undefined]. Qed.

Lemma respects_read_int a : respects R P (read_int a).
Proof. intros st. apply R_refl. Qed.

Lemma respects_write_int a v : respects R P (write_int a v).
Proof. intros st. apply R_memory. Qed.

Lemma respects_log e : respects R P (log e).
Proof. intros st. apply R_event. Qed.

Lemma respects_get_call : respects R P get_call.
Proof. intros st. apply R_refl. Qed.

Lemma respects_get_endpointHost : respects R P get_endpointHost.
Proof. intros st. apply R_refl. Qed.

Lemma respects_getWorldId : respects R P executingContext_getWorldId.
Proof. intros st. apply R_refl. Qed.

Lemma respects_getRank : respects R P executingContext_getRank.
Proof. intros st. apply R_refl. Qed.

Lemma respects_validated mem a n :
  respects R P (getValidatedMemoryOffsetRange mem a n).
Proof.
  intros st. unfold getValidatedMemoryOffsetRange.
  destruct (validRange _ _ _); [apply R_refl |].
  split; [apply R_refl | apply P_layer; left; reflexivity].
Qed.

Lemma respects_growMemory m n : respects R P (growMemory m n).
Proof.
  intros st. unfold growMemory. cbv zeta.
  destruct (_ <=? _); [apply R_memory |].
  split; [apply R_refl | apply P_layer; right; left; reflexivity].
Qed.

Lemma respects_strcpy dest src : respects R P (strcpy dest src).
Proof.
  intros st. unfold strcpy. cbv zeta.
  destruct (validRange _ _ _); [apply R_memory | exact I].
Qed.

Lemma respects_copy_struct dst src n : respects R P (copy_struct dst src n).
Proof. intros st. apply R_memory. Qed.

Lemma respects_delegate c : respects R P (delegate c).
Proof.
  intros st. unfold delegate. cbv zeta.
  destruct (engine c (st_memory st) (st_engine st)) as [r m w | msg] eqn:He.
  - eapply R_trans; [apply R_event | apply R_engine].
  - split; [apply R_event | now apply P_engine].
Qed.

Lemma respects_ctx_world_call c : respects R P (ctx_world_call c).
Proof.
  intros st. unfold ctx_world_call.
  destruct (st_ctx st) as [self |];
    [exact (respects_delegate (onWorld (world self) c) st) | exact I].
Qed.

Create HintDb respects.
#[local] Hint Resolve respects_ret respects_undefined respects_deref_ctx
  respects_int_op respects_read_int respects_write_int respects_log
  respects_get_call respects_get_endpointHost respects_getWorldId
  respects_getRank respects_validated respects_growMemory respects_strcpy
  respects_copy_struct respects_delegate respects_ctx_world_call : respects.

Ltac in_layerMessages :=
  unfold layerMessages; repeat first [left; reflexivity | right].

Ltac respects_step :=
  first
    [ solve [auto with respects]
    | apply respects_throw; in_layerMessages
    | apply respects_bind; [| intros ?]
    | match goal with
      | |- respects _ _ (delegate ?c) => exact (respects_delegate c)
      | |- respects _ _ (ctx_world_call ?c) => exact (respects_ctx_world_call c)
      | |- respects _ _ (if ?b then _ else _) => destruct b
      | |- respects _ _ (let _ := _ in _) => cbv zeta
      | |- respects _ _ ?m => let h := head_of m in progress unfold h
      end ].

Ltac respects_all := repeat respects_step.

Lemma respects_new_ContextWrapper : respects R P new_ContextWrapper.
Proof. respects_all. Qed.

(** Every guest call respects [R] and [P]; the calls that assign [ctx]
    and the one that writes the call record need [R] to allow it. *)
Lemma respects_invoke (c : GuestCall) :
  (assignsContext c = true -> forall st x, R st (with_ctx st x)) ->
  ((exists a b, c = Call_MPI_Init a b) -> forall st msg, R st (with_call st msg)) ->
  respects R P (invoke c).
Proof.
  intros Hctx Hcall.
  assert (Hset_ctx : assignsContext c = true ->
                     forall x, respects R P (set_ctx x)).
  { intros Ha x st. now apply Hctx. }
  assert (Hset_call : (exists a b, c = Call_MPI_Init a b) ->
                      forall msg, respects R P (set_call msg)).
  { intros Ha msg st. now apply Hcall. }
  destruct c; cbn [invoke];
    try (clear Hctx Hcall Hset_ctx Hset_call; solve [respects_all]).
  - (* MPI_Init *)
    specialize (Hset_ctx eq_refl). specialize (Hset_call ltac:(eauto)).
    unfold MPI_Init.
    repeat first [ apply Hset_ctx | apply Hset_call
                 | apply respects_new_ContextWrapper | respects_step ].
  - (* MPI_Abort *)
    specialize (Hset_ctx eq_refl). unfold MPI_Abort, terminateMpi.
    repeat first [ apply Hset_ctx | respects_step ].
  - (* MPI_Finalize *)
    specialize (Hset_ctx eq_refl). unfold MPI_Finalize, terminateMpi.
    repeat first [ apply Hset_ctx | respects_step ].
Qed.

End Respects.

(** ** How often a call reaches the engine *)

Section Budget.
Context `{abi : GuestAbi} `{eng : Engine}.

Lemma engineCalls_app t1 t2 :
  engineCalls (t1 ++ t2) = (engineCalls t1 + engineCalls t2)%nat.
Proof. unfold engineCalls. now rewrite filter_app, length_app. Qed.

Lemma callBudget_quiet {A} (m : M A) :
  (forall st,
      match m st with
      | Returned _ st' => st_trace st' = st_trace st
      | Thrown _ st' => st_trace st' = st_trace st
      | Undefined => True
      end) ->
  callBudget 0 m.
Proof.
  intros Hq st. specialize (Hq st).
  destruct (m st); try exact I; exists []; rewrite app_nil_r; auto.
Qed.

Lemma callBudget_ret {A} (a : A) : callBudget 0 (ret a).
Proof. apply callBudget_quiet. reflexivity. Qed.

Lemma callBudget_throw {A} n msg : callBudget n (@throw _ A msg).
Proof. intros st. exists []. rewrite app_nil_r. split; [reflexivity | apply Nat.le_0_l]. Qed.

Lemma callBudget_undefined {A} n : callBudget n (@undefined _ A).
Proof. intros st. exact I. Qed.

Lemma callBudget_bind {A B} n1 n2 (m : M A) (k : A -> M B) :
  callBudget n1 m -> (forall a, callBudget n2 (k a)) ->
  callBudget (n1 + n2) (bind m k).
Proof.
  intros Hm Hk st. unfold bind. specialize (Hm st).
  destruct (m st) as [a st1 | msg st1 |]; [| | exact I].
  - destruct Hm as (evs1 & Ht1 & Hn1). specialize (Hk a st1).
    destruct (k a st1) as [b st2 | msg st2 |]; [| | exact I];
      destruct Hk as (evs2 & Ht2 & Hn2); exists (evs1 ++ evs2);
      rewrite Ht2, Ht1, app_assoc, engineCalls_app; split; auto; lia.
  - destruct Hm as (evs1 & Ht1 & Hn1). exists evs1. split; [exact Ht1 | lia].
Qed.

Lemma callBudget_deref_ctx : callBudget 0 deref_ctx.
Proof.
  apply callBudget_quiet. intros st. unfold deref_ctx.
  now destruct (st_ctx st).
Qed.

Lemma callBudget_int_op r : callBudget 0 (int_op r).
Proof. destruct r; [apply callBudget_ret | apply callBudget_undefined]. Qed.

Lemma callBudget_read_int a : callBudget 0 (read_int a).
Proof. apply callBudget_quiet. reflexivity. Qed.

Lemma callBudget_write_int a v : callBudget 0 (write_int a v).
Proof. apply callBudget_quiet. reflexivity. Qed.

Lemma callBudget_get_call : callBudget 0 get_call.
Proof. apply callBudget_quiet. reflexivity. Qed.

Lemma callBudget_set_call msg : callBudget 0 (set_call msg).
Proof. apply callBudget_quiet. reflexivity. Qed.

Lemma callBudget_set_ctx x : callBudget 0 (set_ctx x).
Proof. apply callBudget_quiet. reflexivity. Qed.

Lemma callBudget_get_endpointHost : callBudget 0 get_endpointHost.
Proof. apply callBudget_quiet. reflexivity. Qed.

Lemma callBudget_getWorldId : callBudget 0 executingContext_getWorldId.
Proof. apply callBudget_quiet. reflexivity. Qed.

Lemma callBudget_getRank : callBudget 0 executingContext_getRank.
Proof. apply callBudget_quiet. reflexivity. Qed.

Lemma callBudget_validated mem a n :
  callBudget 0 (getValidatedMemoryOffsetRange mem a n).
Proof.
  apply callBudget_quiet. intros st. unfold getValidatedMemoryOffsetRange.
  now destruct (validRange _ _ _).
Qed.

Lemma callBudget_growMemory m n : callBudget 0 (growMemory m n).
Proof.
  apply callBudget_quiet. intros st. unfold growMemory. cbv zeta.
  now destruct (_ <=? _).
Qed.

Lemma callBudget_strcpy dest src : callBudget 0 (strcpy dest src).
Proof.
  apply callBudget_quiet. intros st. unfold strcpy. cbv zeta.
  now destruct (validRange _ _ _).
Qed.

Lemma callBudget_copy_struct dst src n : callBudget 0 (copy_struct dst src n).
Proof. apply callBudget_quiet. reflexivity. Qed.

Lemma callBudget_log_view v : callBudget 0 (log (EvView v)).
Proof. intros st. exists [EvView v]. split; reflexivity. Qed.

Lemma callBudget_delegate c : callBudget 1 (delegate c).
Proof.
  intros st. unfold delegate. cbv zeta.
  destruct (engine c (st_memory st) (st_engine st));
    exists [EvEngine c]; split; reflexivity || apply Nat.le_refl.
Qed.

Lemma callBudget_ctx_world_call c : callBudget 1 (ctx_world_call c).
Proof.
  intros st. unfold ctx_world_call.
  destruct (st_ctx st) as [self |];
    [exact (callBudget_delegate (onWorld (world self) c) st) | exact I].
Qed.

Create HintDb budget.
#[local] Hint Resolve callBudget_ret callBudget_throw callBudget_undefined
  callBudget_deref_ctx callBudget_int_op callBudget_read_int
  callBudget_write_int callBudget_get_call callBudget_set_call
  callBudget_set_ctx callBudget_get_endpointHost callBudget_getWorldId
  callBudget_getRank callBudget_validated callBudget_growMemory
  callBudget_strcpy callBudget_copy_struct callBudget_log_view : budget.

Ltac budget_step :=
  first
    [ solve [auto with budget]
    | match goal with
      | |- callBudget _ (delegate ?c) => exact (callBudget_delegate c)
      | |- callBudget _ (ctx_world_call ?c) =>
          exact (callBudget_ctx_world_call c)
      | |- callBudget ?n (bind ?m ?k) =>
          first
            [ apply (callBudget_bind 0 n); [solve [budget_all] | intros ?]
            | match n with
              | S ?n' =>
                  apply (callBudget_bind 1 n'); [solve [budget_all] | intros ?]
              end ]
      | |- callBudget _ (if ?b then _ else _) => destruct b
      | |- callBudget _ (let _ := _ in _) => cbv zeta
      | |- callBudget _ ?m => let h := head_of m in progress unfold h
      end ]
with budget_all := repeat budget_step.

(** Every guest call that returns has made exactly [engineBudget] calls on
    the engine (none for the queries answered from guest memory and the
    context, two for [MPI_Init], one for every other implemented call), and
    a call that throws has made at most that many; the earlier trace is
    never rewritten. *)
Theorem every_call_keeps_its_engine_budget (c : GuestCall) :
  callBudget (engineBudget c) (invoke c).
Proof.
  destruct c; cbn [invoke engineBudget unsupported]; budget_all.
Qed.

End Budget.

Section Extras.
Context `{abi : GuestAbi} `{eng : Engine}.

(** ** Frames, failures and names *)

Lemma respects_outcome_state {A} R P (m : M A) st st' :
  respects R P m -> outcome_state (m st) = Some st' -> R st st'.
Proof.
  intros Hm Ho. specialize (Hm st).
  destruct (m st) as [a s | msg s |]; cbn in Ho;
    [| destruct Hm as [Hm _] |]; congruence.
Qed.

Lemma keeps_invoke {X} (f : HostState -> X) (c : GuestCall) st st' :
  (forall s e, f (with_event s e) = f s) ->
  (forall s m, f (with_memory s m) = f s) ->
  (forall s m w, f (with_engine s m w) = f s) ->
  (assignsContext c = true -> forall s x, f (with_ctx s x) = f s) ->
  ((exists a b, c = Call_MPI_Init a b) ->
   forall s msg, f (with_call s msg) = f s) ->
  outcome_state (invoke c st) = Some st' ->
  f st' = f st.
Proof.
  intros He Hm Hw Hc Hr Ho.
  apply (respects_outcome_state (fun s s' => f s' = f s)
           (fun _ _ _ => True) (invoke c) st st'); [| exact Ho].
  apply respects_invoke; try solve [auto | congruence].
Qed.

(** Whatever state a guest call ends in, by returning or by throwing: the
    context is the one it started with unless the call is [MPI_Init],
    [MPI_Abort] or [MPI_Finalize]; the call record is the one it started
    with unless the call is [MPI_Init]; the configured host name never
    changes. *)
Theorem only_init_and_finalize_touch_the_context
  (c : GuestCall) (st st' : HostState) :
  outcome_state (invoke c st) = Some st' ->
  (assignsContext c = false -> st_ctx st' = st_ctx st) /\
  ((forall a b, c <> Call_MPI_Init a b) -> st_call st' = st_call st) /\
  st_endpointHost st' = st_endpointHost st.
Proof.
  intros Ho. split; [| split].
  - intros Hc. apply (keeps_invoke st_ctx c st st'); auto; congruence.
  - intros Hc. apply (keeps_invoke st_call c st st'); auto.
    intros (a & b & ->). now destruct (Hc a b).
  - apply (keeps_invoke st_endpointHost c st st'); auto.
Qed.





(** The failure of an unsupported call names the call: its message
    contains the name the intrinsic is registered under, and the words
    "not implemented". *)
Theorem unsupported_failure_names_the_call (c : GuestCall) (st : HostState) :
  unsupported c = true ->
  exists msg,
    invoke c st = Thrown msg st /\
    occursIn (intrinsicName c) msg = true /\
    occursIn "not implemented" msg = true.
Proof.
  intros Hu.
  destruct c; cbn [unsupported] in Hu; try discriminate Hu;
    (eexists; split; [reflexivity | split; vm_compute; reflexivity]).
Qed.

(** Every call that checks its communicator throws "Unexpected comm type"
    from the unchanged state when the descriptor is not the world
    communicator, and the out-of-bounds failure when the descriptor is not
    mapped: nothing is resolved and the engine is not called. *)
Theorem unrecognized_communicator_is_rejected
  (c : GuestCall) (comm : Z) (st : HostState) (self : ContextWrapper) :
  checkedCommunicator c = Some comm ->
  st_ctx st = Some self ->
  (mapped (st_memory st) comm sizeof_communicator ->
   commIdAt (st_memory st) comm <> FAABRIC_COMM_WORLD ->
   invoke c st = Thrown "Unexpected comm type" st) /\
  (~ mapped (st_memory st) comm sizeof_communicator ->
   invoke c st = Thrown "outOfBoundsMemoryAccess" st).
Proof.
  intros Hchk Hc. split.
  - intros Hm Hid.
    pose proof (checkMpiComm_unrecognized st self comm Hc Hm Hid) as Hthrow.
    destruct c; cbn [checkedCommunicator] in Hchk; try discriminate Hchk;
      injection Hchk as ->; cbn [invoke];
      (eapply bind_Thrown; exact Hthrow).
  - intros Hm.
    assert (Hthrow : checkMpiComm comm st
                     = Thrown "outOfBoundsMemoryAccess" st).
    { unfold checkMpiComm. run_by (live Hc).
      eapply bind_Thrown. now apply memoryRef_unmapped. }
    destruct c; cbn [checkedCommunicator] in Hchk; try discriminate Hchk;
      injection Hchk as ->; cbn [invoke];
      (eapply bind_Thrown; exact Hthrow).
Qed.

(** ** Failures of the engine in the life cycle *)

(** When the engine fails to destroy the world, [MPI_Finalize] and
    [MPI_Abort] throw that failure and the context is still in place: it
    is cleared only after the destruction returned. *)
Theorem failed_world_destruction_keeps_the_context
  (st : HostState) (self : ContextWrapper) (msg : string) (a b : Z) :
  st_ctx st = Some self ->
  engine (onWorld (world self) MpiWorld.destroy) (st_memory st) (st_engine st)
  = EngineFail msg ->
  let st' := with_event st (EvEngine (onWorld (world self) MpiWorld.destroy)) in
  MPI_Finalize st = Thrown msg st' /\
  MPI_Abort a b st = Thrown msg st' /\
  st_ctx st' = Some self.
Proof.
  intros Hc He st'.
  assert (Ht : terminateMpi st = Thrown msg st').
  { unfold terminateMpi. eapply bind_Thrown.
    rewrite (ctx_world_call_live _ _ _ Hc).
    exact (delegate_fail (onWorld (world self) MpiWorld.destroy) st msg He). }
  split; [exact Ht | split; [exact Ht | exact Hc]].
Qed.

(** [MPI_Init] of a creating rank writes the new world identifier to the
    call record before the context is built: when the registry lookup for
    the new context fails, the call throws that failure with the record
    already updated and the context as it was. *)
Theorem MPI_Init_records_the_world_before_the_lookup
  (st : HostState) (a b worldId : Z) (m1 : Memory) (w1 : EngineState)
  (msg : string) :
  mpirank (st_call st) <= 0 ->
  engine (createWorld (st_call st)) (st_memory st) (st_engine st)
  = EngineOk worldId m1 w1 ->
  engine (getWorld (getWorldId w1)) m1 w1 = EngineFail msg ->
  exists st',
    MPI_Init a b st = Thrown msg st' /\
    st_call st' = set_mpiworldid (st_call st) worldId /\
    st_ctx st' = st_ctx st.
Proof.
  intros Hle Hcreate Hget. eexists. split; [| split].
  - unfold MPI_Init. run_by reflexivity.
    apply Z.leb_le in Hle. rewrite Hle.
    run_by (run_by (apply delegate_ok; exact Hcreate); reflexivity).
    eapply bind_Thrown.
    unfold new_ContextWrapper, getExecutingWorld. run_by reflexivity.
    eapply bind_Thrown. run_by reflexivity. eapply bind_Thrown.
    apply delegate_fail. exact Hget.
  - reflexivity.
  - reflexivity.
Qed.

(** ** Asynchronous requests *)

Lemma getFaasmRequestId_reads st self slot :
  st_ctx st = Some self ->
  mapped (st_memory st) slot 4 ->
  getFaasmRequestId slot st
  = Returned (load_i32 (st_memory st) (to_Uptr slot)) st.
Proof.
  intros Hc Hm. unfold getFaasmRequestId.
  run_by (apply deref_ctx_live; exact Hc).
  run_by reflexivity.
  run_by (apply memoryRef_mapped; exact Hm).
  reflexivity.
Qed.

Lemma MPI_Wait_awaits_the_slot st self slot status :
  st_ctx st = Some self ->
  mapped (st_memory st) slot 4 ->
  MPI_Wait slot status st
  = (ctx_world_call
       (MpiWorld.awaitAsyncRequest (load_i32 (st_memory st) (to_Uptr slot))) ;;
     ret MPI_SUCCESS) st.
Proof.
  intros Hc Hm. unfold MPI_Wait.
  run_by (eapply getFaasmRequestId_reads; eassumption).
  reflexivity.
Qed.

(** The request handle round trip: the id the engine hands out for an
    asynchronous send or receive is what the guest finds in its request
    slot, and a wait on that slot (whatever its status argument) awaits
    exactly that id. *)
Theorem wait_awaits_the_request_the_slot_was_given
  (st : HostState) (self : ContextWrapper)
  (buffer count datatype peer tag comm slot requestId : Z)
  (m1 : Memory) (w1 : EngineState) :
  st_ctx st = Some self ->
  recognizedComm (st_memory st) comm ->
  mapped (st_memory st) datatype sizeof_datatype ->
  viewMapped (st_memory st) (arrayView 1 buffer count) ->
  in_I32 requestId ->
  mapped m1 slot 4 ->
  let v := arrayView 1 buffer count in
  let awaited st1 :=
    load_i32 (st_memory st1) (to_Uptr slot) = requestId /\
    forall status,
      MPI_Wait slot status st1
      = (ctx_world_call (MpiWorld.awaitAsyncRequest requestId) ;;
         ret MPI_SUCCESS) st1 in
  (engine (onWorld (world self)
             (MpiWorld.isend (rank self) peer v (to_Uptr datatype) count))
          (st_memory st) (st_engine st)
   = EngineOk requestId m1 w1 ->
   exists st1,
     MPI_Isend buffer count datatype peer tag comm slot st
     = Returned MPI_SUCCESS st1 /\ awaited st1) /\
  (engine (onWorld (world self)
             (MpiWorld.irecv peer (rank self) v (to_Uptr datatype) count))
          (st_memory st) (st_engine st)
   = EngineOk requestId m1 w1 ->
   exists st1,
     MPI_Irecv buffer count datatype peer tag comm slot st
     = Returned MPI_SUCCESS st1 /\ awaited st1).
Proof.
  intros Hc Hcomm Hdt Hv Hid Hslot v awaited.
  assert (Hawaited :
            forall st0 : HostState,
              st_ctx st0 = Some self -> st_memory st0 = m1 ->
              awaited (with_memory st0
                         (store_i32 m1 (to_Uptr slot) requestId))).
  { intros st0 Hc0 Hm0. unfold awaited. cbn [st_memory with_memory].
    split; [now apply load_store_i32_same |].
    intros status.
    rewrite (MPI_Wait_awaits_the_slot _ self slot status); [| exact Hc0 |].
    - cbn [st_memory with_memory]. now rewrite load_store_i32_same.
    - exact Hslot. }
  split; intros He.
  - eexists. split.
    + unfold MPI_Isend.
      run_by (eapply checkMpiComm_recognized; eassumption).
      run_by (eapply getFaasmDataType_mapped; eassumption).
      run_by (live Hc).
      run_by (eapply memoryArrayPtr_mapped; exact Hv).
      run_by (live Hc).
      run_by (erewrite ctx_world_call_live by exact Hc;
              refine (delegate_ok
                        (onWorld (world self)
                           (MpiWorld.isend (rank self) peer v
                              (to_Uptr datatype) count)) _ requestId m1 w1 _);
              exact He).
      unfold writeFaasmRequestId.
      run_by (eapply writeMpiResult_mapped; [exact Hc | exact Hslot]).
      reflexivity.
    + apply Hawaited; [exact Hc | reflexivity].
  - eexists. split.
    + unfold MPI_Irecv.
      run_by (eapply checkMpiComm_recognized; eassumption).
      run_by (eapply getFaasmDataType_mapped; eassumption).
      run_by (live Hc).
      run_by (eapply memoryArrayPtr_mapped; exact Hv).
      run_by (live Hc).
      run_by (erewrite ctx_world_call_live by exact Hc;
              refine (delegate_ok
                        (onWorld (world self)
                           (MpiWorld.irecv peer (rank self) v
                              (to_Uptr datatype) count)) _ requestId m1 w1 _);
              exact He).
      unfold writeFaasmRequestId.
      run_by (eapply writeMpiResult_mapped; [exact Hc | exact Hslot]).
      reflexivity.
    + apply Hawaited; [exact Hc | reflexivity].
Qed.

(** An asynchronous send checks the request slot only after the engine has
    taken the send: with an unmapped slot the call throws the out-of-bounds
    failure, the send has been issued, and the id the engine returned is
    written nowhere. *)
Theorem MPI_Isend_sends_before_checking_the_request_slot
  (st : HostState) (self : ContextWrapper)
  (buffer count datatype destRank tag comm slot requestId : Z)
  (m1 : Memory) (w1 : EngineState) :
  st_ctx st = Some self ->
  recognizedComm (st_memory st) comm ->
  mapped (st_memory st) datatype sizeof_datatype ->
  viewMapped (st_memory st) (arrayView 1 buffer count) ->
  let v := arrayView 1 buffer count in
  let sent :=
    onWorld (world self)
      (MpiWorld.isend (rank self) destRank v (to_Uptr datatype) count) in
  engine sent (st_memory st) (st_engine st) = EngineOk requestId m1 w1 ->
  ~ mapped m1 slot 4 ->
  exists st',
    MPI_Isend buffer count datatype destRank tag comm slot st
    = Thrown "outOfBoundsMemoryAccess" st' /\
    st_trace st' = st_trace st ++ [EvView v; EvEngine sent] /\
    st_memory st' = m1 /\
    st_engine st' = w1.
Proof.
  intros Hc Hcomm Hdt Hv v sent He Hslot. eexists. split; [| split; [| split]].
  - unfold MPI_Isend.
    run_by (eapply checkMpiComm_recognized; eassumption).
    run_by (eapply getFaasmDataType_mapped; eassumption).
    run_by (live Hc).
    run_by (eapply memoryArrayPtr_mapped; exact Hv).
    run_by (live Hc).
    run_by (erewrite ctx_world_call_live by exact Hc;
            refine (delegate_ok sent _ requestId m1 w1 _); exact He).
    eapply bind_Thrown. unfold writeFaasmRequestId, writeMpiResult.
    run_by (live Hc).
    eapply bind_Thrown. apply memoryRef_unmapped. exact Hslot.
  - cbn [st_trace with_engine with_event]. now rewrite <- app_assoc.
  - reflexivity.
  - reflexivity.
Qed.

(** ** The rank query after initialisation *)

Lemma MPI_Init_returned st a b v st1 :
  MPI_Init a b st = Returned v st1 ->
  v = MPI_SUCCESS /\
  exists self, st_ctx st1 = Some self /\ rank self = getRank (st_engine st1).
Proof.
  unfold MPI_Init, new_ContextWrapper, getExecutingWorld,
    getExecutingWAVMModule, executingContext_getWorldId,
    executingContext_getRank, get_call, set_call, set_ctx, bind, ret, delegate.
  destruct (mpirank (st_call st) <=? 0).
  - destruct (engine (createWorld (st_call st)) _ _) as [r m w | msg];
      [| discriminate].
    cbn [st_memory st_engine with_call with_engine with_event].
    destruct (engine (getWorld (getWorldId w)) m w) as [r' m' w' | msg];
      [| discriminate].
    intros H. injection H as <- <-. split; [reflexivity |].
    eexists. split; reflexivity.
  - destruct (engine (joinWorld (st_call st)) _ _) as [r m w | msg];
      [| discriminate].
    cbn [st_memory st_engine with_call with_engine with_event].
    destruct (engine (getWorld (getWorldId w)) m w) as [r' m' w' | msg];
      [| discriminate].
    intros H. injection H as <- <-. split; [reflexivity |].
    eexists. split; reflexivity.
Qed.

(** After any [MPI_Init] that returned, by creating or by joining, a rank
    query with the world communicator writes the rank the engine had bound
    when the context was built; it does not ask the engine again and
    leaves engine state, trace and context as they are. *)
Theorem rank_query_reports_the_rank_bound_at_init
  (st st1 : HostState) (a b v comm resPtr : Z) :
  MPI_Init a b st = Returned v st1 ->
  recognizedComm (st_memory st1) comm ->
  mapped (st_memory st1) resPtr 4 ->
  exists st2,
    MPI_Comm_rank comm resPtr st1 = Returned MPI_SUCCESS st2 /\
    load_i32 (st_memory st2) (to_Uptr resPtr)
    = to_I32 (getRank (st_engine st1)) /\
    st_engine st2 = st_engine st1 /\
    st_trace st2 = st_trace st1 /\
    st_ctx st2 = st_ctx st1.
Proof.
  intros Hinit Hcomm Hres.
  destruct (MPI_Init_returned _ _ _ _ _ Hinit) as (_ & self & Hc & Hrank).
  eexists. split; [| split; [| split; [| split]]].
  - unfold MPI_Comm_rank.
    run_by (eapply checkMpiComm_recognized; eassumption).
    run_by (live Hc).
    run_by (eapply writeMpiResult_mapped; eassumption).
    reflexivity.
  - cbn [st_memory with_memory]. now rewrite load_store_i32, Hrank.
  - reflexivity.
  - reflexivity.
  - reflexivity.
Qed.

(** ** Bounds *)

Lemma memoryArrayPtr_unmapped sizeofT mem p n st :
  ~ viewMapped (st_memory st) (arrayView sizeofT p n) ->
  memoryArrayPtr sizeofT mem p n st = Thrown "outOfBoundsMemoryAccess" st.
Proof.
  unfold viewMapped, memoryArrayPtr, getValidatedMemoryOffsetRange, bind.
  intros Hm. cbv zeta.
  destruct (validRange _ _ _); [now destruct Hm | reflexivity].
Qed.

Lemma to_Uptr_negative z : in_I32 z -> z < 0 -> 2 ^ 64 - 2 ^ 31 <= to_Uptr z.
Proof.
  unfold in_I32, INT_MIN, INT_MAX, to_Uptr. intros Hz Hneg.
  replace z with (z + 2 ^ 64 + (-1) * 2 ^ 64) by ring.
  rewrite Z_mod_plus_full, Z.mod_small; lia.
Qed.

Lemma to_Uptr_nonneg z : 0 <= to_Uptr z.
Proof. unfold to_Uptr. apply Z.mod_pos_bound. lia. Qed.

Lemma negative_view_is_not_mapped m buffer count :
  in_I32 buffer -> in_I32 count ->
  mem_size m <= 2 ^ 32 ->
  buffer < 0 \/ count < 0 ->
  ~ viewMapped m (arrayView 1 buffer count).
Proof.
  intros Hb Hn Hsize Hneg.
  unfold viewMapped, validRange, view_bytes, arrayView.
  cbn [view_base view_count view_stride].
  rewrite Z.mul_1_r.
  assert (Hu : to_Uptr (to_Uptr count) = to_Uptr count)
    by (unfold to_Uptr; apply Z.mod_mod; lia).
  rewrite Hu.
  pose proof (to_Uptr_nonneg buffer). pose proof (to_Uptr_nonneg count).
  intros Hle. apply Z.leb_le in Hle.
  destruct Hneg as [Hneg | Hneg].
  - pose proof (to_Uptr_negative buffer Hb Hneg). lia.
  - pose proof (to_Uptr_negative count Hn Hneg). lia.
Qed.

(** A negative buffer pointer or a negative element count is never taken
    by the plain point-to-point calls: the [I32] is sign-extended to an
    offset far beyond any wasm32 memory, the call throws the out-of-bounds
    failure from the unchanged state, and the engine is not called. *)
Theorem negative_count_or_pointer_is_out_of_bounds
  (st : HostState) (self : ContextWrapper)
  (buffer count datatype peer tag comm : Z) :
  st_ctx st = Some self ->
  recognizedComm (st_memory st) comm ->
  mapped (st_memory st) datatype sizeof_datatype ->
  in_I32 buffer -> in_I32 count ->
  mem_size (st_memory st) <= 2 ^ 32 ->
  buffer < 0 \/ count < 0 ->
  MPI_Send buffer count datatype peer tag comm st
  = Thrown "outOfBoundsMemoryAccess" st /\
  (forall slot,
      MPI_Isend buffer count datatype peer tag comm slot st
      = Thrown "outOfBoundsMemoryAccess" st) /\
  (forall slot,
      MPI_Irecv buffer count datatype peer tag comm slot st
      = Thrown "outOfBoundsMemoryAccess" st) /\
  (forall statusPtr,
      mapped (st_memory st) statusPtr sizeof_status ->
      MPI_Recv buffer count datatype peer tag comm statusPtr st
      = Thrown "outOfBoundsMemoryAccess" st).
Proof.
  intros Hc Hcomm Hdt Hb Hn Hsize Hneg.
  pose proof (negative_view_is_not_mapped _ _ _ Hb Hn Hsize Hneg) as Hv.
  split; [| split; [| split]]; intros.
  - unfold MPI_Send.
    run_by (eapply checkMpiComm_recognized; eassumption).
    run_by (eapply getFaasmDataType_mapped; eassumption).
    run_by (live Hc).
    eapply bind_Thrown. now apply memoryArrayPtr_unmapped.
  - unfold MPI_Isend.
    run_by (eapply checkMpiComm_recognized; eassumption).
    run_by (eapply getFaasmDataType_mapped; eassumption).
    run_by (live Hc).
    eapply bind_Thrown. now apply memoryArrayPtr_unmapped.
  - unfold MPI_Irecv.
    run_by (eapply checkMpiComm_recognized; eassumption).
    run_by (eapply getFaasmDataType_mapped; eassumption).
    run_by (live Hc).
    eapply bind_Thrown. now apply memoryArrayPtr_unmapped.
  - unfold MPI_Recv.
    run_by (eapply checkMpiComm_recognized; eassumption).
    run_by (live Hc).
    run_by (apply memoryRef_mapped; eassumption).
    run_by (eapply getFaasmDataType_mapped; eassumption).
    run_by (live Hc).
    eapply bind_Thrown. now apply memoryArrayPtr_unmapped.
Qed.

(** ** Collectives outside the in-place path *)

Lemma datatype_size_read st datatype :
  datatype_size (to_Uptr datatype) st
  = Returned (datatypeSizeAt (st_memory st) datatype) st.
Proof. reflexivity. Qed.

(** When the send pointer is not taken for the sentinel, gather,
    all-gather, reduce and scan resolve the receive view first and the send
    view second, each sized as its count times its datatype size, and pass
    the two to the engine; all-reduce does the same with both views sized
    as [count] bytes, whatever the datatype. *)
Theorem out_of_place_collectives_resolve_receive_then_send
  (st : HostState) (self : ContextWrapper) (sendBuf recvBuf comm : Z) :
  st_ctx st = Some self ->
  recognizedComm (st_memory st) comm ->
  isInPlace sendBuf = false ->
  (forall sendCount sendType recvCount recvType root sendBytes recvBytes,
      mapped (st_memory st) sendType sizeof_datatype ->
      mapped (st_memory st) recvType sizeof_datatype ->
      int_mul sendCount (datatypeSizeAt (st_memory st) sendType)
      = Some sendBytes ->
      int_mul recvCount (datatypeSizeAt (st_memory st) recvType)
      = Some recvBytes ->
      let rv := arrayView 1 recvBuf recvBytes in
      let sv := arrayView 1 sendBuf sendBytes in
      viewMapped (st_memory st) rv ->
      viewMapped (st_memory st) sv ->
      recvThenSendView st
        (MPI_Gather sendBuf sendCount sendType recvBuf recvCount recvType
           root comm st) rv sv
        (MpiWorld.gather (rank self) root sv (to_Uptr sendType) sendCount
           rv (to_Uptr recvType) recvCount) /\
      recvThenSendView st
        (MPI_Allgather sendBuf sendCount sendType recvBuf recvCount recvType
           comm st) rv sv
        (MpiWorld.allGather (rank self) sv (to_Uptr sendType) sendCount
           rv (to_Uptr recvType) recvCount)) /\
  (forall count datatype op root nBytes,
      mapped (st_memory st) datatype sizeof_datatype ->
      mapped (st_memory st) op sizeof_op ->
      int_mul count (datatypeSizeAt (st_memory st) datatype) = Some nBytes ->
      let rv := arrayView 1 recvBuf nBytes in
      let sv := arrayView 1 sendBuf nBytes in
      viewMapped (st_memory st) rv ->
      viewMapped (st_memory st) sv ->
      recvThenSendView st
        (MPI_Reduce sendBuf recvBuf count datatype op root comm st) rv sv
        (MpiWorld.reduce (rank self) root sv rv
           (to_Uptr datatype) count (to_Uptr op)) /\
      recvThenSendView st
        (MPI_Scan sendBuf recvBuf count datatype op comm st) rv sv
        (MpiWorld.scan (rank self) sv rv
           (to_Uptr datatype) count (to_Uptr op))) /\
  (forall count datatype op,
      mapped (st_memory st) datatype sizeof_datatype ->
      mapped (st_memory st) op sizeof_op ->
      let rv := arrayView 1 recvBuf count in
      let sv := arrayView 1 sendBuf count in
      viewMapped (st_memory st) rv ->
      viewMapped (st_memory st) sv ->
      recvThenSendView st
        (MPI_Allreduce sendBuf recvBuf count datatype op comm st) rv sv
        (MpiWorld.allReduce (rank self) sv rv
           (to_Uptr datatype) count (to_Uptr op))).
Proof.
  intros Hc Hcomm Hout. unfold recvThenSendView.
  split; [| split]; intros.
  - split.
    + unfold MPI_Gather.
      run_by (eapply checkMpiComm_recognized; eassumption).
      run_by (eapply getFaasmDataType_mapped; [exact Hc | exact H]).
      run_by (eapply getFaasmDataType_mapped; [exact Hc | exact H0]).
      run_by (live Hc).
      run_by (apply datatype_size_read).
      rewrite H2. run_by reflexivity.
      run_by (eapply memoryArrayPtr_mapped; exact H3).
      rewrite Hout.
      run_by (run_by (live Hc); run_by (apply datatype_size_read);
              cbn [st_memory with_event]; rewrite H1; run_by reflexivity;
              eapply memoryArrayPtr_mapped; exact H4).
      run_by (live Hc). reflexivity.
    + unfold MPI_Allgather.
      run_by (eapply checkMpiComm_recognized; eassumption).
      run_by (eapply getFaasmDataType_mapped; [exact Hc | exact H]).
      run_by (eapply getFaasmDataType_mapped; [exact Hc | exact H0]).
      run_by (live Hc).
      run_by (apply datatype_size_read).
      rewrite H2. run_by reflexivity.
      run_by (eapply memoryArrayPtr_mapped; exact H3).
      rewrite Hout.
      run_by (run_by (live Hc); run_by (apply datatype_size_read);
              cbn [st_memory with_event]; rewrite H1; run_by reflexivity;
              eapply memoryArrayPtr_mapped; exact H4).
      run_by (live Hc). reflexivity.
  - split.
    + unfold MPI_Reduce.
      run_by (eapply checkMpiComm_recognized; eassumption).
      run_by (eapply getFaasmDataType_mapped; [exact Hc | exact H]).
      run_by (live Hc).
      run_by (apply datatype_size_read).
      rewrite H1. run_by reflexivity.
      run_by (eapply memoryArrayPtr_mapped; exact H2).
      rewrite Hout.
      run_by (run_by (live Hc); run_by (apply datatype_size_read);
              cbn [st_memory with_event]; rewrite H1; run_by reflexivity;
              eapply memoryArrayPtr_mapped; exact H3).
      run_by (eapply getFaasmOp_mapped; [exact Hc | exact H0]).
      run_by (live Hc). reflexivity.
    + unfold MPI_Scan.
      run_by (eapply checkMpiComm_recognized; eassumption).
      run_by (eapply getFaasmDataType_mapped; [exact Hc | exact H]).
      run_by (live Hc).
      run_by (apply datatype_size_read).
      rewrite H1. run_by reflexivity.
      run_by (eapply memoryArrayPtr_mapped; exact H2).
      rewrite Hout.
      run_by (run_by (live Hc); run_by (apply datatype_size_read);
              cbn [st_memory with_event]; rewrite H1; run_by reflexivity;
              eapply memoryArrayPtr_mapped; exact H3).
      run_by (eapply getFaasmOp_mapped; [exact Hc | exact H0]).
      run_by (live Hc). reflexivity.
  - unfold MPI_Allreduce.
    run_by (eapply checkMpiComm_recognized; eassumption).
    run_by (eapply getFaasmDataType_mapped; [exact Hc | exact H]).
    run_by (eapply getFaasmOp_mapped; [exact Hc | exact H0]).
    run_by (live Hc).
    run_by (eapply memoryArrayPtr_mapped; exact H1).
    rewrite Hout.
    run_by (run_by (live Hc); eapply memoryArrayPtr_mapped; exact H2).
    run_by (live Hc). reflexivity.
Qed.

(** Scatter and all-to-all never look at the sentinel: whatever the send
    pointer is, they resolve it as an address, the send view before the
    receive view, and pass both to the engine. *)
Theorem scatter_and_alltoall_resolve_send_then_receive
  (st : HostState) (self : ContextWrapper)
  (sendBuf sendCount sendType recvBuf recvCount recvType comm
     sendBytes recvBytes : Z) :
  st_ctx st = Some self ->
  recognizedComm (st_memory st) comm ->
  mapped (st_memory st) sendType sizeof_datatype ->
  mapped (st_memory st) recvType sizeof_datatype ->
  int_mul sendCount (datatypeSizeAt (st_memory st) sendType) = Some sendBytes ->
  int_mul recvCount (datatypeSizeAt (st_memory st) recvType) = Some recvBytes ->
  let sv := arrayView 1 sendBuf sendBytes in
  let rv := arrayView 1 recvBuf recvBytes in
  viewMapped (st_memory st) sv ->
  viewMapped (st_memory st) rv ->
  (forall root,
      MPI_Scatter sendBuf sendCount sendType recvBuf recvCount recvType
        root comm st
      = (ctx_world_call
           (MpiWorld.scatter root (rank self) sv (to_Uptr sendType) sendCount
              rv (to_Uptr recvType) recvCount) ;;
         ret MPI_SUCCESS)
          (with_event (with_event st (EvView sv)) (EvView rv))) /\
  MPI_Alltoall sendBuf sendCount sendType recvBuf recvCount recvType comm st
  = (ctx_world_call
       (MpiWorld.allToAll (rank self) sv (to_Uptr sendType) sendCount
          rv (to_Uptr recvType) recvCount) ;;
     ret MPI_SUCCESS)
      (with_event (with_event st (EvView sv)) (EvView rv)).
Proof.
  intros Hc Hcomm HsT HrT Hsmul Hrmul sv rv Hsv Hrv.
  split; [intros root; unfold MPI_Scatter | unfold MPI_Alltoall];
    (run_by (eapply checkMpiComm_recognized; eassumption);
     run_by (eapply getFaasmDataType_mapped; [exact Hc | exact HsT]);
     run_by (eapply getFaasmDataType_mapped; [exact Hc | exact HrT]);
     run_by (live Hc);
     run_by (apply datatype_size_read);
     rewrite Hsmul; run_by reflexivity;
     run_by (eapply memoryArrayPtr_mapped; exact Hsv);
     run_by (live Hc);
     run_by (apply datatype_size_read);
     cbn [st_memory with_event]; rewrite Hrmul; run_by reflexivity;
     run_by (eapply memoryArrayPtr_mapped; exact Hrv);
     run_by (live Hc); reflexivity).
Qed.

(** ** The cartesian shift *)

(** [MPI_Cart_shift] asks the engine for the shifted pair and writes the
    source rank first and the destination rank second: the destination
    slot always reads back the destination, the source slot reads back the
    source when the two slots do not overlap, and nothing else of the
    memory the engine left is touched.  The communicator argument is not
    looked at. *)
Theorem MPI_Cart_shift_writes_source_then_destination
  (st : HostState) (self : ContextWrapper)
  (comm direction disp sourceRank destRank s d : Z)
  (m1 : Memory) (w1 : EngineState) :
  st_ctx st = Some self ->
  engine (onWorld (world self)
            (MpiWorld.shiftCartesianCoords (rank self) direction disp))
         (st_memory st) (st_engine st)
  = EngineOk (s, d) m1 w1 ->
  mapped m1 sourceRank 4 ->
  mapped m1 destRank 4 ->
  exists st',
    MPI_Cart_shift comm direction disp sourceRank destRank st
    = Returned MPI_SUCCESS st' /\
    load_i32 (st_memory st') (to_Uptr destRank) = to_I32 d /\
    (to_Uptr sourceRank + 4 <= to_Uptr destRank \/
     to_Uptr destRank + 4 <= to_Uptr sourceRank ->
     load_i32 (st_memory st') (to_Uptr sourceRank) = to_I32 s) /\
    (forall x,
        ~ (to_Uptr sourceRank <= x < to_Uptr sourceRank + 4) ->
        ~ (to_Uptr destRank <= x < to_Uptr destRank + 4) ->
        mem_byte (st_memory st') x = mem_byte m1 x).
Proof.
  intros Hc He Hs Hd. eexists. split; [| split; [| split]].
  - unfold MPI_Cart_shift.
    run_by (live Hc).
    run_by (erewrite ctx_world_call_live by exact Hc;
            refine (delegate_ok
                      (onWorld (world self)
                         (MpiWorld.shiftCartesianCoords (rank self)
                            direction disp)) _ (s, d) m1 w1 _);
            exact He).
    cbv zeta. cbn [fst snd].
    run_by (eapply writeMpiResult_mapped; [exact Hc | exact Hs]).
    run_by (eapply writeMpiResult_mapped; [exact Hc | exact Hd]).
    reflexivity.
  - cbn [st_memory with_memory with_engine]. apply load_store_i32.
  - intros Hdisj. cbn [st_memory with_memory with_engine].
    rewrite load_i32_store_i32_other by lia. apply load_store_i32.
  - intros x Hxs Hxd. cbn [st_memory with_memory with_engine].
    rewrite !mem_byte_store_i32_other by assumption. reflexivity.
Qed.

(** ** The processor name *)

Lemma mem_byte_store_bytes_outside bs :
  forall m a x,
    ~ (a <= x < a + Z.of_nat (List.length bs)) ->
    mem_byte (store_bytes m a bs) x = mem_byte m x.
Proof.
  induction bs as [| b bs IH]; intros m a x Hx; [reflexivity |].
  cbn [store_bytes List.length] in *.
  rewrite IH by lia. apply mem_byte_store_byte_other. lia.
Qed.

Lemma mem_size_store_bytes bs :
  forall m a, mem_size (store_bytes m a bs) = mem_size m.
Proof.
  induction bs as [| b bs IH]; intros m a; [reflexivity |].
  cbn [store_bytes]. now rewrite IH.
Qed.

Lemma mem_byte_store_bytes_inside bs :
  forall m a i,
    (i < List.length bs)%nat ->
    mem_byte (store_bytes m a bs) (a + Z.of_nat i) = nth i bs 0 mod 256.
Proof.
  induction bs as [| b bs IH]; intros m a i Hi; [inversion Hi |].
  cbn [store_bytes List.length] in *. destruct i as [| i].
  - rewrite mem_byte_store_bytes_outside by lia.
    cbn [nth store_byte mem_byte]. rewrite Z.add_0_r, Z.eqb_refl. reflexivity.
  - replace (a + Z.of_nat (S i)) with (a + 1 + Z.of_nat i) by lia.
    rewrite IH by lia. reflexivity.
Qed.

Lemma load_store_bytes bs m a :
  Forall (fun b => 0 <= b < 256) bs ->
  load_bytes (store_bytes m a bs) a (List.length bs) = bs.
Proof.
  intros Hbs. unfold load_bytes. apply (nth_ext _ _ 0 0).
  - now rewrite length_map, length_seq.
  - intros i Hi. rewrite length_map, length_seq in Hi.
    rewrite (nth_indep _ 0
               (mem_byte (store_bytes m a bs) (a + Z.of_nat 0)))
      by (now rewrite length_map, length_seq).
    rewrite (map_nth (fun i => mem_byte (store_bytes m a bs) (a + Z.of_nat i))).
    rewrite seq_nth by exact Hi. cbn [Nat.add].
    rewrite mem_byte_store_bytes_inside by exact Hi.
    apply Z.mod_small. now apply Forall_nth.
Qed.

Lemma c_str_without_zero s :
  Forall (fun b => 0 < b < 256) s -> c_str s = s ++ [0].
Proof.
  induction 1 as [| b s Hb _ IH]; [reflexivity |].
  cbn [c_str app]. rewrite Z.mod_small by lia.
  destruct (Z.eqb_spec b 0); [lia | now rewrite IH].
Qed.

(** [MPI_Get_processor_name] copies the configured host name and its
    terminating zero to the guest buffer, reads back byte for byte, and
    changes nothing outside those bytes.  It needs no context, and it does
    not look at the buffer length the guest declares: the whole name is
    written even when [bufLen] is shorter. *)
Theorem MPI_Get_processor_name_writes_the_whole_name
  (st : HostState) (buf bufLen : Z) :
  Forall (fun b => 0 < b < 256) (st_endpointHost st) ->
  let name := st_endpointHost st ++ [0] in
  mapped (st_memory st) buf (Z.of_nat (List.length name)) ->
  exists st',
    MPI_Get_processor_name buf bufLen st = Returned MPI_SUCCESS st' /\
    load_bytes (st_memory st') (to_Uptr buf) (List.length name) = name /\
    (forall x,
        ~ (to_Uptr buf <= x < to_Uptr buf + Z.of_nat (List.length name)) ->
        mem_byte (st_memory st') x = mem_byte (st_memory st) x) /\
    st_ctx st' = st_ctx st.
Proof.
  intros Hname name Hm.
  assert (Hlen : (1 <= List.length name)%nat)
    by (unfold name; rewrite length_app; cbn; lia).
  assert (Hone : mapped (st_memory st) buf 1).
  { unfold mapped, validRange in *. apply Z.leb_le. apply Z.leb_le in Hm. lia. }
  eexists. split; [| split; [| split]].
  - unfold MPI_Get_processor_name.
    run_by reflexivity. run_by reflexivity.
    run_by (apply memoryRef_mapped; exact Hone).
    assert (Hcpy : strcpy (to_Uptr buf) (st_endpointHost st) st
                   = Returned tt
                       (with_memory st
                          (store_bytes (st_memory st) (to_Uptr buf) name))).
    { unfold strcpy. cbv zeta. rewrite (c_str_without_zero _ Hname).
      fold name. unfold mapped in Hm. now rewrite Hm. }
    run_by (exact Hcpy). reflexivity.
  - cbn [st_memory with_memory]. apply load_store_bytes.
    unfold name. apply Forall_app. split.
    + eapply Forall_impl; [| exact Hname]. cbv beta. intros b Hb. lia.
    + constructor; [lia | constructor].
  - intros x Hx. cbn [st_memory with_memory].
    now apply mem_byte_store_bytes_outside.
  - reflexivity.
Qed.

(** ** Cartesian communicator creation *)

Lemma length_load_bytes m a n : List.length (load_bytes m a n) = n.
Proof. unfold load_bytes. now rewrite length_map, length_seq. Qed.

Lemma nth_load_bytes m a n i :
  (i < n)%nat -> nth i (load_bytes m a n) 0 = mem_byte m (a + Z.of_nat i).
Proof.
  intros Hi. unfold load_bytes.
  rewrite (nth_indep _ 0 (mem_byte m (a + Z.of_nat 0)))
    by (now rewrite length_map, length_seq).
  rewrite (map_nth (fun i => mem_byte m (a + Z.of_nat i))).
  now rewrite seq_nth.
Qed.

Lemma mem_byte_copy m dst src n i :
  bytesInRange m -> (i < n)%nat ->
  mem_byte (store_bytes m dst (load_bytes m src n)) (dst + Z.of_nat i)
  = mem_byte m (src + Z.of_nat i).
Proof.
  intros Hb Hi.
  rewrite mem_byte_store_bytes_inside by (now rewrite length_load_bytes).
  rewrite nth_load_bytes by exact Hi. apply Z.mod_small, Hb.
Qed.

Lemma load_i32_copy m dst src n off :
  bytesInRange m -> 0 <= off -> off + 4 <= Z.of_nat n ->
  load_i32 (store_bytes m dst (load_bytes m src n)) (dst + off)
  = load_i32 m (src + off).
Proof.
  intros Hb Hoff Hn. unfold load_i32. f_equal.
  assert (Hbyte : forall j, 0 <= j < 4 ->
            mem_byte (store_bytes m dst (load_bytes m src n)) (dst + off + j)
            = mem_byte m (src + off + j)).
  { intros j Hj.
    replace (dst + off + j) with (dst + Z.of_nat (Z.to_nat (off + j))) by lia.
    replace (src + off + j) with (src + Z.of_nat (Z.to_nat (off + j))) by lia.
    apply mem_byte_copy; [exact Hb | lia]. }
  pose proof (Hbyte 0 ltac:(lia)) as H0. rewrite !Z.add_0_r in H0.
  rewrite H0, (Hbyte 1), (Hbyte 2), (Hbyte 3) by lia. reflexivity.
Qed.

Lemma load_i32_store_bytes_outside m dst bs a :
  a + 4 <= dst \/ dst + Z.of_nat (List.length bs) <= a ->
  load_i32 (store_bytes m dst bs) a = load_i32 m a.
Proof.
  intros Hd. unfold load_i32.
  rewrite !mem_byte_store_bytes_outside by lia. reflexivity.
Qed.

Lemma bytesInRange_store_byte m a v :
  bytesInRange m -> bytesInRange (store_byte m a v).
Proof.
  intros Hb x. unfold store_byte; cbn [mem_byte].
  destruct (x =? a); [apply Z.mod_pos_bound; lia | apply Hb].
Qed.

Lemma bytesInRange_store_i32 m a v :
  bytesInRange m -> bytesInRange (store_i32 m a v).
Proof.
  intros Hb. unfold store_i32. now repeat apply bytesInRange_store_byte.
Qed.

Lemma to_I32_to_U32_small z : 0 <= z < 2 ^ 31 -> to_I32 (to_U32 z) = z.
Proof.
  intros Hz. unfold to_U32. rewrite Z.mod_small by lia.
  apply to_I32_id. unfold in_I32, INT_MIN, INT_MAX. lia.
Qed.

Lemma to_Uptr_small z : 0 <= z < 2 ^ 64 -> to_Uptr z = z.
Proof. intros Hz. unfold to_Uptr. now apply Z.mod_small. Qed.

(** [MPI_Cart_create] (the memory growth primitive and page rounding
    modelled as for [MPI_Alloc_mem]) grows the memory, writes the address of
    the new block, the old size, through [newCommPtrPtr], and copies the
    origin descriptor into the block byte for byte: the new communicator
    carries the id of the old one, so it is recognised exactly when the old
    one is.  The requested dimensions, periods and reordering are stored
    nowhere: every byte outside the output slot and the new block is as it
    was, nothing but the memory changes in the state, and the state reached
    is the same whatever these four arguments are. *)
Theorem MPI_Cart_create_copies_the_communicator
  (st : HostState) (self : ContextWrapper)
  (commOld ndims dims periods reorder newCommPtrPtr : Z) :
  st_ctx st = Some self ->
  let mem := st_memory st in
  let amount := to_U32 (roundUpToWasmPageAligned sizeof_communicator) in
  bytesInRange mem ->
  0 <= offsetof_communicator_id ->
  offsetof_communicator_id + 4 <= sizeof_communicator <= INT_MAX ->
  0 <= mem_size mem < 2 ^ 31 ->
  mem_size mem + amount <= mem_max mem ->
  mapped mem newCommPtrPtr 4 ->
  mapped mem commOld sizeof_communicator ->
  to_Uptr newCommPtrPtr + 4 <= to_Uptr commOld \/
  to_Uptr commOld + sizeof_communicator <= to_Uptr newCommPtrPtr ->
  exists st',
    MPI_Cart_create commOld ndims dims periods reorder newCommPtrPtr st
    = Returned MPI_SUCCESS st' /\
    mem_size (st_memory st') = mem_size mem + amount /\
    load_i32 (st_memory st') (to_Uptr newCommPtrPtr) = mem_size mem /\
    commIdAt (st_memory st') (mem_size mem) = commIdAt mem commOld /\
    (recognizedComm mem commOld ->
     recognizedComm (st_memory st') (mem_size mem)) /\
    (forall i,
        0 <= i < sizeof_communicator ->
        mem_byte (st_memory st') (mem_size mem + i)
        = mem_byte mem (to_Uptr commOld + i)) /\
    (forall x,
        ~ (to_Uptr newCommPtrPtr <= x < to_Uptr newCommPtrPtr + 4) ->
        ~ (mem_size mem <= x < mem_size mem + sizeof_communicator) ->
        mem_byte (st_memory st') x = mem_byte mem x) /\
    st' = with_memory st (st_memory st') /\
    (forall ndims' dims' periods' reorder',
        MPI_Cart_create commOld ndims' dims' periods' reorder' newCommPtrPtr st
        = Returned MPI_SUCCESS st').
Proof.
  intros Hc mem amount Hbytes Hoff Hsz Hsize Hmax Hslot Hold Hdisj.
  set (grown := mkMemory (mem_size mem + amount) (mem_max mem) (mem_byte mem)).
  set (written := store_i32 grown (to_Uptr newCommPtrPtr) (to_U32 (mem_size mem))).
  set (final := store_bytes written (mem_size mem)
                  (load_bytes written (to_Uptr commOld)
                     (Z.to_nat sizeof_communicator))).
  assert (Hamount : sizeof_communicator <= amount).
  { pose proof (roundUp_bounds sizeof_communicator) as Hb.
    unfold amount, to_U32, INT_MAX, WASM_BYTES_PER_PAGE in *.
    rewrite Z.mod_small by lia. lia. }
  assert (Hback : load_i32 written (to_Uptr newCommPtrPtr) = mem_size mem).
  { unfold written. rewrite load_store_i32. now apply to_I32_to_U32_small. }
  assert (Hptr : to_Uptr (mem_size mem) = mem_size mem)
    by (apply to_Uptr_small; lia).
  assert (Hslot' : to_Uptr newCommPtrPtr + 4 <= mem_size mem)
    by (unfold mapped, validRange in Hslot; now apply Z.leb_le in Hslot).
  assert (Hold' : to_Uptr commOld + sizeof_communicator <= mem_size mem)
    by (unfold mapped, validRange in Hold; now apply Z.leb_le in Hold).
  assert (Hm1 : mapped grown newCommPtrPtr 4)
    by (unfold mapped, validRange; cbn [grown mem_size]; apply Z.leb_le; lia).
  assert (Hm2 : mapped written commOld sizeof_communicator)
    by (unfold mapped, validRange, written; rewrite mem_size_store_i32;
        cbn [grown mem_size]; apply Z.leb_le; lia).
  assert (Hm3 : mapped written (mem_size mem) sizeof_communicator)
    by (unfold mapped, validRange, written; rewrite mem_size_store_i32, Hptr;
        cbn [grown mem_size]; apply Z.leb_le; lia).
  assert (Hrun : forall ndims dims periods reorder,
             MPI_Cart_create commOld ndims dims periods reorder
               newCommPtrPtr st
             = Returned MPI_SUCCESS (with_memory st final)).
  { intros ndims0 dims0 periods0 reorder0.
    unfold MPI_Cart_create. cbv zeta.
    run_by (live Hc).
    assert (Hgrow : growMemory (module self) amount st
                    = Returned (to_U32 (mem_size mem)) (with_memory st grown)).
    { unfold growMemory. fold mem. apply Z.leb_le in Hmax. now rewrite Hmax. }
    run_by (exact Hgrow).
    run_by (live Hc).
    run_by (apply memoryRef_mapped; exact Hm1).
    run_by reflexivity.
    run_by (live Hc).
    run_by (apply memoryRef_mapped; exact Hm2).
    run_by (live Hc).
    run_by (unfold read_int; cbn [st_memory with_memory]; fold written;
            rewrite Hback; reflexivity).
    run_by (apply memoryRef_mapped; exact Hm3).
    rewrite Hptr. reflexivity. }
  assert (Hid : commIdAt final (mem_size mem) = commIdAt mem commOld).
  { unfold commIdAt. rewrite Hptr. unfold final.
    rewrite load_i32_copy;
      [| apply bytesInRange_store_i32; exact Hbytes | exact Hoff | lia].
    unfold written. rewrite load_i32_store_i32_other by lia. reflexivity. }
  exists (with_memory st final). split; [apply Hrun |].
  cbn [st_memory with_memory].
  split; [| split; [| split; [| split; [| split; [| split; [| split]]]]]].
  - unfold final. rewrite mem_size_store_bytes. reflexivity.
  - unfold final. rewrite load_i32_store_bytes_outside by lia. exact Hback.
  - exact Hid.
  - intros [_ Hworld]. split.
    + unfold mapped, validRange, final in *.
      now rewrite mem_size_store_bytes.
    + now rewrite Hid.
  - intros i Hi. unfold final.
    replace (mem_size mem + i) with (mem_size mem + Z.of_nat (Z.to_nat i))
      by lia.
    rewrite mem_byte_copy;
      [| apply bytesInRange_store_i32; exact Hbytes | lia].
    unfold written. rewrite mem_byte_store_i32_other by lia.
    cbn [grown mem_byte]. f_equal. lia.
  - intros x Hslot_x Hblock_x. unfold final.
    rewrite mem_byte_store_bytes_outside
      by (rewrite length_load_bytes; lia).
    unfold written. rewrite mem_byte_store_i32_other by lia.
    reflexivity.
  - reflexivity.
  - intros ndims' dims' periods' reorder'. apply Hrun.
Qed.

(** ** Sizes that are multiplied out *)

Lemma int_mul_fits a b : in_I32 (a * b) -> int_mul a b = Some (a * b).
Proof.
  unfold int_mul, in_I32, in_I32b. intros [Hlo Hhi].
  apply Z.leb_le in Hlo. apply Z.leb_le in Hhi. now rewrite Hlo, Hhi.
Qed.

Lemma int_mul_overflows a b : ~ in_I32 (a * b) -> int_mul a b = None.
Proof.
  unfold int_mul, in_I32, in_I32b. intros Hout.
  destruct (INT_MIN <=? a * b) eqn:Hlo; [| reflexivity].
  destruct (a * b <=? INT_MAX) eqn:Hhi; [| reflexivity].
  apply Z.leb_le in Hlo. apply Z.leb_le in Hhi. now destruct Hout.
Qed.

(** A broadcast sizes its buffer as [count] times the size read from the
    datatype descriptor, in [int] arithmetic.  A product outside [int] is
    undefined behaviour; a buffer of that many bytes that is not mapped is
    refused with nothing done; one that is mapped goes to the engine, with
    the count and the caller's rank. *)
Theorem MPI_Bcast_sizes_the_buffer_by_count_and_datatype
  (st : HostState) (self : ContextWrapper)
  (buffer count datatype root comm : Z) :
  st_ctx st = Some self ->
  recognizedComm (st_memory st) comm ->
  mapped (st_memory st) datatype sizeof_datatype ->
  let size := datatypeSizeAt (st_memory st) datatype in
  let v := arrayView 1 buffer (count * size) in
  (~ in_I32 (count * size) ->
   MPI_Bcast buffer count datatype root comm st = Undefined) /\
  (in_I32 (count * size) -> ~ viewMapped (st_memory st) v ->
   MPI_Bcast buffer count datatype root comm st
   = Thrown "outOfBoundsMemoryAccess" st) /\
  (in_I32 (count * size) -> viewMapped (st_memory st) v ->
   MPI_Bcast buffer count datatype root comm st
   = (ctx_world_call
        (MpiWorld.broadcast root (rank self) v (to_Uptr datatype) count) ;;
      ret MPI_SUCCESS)
       (with_event st (EvView v))).
Proof.
  intros Hc Hcomm Hdt size v.
  unfold MPI_Bcast.
  split; [| split]; intros Hin; [| intros Hv | intros Hv];
    run_by (eapply checkMpiComm_recognized; eassumption);
    run_by (eapply getFaasmDataType_mapped; [exact Hc | exact Hdt]);
    run_by (live Hc);
    run_by (apply datatype_size_read);
    fold size.
  - apply bind_Undefined. now rewrite int_mul_overflows.
  - rewrite int_mul_fits by exact Hin.
    run_by reflexivity.
    apply bind_Thrown. now apply memoryArrayPtr_unmapped.
  - rewrite int_mul_fits by exact Hin.
    run_by reflexivity.
    run_by (eapply memoryArrayPtr_mapped; exact Hv).
    run_by (live Hc). reflexivity.
Qed.

(** A combined send and receive resolves the status, then the send buffer,
    then the receive buffer, each buffer sized as its count times its
    datatype's size, and only then calls the engine: a send buffer that
    does not fit is refused with nothing done, a receive buffer that does
    not fit is refused after the send view was built, and neither tag
    reaches the engine. *)
Theorem MPI_Sendrecv_resolves_status_send_and_receive
  (st : HostState) (self : ContextWrapper)
  (sendBuf sendCount sendType destination sendTag
     recvBuf recvCount recvType source recvTag comm statusPtr
     sendBytes recvBytes : Z) :
  st_ctx st = Some self ->
  recognizedComm (st_memory st) comm ->
  mapped (st_memory st) sendType sizeof_datatype ->
  mapped (st_memory st) recvType sizeof_datatype ->
  mapped (st_memory st) statusPtr sizeof_status ->
  int_mul sendCount (datatypeSizeAt (st_memory st) sendType) = Some sendBytes ->
  int_mul recvCount (datatypeSizeAt (st_memory st) recvType) = Some recvBytes ->
  let sv := arrayView 1 sendBuf sendBytes in
  let rv := arrayView 1 recvBuf recvBytes in
  let call :=
    MPI_Sendrecv sendBuf sendCount sendType destination sendTag
      recvBuf recvCount recvType source recvTag comm statusPtr in
  (~ viewMapped (st_memory st) sv ->
   call st = Thrown "outOfBoundsMemoryAccess" st) /\
  (viewMapped (st_memory st) sv -> ~ viewMapped (st_memory st) rv ->
   call st = Thrown "outOfBoundsMemoryAccess" (with_event st (EvView sv))) /\
  (viewMapped (st_memory st) sv -> viewMapped (st_memory st) rv ->
   call st
   = (ctx_world_call
        (MpiWorld.sendRecv sv sendCount (to_Uptr sendType) destination
           rv recvCount (to_Uptr recvType) source (rank self)
           (to_Uptr statusPtr)) ;;
      ret MPI_SUCCESS)
       (with_event (with_event st (EvView sv)) (EvView rv))).
Proof.
  intros Hc Hcomm HsT HrT Hstatus Hsmul Hrmul sv rv call.
  unfold call, MPI_Sendrecv.
  split; [| split].
  - intros Hsv.
    run_by (eapply checkMpiComm_recognized; eassumption).
    run_by (eapply getFaasmDataType_mapped; [exact Hc | exact HsT]).
    run_by (eapply getFaasmDataType_mapped; [exact Hc | exact HrT]).
    run_by (live Hc).
    run_by (eapply memoryRef_mapped; exact Hstatus).
    run_by (live Hc).
    run_by (apply datatype_size_read).
    rewrite Hsmul. run_by reflexivity.
    apply bind_Thrown. now apply memoryArrayPtr_unmapped.
  - intros Hsv Hrv.
    run_by (eapply checkMpiComm_recognized; eassumption).
    run_by (eapply getFaasmDataType_mapped; [exact Hc | exact HsT]).
    run_by (eapply getFaasmDataType_mapped; [exact Hc | exact HrT]).
    run_by (live Hc).
    run_by (eapply memoryRef_mapped; exact Hstatus).
    run_by (live Hc).
    run_by (apply datatype_size_read).
    rewrite Hsmul. run_by reflexivity.
    run_by (eapply memoryArrayPtr_mapped; exact Hsv).
    run_by (live Hc).
    run_by (apply datatype_size_read).
    cbn [st_memory with_event]. rewrite Hrmul. run_by reflexivity.
    apply bind_Thrown. now apply memoryArrayPtr_unmapped.
  - intros Hsv Hrv.
    run_by (eapply checkMpiComm_recognized; eassumption).
    run_by (eapply getFaasmDataType_mapped; [exact Hc | exact HsT]).
    run_by (eapply getFaasmDataType_mapped; [exact Hc | exact HrT]).
    run_by (live Hc).
    run_by (eapply memoryRef_mapped; exact Hstatus).
    run_by (live Hc).
    run_by (apply datatype_size_read).
    rewrite Hsmul. run_by reflexivity.
    run_by (eapply memoryArrayPtr_mapped; exact Hsv).
    run_by (live Hc).
    run_by (apply datatype_size_read).
    cbn [st_memory with_event]. rewrite Hrmul. run_by reflexivity.
    run_by (eapply memoryArrayPtr_mapped; exact Hrv).
    run_by (live Hc). reflexivity.
Qed.

End Extras.

(** ** The properties of the whole layer on the sample configurations *)

Section SampleExtras.
Local Existing Instance sampleAbi.
Local Existing Instance sampleEngine.

(** A send on the sample leaves context, record and host name alone. *)
Lemma only_init_and_finalize_touch_the_context_witness :
  exists st',
    outcome_state
      (invoke (Call_MPI_Send 128 4 sample_datatype 1 0 sample_comm)
         sample_state) = Some st' /\
    st_ctx st' = st_ctx sample_state /\
    st_call st' = st_call sample_state /\
    st_endpointHost st' = st_endpointHost sample_state.
Proof.
  assert (H : exists st',
             outcome_state
               (invoke (Call_MPI_Send 128 4 sample_datatype 1 0 sample_comm)
                  sample_state) = Some st')
    by (eexists; reflexivity).
  destruct H as [st' H]. exists st'. split; [exact H |].
  destruct (only_init_and_finalize_touch_the_context
              (Call_MPI_Send 128 4 sample_datatype 1 0 sample_comm)
              sample_state st' H) as (Hctx & Hcall & Hhost).
  split; [exact (Hctx eq_refl) | split; [| exact Hhost]].
  apply Hcall. intros a b. discriminate.
Defined.

(** A window creation names itself. *)
Lemma unsupported_failure_names_the_call_witness :
  exists msg,
    invoke (Call_MPI_Win_create 128 64 4 sample_info sample_comm 200)
      sample_state = Thrown msg sample_state /\
    occursIn "MPI_Win_create" msg = true /\
    occursIn "not implemented" msg = true.
Proof.
  exact (unsupported_failure_names_the_call
           (Call_MPI_Win_create 128 64 4 sample_info sample_comm 200)
           sample_state eq_refl).
Defined.

(** A barrier on the info descriptor (id 20, not the world's 10), and one
    on a descriptor that reaches past the mapped page. *)
Lemma unrecognized_communicator_is_rejected_witness :
  invoke (Call_MPI_Barrier sample_info) sample_state
  = Thrown "Unexpected comm type" sample_state /\
  invoke (Call_MPI_Barrier 65534) sample_state
  = Thrown "outOfBoundsMemoryAccess" sample_state.
Proof.
  split.
  - apply (proj1 (unrecognized_communicator_is_rejected
                    (Call_MPI_Barrier sample_info) sample_info sample_state
                    sample_ctx eq_refl eq_refl)); [reflexivity | discriminate].
  - apply (proj2 (unrecognized_communicator_is_rejected
                    (Call_MPI_Barrier 65534) 65534 sample_state
                    sample_ctx eq_refl eq_refl)).
    unfold mapped. vm_compute. discriminate.
Defined.

(** The creating rank of the sample asks for its rank after [MPI_Init]. *)
Lemma rank_query_reports_the_rank_bound_at_init_witness :
  exists st1 st2,
    MPI_Init 0 0 sample_fresh = Returned MPI_SUCCESS st1 /\
    MPI_Comm_rank sample_comm 200 st1 = Returned MPI_SUCCESS st2 /\
    load_i32 (st_memory st2) (to_Uptr 200) = to_I32 (getRank (st_engine st1)) /\
    st_engine st2 = st_engine st1 /\
    st_trace st2 = st_trace st1 /\
    st_ctx st2 = st_ctx st1.
Proof.
  eexists.
  destruct (rank_query_reports_the_rank_bound_at_init
              sample_fresh _ 0 0 MPI_SUCCESS sample_comm 200
              eq_refl sample_comm_recognized eq_refl) as (st2 & H).
  exists st2. split; [reflexivity | exact H].
Defined.

Lemma in_I32_small z : -1 <= z <= 65536 -> in_I32 z.
Proof. unfold in_I32, INT_MIN, INT_MAX. lia. Qed.

(** A send of -1 elements. *)
Lemma negative_count_is_out_of_bounds_witness :
  MPI_Send 128 (-1) sample_datatype 1 0 sample_comm sample_state
  = Thrown "outOfBoundsMemoryAccess" sample_state.
Proof.
  apply (negative_count_or_pointer_is_out_of_bounds
           sample_state sample_ctx 128 (-1) sample_datatype 1 0 sample_comm
           eq_refl sample_comm_recognized eq_refl
           (in_I32_small 128 ltac:(lia)) (in_I32_small (-1) ltac:(lia))).
  - vm_compute. discriminate.
  - right. lia.
Defined.

(** An all-gather from the buffer at 300 into the buffer at 128. *)
Lemma out_of_place_collectives_witness :
  recvThenSendView sample_state
    (MPI_Allgather 300 3 sample_datatype 128 3 sample_datatype sample_comm
       sample_state)
    (mkView 128 1 12) (mkView 300 1 12)
    (MpiWorld.allGather 0 (mkView 300 1 12) 32 3 (mkView 128 1 12) 32 3).
Proof.
  destruct (out_of_place_collectives_resolve_receive_then_send
              sample_state sample_ctx 300 128 sample_comm
              eq_refl sample_comm_recognized eq_refl) as (Hgather & _).
  exact (proj2 (Hgather 3 sample_datatype 3 sample_datatype 0 12 12
                  eq_refl eq_refl eq_refl eq_refl eq_refl eq_refl)).
Defined.

(** A scatter whose send pointer is the sentinel 1. *)
Lemma scatter_and_alltoall_witness :
  MPI_Scatter 1 3 sample_datatype 128 3 sample_datatype 0 sample_comm
    sample_state
  = (ctx_world_call
       (MpiWorld.scatter 0 0 (mkView 1 1 12) 32 3 (mkView 128 1 12) 32 3) ;;
     ret MPI_SUCCESS)
      (with_event (with_event sample_state (EvView (mkView 1 1 12)))
         (EvView (mkView 128 1 12))).
Proof.
  exact (proj1 (scatter_and_alltoall_resolve_send_then_receive
                  sample_state sample_ctx 1 3 sample_datatype 128 3
                  sample_datatype sample_comm 12 12
                  eq_refl sample_comm_recognized eq_refl eq_refl
                  eq_refl eq_refl eq_refl eq_refl) 0).
Defined.

Lemma sample_host_name_bytes :
  Forall (fun b => 0 < b < 256) (st_endpointHost sample_fresh).
Proof. repeat constructor. Qed.

(** Before any [MPI_Init], with a declared length of 2: all of "faasm" and
    its terminator are written at 200. *)
Lemma MPI_Get_processor_name_witness :
  exists st',
    MPI_Get_processor_name 200 2 sample_fresh = Returned MPI_SUCCESS st' /\
    load_bytes (st_memory st') 200 6 = [102; 97; 97; 115; 109; 0] /\
    (forall x,
        ~ (200 <= x < 200 + 6) ->
        mem_byte (st_memory st') x = mem_byte sample_memory x) /\
    st_ctx st' = None.
Proof.
  exact (MPI_Get_processor_name_writes_the_whole_name
           sample_fresh 200 2 sample_host_name_bytes eq_refl).
Defined.

Lemma sample_bytes_in_range : bytesInRange sample_memory.
Proof.
  intros a. unfold sample_memory, mem_byte, sample_bytes.
  repeat match goal with |- context [?x =? ?y] => destruct (x =? y) end; lia.
Qed.

(** A cartesian communicator made from the world communicator at 16: the
    new descriptor sits at 65536 and is recognised. *)
Lemma MPI_Cart_create_witness :
  exists st',
    MPI_Cart_create sample_comm 2 300 400 0 200 sample_state
    = Returned MPI_SUCCESS st' /\
    mem_size (st_memory st') = 65536 + 65536 /\
    load_i32 (st_memory st') 200 = 65536 /\
    commIdAt (st_memory st') 65536 = commIdAt sample_memory sample_comm /\
    (recognizedComm sample_memory sample_comm ->
     recognizedComm (st_memory st') 65536) /\
    (forall i,
        0 <= i < 4 ->
        mem_byte (st_memory st') (65536 + i)
        = mem_byte sample_memory (16 + i)) /\
    (forall x,
        ~ (200 <= x < 200 + 4) ->
        ~ (65536 <= x < 65536 + 4) ->
        mem_byte (st_memory st') x = mem_byte sample_memory x) /\
    st' = with_memory sample_state (st_memory st') /\
    (forall ndims' dims' periods' reorder',
        MPI_Cart_create sample_comm ndims' dims' periods' reorder' 200
          sample_state
        = Returned MPI_SUCCESS st').
Proof.
  refine (MPI_Cart_create_copies_the_communicator
            sample_state sample_ctx sample_comm 2 300 400 0 200
            eq_refl sample_bytes_in_range _ _ _ _ eq_refl eq_refl _).
  - vm_compute. discriminate.
  - vm_compute. split; discriminate.
  - vm_compute. split; [discriminate | reflexivity].
  - vm_compute. discriminate.
  - right. vm_compute. discriminate.
Defined.

(** Four-byte elements: 2^30 of them overflow, four of them do not fit in
    the last four mapped bytes, four of them at 128 are broadcast. *)
Lemma MPI_Bcast_sizes_witness :
  MPI_Bcast 128 1073741824 sample_datatype 0 sample_comm sample_state
  = Undefined /\
  MPI_Bcast 65532 4 sample_datatype 0 sample_comm sample_state
  = Thrown "outOfBoundsMemoryAccess" sample_state /\
  MPI_Bcast 128 4 sample_datatype 0 sample_comm sample_state
  = (ctx_world_call
       (MpiWorld.broadcast 0 0 (mkView 128 1 16) 32 4) ;;
     ret MPI_SUCCESS)
      (with_event sample_state (EvView (mkView 128 1 16))).
Proof.
  split; [| split].
  - refine (proj1 (MPI_Bcast_sizes_the_buffer_by_count_and_datatype
                     sample_state sample_ctx 128 1073741824 sample_datatype 0
                     sample_comm eq_refl sample_comm_recognized eq_refl) _).
    intros [_ Hhi]. vm_compute in Hhi. now apply Hhi.
  - refine (proj1 (proj2 (MPI_Bcast_sizes_the_buffer_by_count_and_datatype
                            sample_state sample_ctx 65532 4 sample_datatype 0
                            sample_comm eq_refl sample_comm_recognized
                            eq_refl)) _ _).
    + vm_compute. split; discriminate.
    + vm_compute. discriminate.
  - refine (proj2 (proj2 (MPI_Bcast_sizes_the_buffer_by_count_and_datatype
                            sample_state sample_ctx 128 4 sample_datatype 0
                            sample_comm eq_refl sample_comm_recognized
                            eq_refl)) _ eq_refl).
    vm_compute. split; discriminate.
Defined.

(** The 16-byte message that does not fit in the last four mapped bytes,
    as the send half and as the receive half of an exchange, and an
    exchange between the buffers at 128 and 256. *)
Lemma MPI_Sendrecv_witness :
  MPI_Sendrecv 65532 4 sample_datatype 1 0 256 4 sample_datatype 1 0
    sample_comm sample_status sample_state
  = Thrown "outOfBoundsMemoryAccess" sample_state /\
  MPI_Sendrecv 128 4 sample_datatype 1 0 65532 4 sample_datatype 1 0
    sample_comm sample_status sample_state
  = Thrown "outOfBoundsMemoryAccess"
      (with_event sample_state (EvView (mkView 128 1 16))) /\
  MPI_Sendrecv 128 4 sample_datatype 1 0 256 4 sample_datatype 1 0
    sample_comm sample_status sample_state
  = (ctx_world_call
       (MpiWorld.sendRecv (mkView 128 1 16) 4 32 1 (mkView 256 1 16) 4 32 1 0
          64) ;;
     ret MPI_SUCCESS)
      (with_event (with_event sample_state (EvView (mkView 128 1 16)))
         (EvView (mkView 256 1 16))).
Proof.
  split; [| split].
  - refine (proj1 (MPI_Sendrecv_resolves_status_send_and_receive
                     sample_state sample_ctx 65532 4 sample_datatype 1 0
                     256 4 sample_datatype 1 0 sample_comm sample_status
                     16 16 eq_refl sample_comm_recognized eq_refl eq_refl
                     eq_refl eq_refl eq_refl) _).
    vm_compute. discriminate.
  - refine (proj1 (proj2 (MPI_Sendrecv_resolves_status_send_and_receive
                            sample_state sample_ctx 128 4 sample_datatype 1 0
                            65532 4 sample_datatype 1 0 sample_comm
                            sample_status 16 16 eq_refl
                            sample_comm_recognized eq_refl eq_refl eq_refl
                            eq_refl eq_refl)) eq_refl _).
    vm_compute. discriminate.
  - exact (proj2 (proj2 (MPI_Sendrecv_resolves_status_send_and_receive
                           sample_state sample_ctx 128 4 sample_datatype 1 0
                           256 4 sample_datatype 1 0 sample_comm
                           sample_status 16 16 eq_refl
                           sample_comm_recognized eq_refl eq_refl eq_refl
                           eq_refl eq_refl)) eq_refl eq_refl).
Defined.
End SampleExtras.

Section TicketExtras.
Local Existing Instance sampleAbi.
Local Existing Instance ticketEngine.

(** The engine hands out request 41 for the send; the wait awaits 41. *)
Lemma wait_awaits_the_request_witness :
  exists st1,
    MPI_Isend 128 4 sample_datatype 1 0 sample_comm 200 ticket_state
    = Returned MPI_SUCCESS st1 /\
    load_i32 (st_memory st1) (to_Uptr 200) = 41 /\
    forall status,
      MPI_Wait 200 status st1
      = (ctx_world_call (MpiWorld.awaitAsyncRequest 41) ;; ret MPI_SUCCESS) st1.
Proof.
  exact (proj1 (wait_awaits_the_request_the_slot_was_given
                  ticket_state sample_ctx 128 4 sample_datatype 1 0
                  sample_comm 200 41 sample_memory 42
                  eq_refl sample_comm_recognized eq_refl eq_refl
                  (in_I32_small 41 ltac:(lia)) eq_refl) eq_refl).
Defined.

(** The same send with its request slot at 65534, past the mapped page. *)
Lemma MPI_Isend_unmapped_slot_witness :
  exists st',
    MPI_Isend 128 4 sample_datatype 1 0 sample_comm 65534 ticket_state
    = Thrown "outOfBoundsMemoryAccess" st' /\
    st_trace st'
    = (st_trace ticket_state ++
       [EvView (arrayView 1 128 4);
        EvEngine (onWorld 7 (MpiWorld.isend 0 1 (arrayView 1 128 4)
                               (to_Uptr sample_datatype) 4))])%list /\
    st_memory st' = sample_memory /\
    st_engine st' = 42.
Proof.
  apply (MPI_Isend_sends_before_checking_the_request_slot
           ticket_state sample_ctx 128 4 sample_datatype 1 0 sample_comm
           65534 41 sample_memory 42
           eq_refl sample_comm_recognized eq_refl eq_refl eq_refl).
  unfold mapped. vm_compute. discriminate.
Defined.

(** A shift by 1 from rank 0: the engine answers (-1, 1). *)
Lemma MPI_Cart_shift_witness :
  exists st',
    MPI_Cart_shift sample_comm 0 1 200 204 ticket_state
    = Returned MPI_SUCCESS st' /\
    load_i32 (st_memory st') (to_Uptr 204) = to_I32 1 /\
    (to_Uptr 200 + 4 <= to_Uptr 204 \/ to_Uptr 204 + 4 <= to_Uptr 200 ->
     load_i32 (st_memory st') (to_Uptr 200) = to_I32 (-1)) /\
    (forall x,
        ~ (to_Uptr 200 <= x < to_Uptr 200 + 4) ->
        ~ (to_Uptr 204 <= x < to_Uptr 204 + 4) ->
        mem_byte (st_memory st') x = mem_byte sample_memory x).
Proof.
  exact (MPI_Cart_shift_writes_source_then_destination
           ticket_state sample_ctx sample_comm 0 1 200 204 (-1) 1
           sample_memory 41 eq_refl eq_refl eq_refl eq_refl).
Defined.

End TicketExtras.

Section DownExtras.
Local Existing Instance sampleAbi.
Local Existing Instance downEngine.


Lemma failed_world_destruction_witness :
  MPI_Finalize down_state
  = Thrown "Engine unreachable"
      (with_event down_state (EvEngine (onWorld 7 MpiWorld.destroy))) /\
  MPI_Abort 1 1 down_state
  = Thrown "Engine unreachable"
      (with_event down_state (EvEngine (onWorld 7 MpiWorld.destroy))) /\
  st_ctx (with_event down_state (EvEngine (onWorld 7 MpiWorld.destroy)))
  = Some sample_ctx.
Proof.
  exact (failed_world_destruction_keeps_the_context
           down_state sample_ctx "Engine unreachable" 1 1 eq_refl eq_refl).
Defined.

(** The world is created (id 7) and the registry lookup fails. *)
Lemma MPI_Init_records_the_world_witness :
  exists st',
    MPI_Init 0 0 down_fresh = Thrown "Engine unreachable" st' /\
    st_call st' = set_mpiworldid (st_call down_fresh) 7 /\
    st_ctx st' = st_ctx down_fresh.
Proof.
  apply (MPI_Init_records_the_world_before_the_lookup
           down_fresh 0 0 7 sample_memory tt "Engine unreachable");
    [cbn; lia | reflexivity | reflexivity].
Defined.

End DownExtras.
